(** * The Lighter order-execution engine (trader/lighter_trader.go)

    A shallow embedding of the Go type [LighterTrader] and of its methods,
    followed by the properties of the engine's specification.

    - [float64] values are IEEE 754 binary64 numbers ([spec_float] at
      precision 53, exponent bound 1024), with the operations the code uses.
    - Go strings are byte strings ([string]); [len] is [String.length].
    - The cache [marketInfoCache] is a [gmap string lighterOrderBook].
    - Calls that leave the process (HTTP requests, the transaction client,
      the clock) are answered by an [Exchange] and recorded in a trace.
    - [log.Printf] only writes diagnostics and is left out. *)

From Stdlib Require Import ZArith NArith String Ascii List Bool Lia.
From Stdlib Require Import Floats.SpecFloat.
From stdpp Require Import base option list gmap strings.

Local Open Scope Z_scope.

(** ** float64 *)

Module F64.

Definition prec : Z := 53.
Definition emax : Z := 1024.

Definition float64 : Type := spec_float.

Definition add : float64 -> float64 -> float64 := SFadd prec emax.
Definition mul : float64 -> float64 -> float64 := SFmul prec emax.
Definition div : float64 -> float64 -> float64 := SFdiv prec emax.
Definition opp : float64 -> float64 := SFopp.
Definition eqb : float64 -> float64 -> bool := SFeqb.
Definition ltb : float64 -> float64 -> bool := SFltb.

(** The float64 nearest to an integer (exact below 2^53). *)
Definition of_Z (z : Z) : float64 := binary_normalize prec emax z 0 false.

(** A decimal constant [n / d] of the source text, rounded to nearest-even
    as the Go compiler does when it converts a constant to float64: both
    operands are exact and the division is correctly rounded. *)
Definition lit (n d : Z) : float64 := div (of_Z n) (of_Z d).

Definition zero : float64 := S754_zero false.

(** The integer part of a finite float, fraction discarded (towards 0). *)
Definition trunc (x : float64) : option Z :=
  match x with
  | S754_zero _ => Some 0
  | S754_finite s m e =>
      Some (cond_Zopp s
              (match e with
               | Zneg k => Z.pos m / 2 ^ Z.pos k
               | _ => Z.pos m * 2 ^ e
               end))
  | S754_infinity _ | S754_nan => None
  end.

End F64.

Abbreviation float64 := F64.float64.

(** ** What the code takes from outside the repository

    [strconv.ParseFloat(s, 64)] (the value and whether [err == nil]), the
    result of a float-to-integer conversion whose value does not fit the
    target type (implementation-dependent in Go), and two constants of the
    transaction library. *)

Class Externals := {
  strconv_ParseFloat : string -> float64 * bool;
  int64_of_unrepresentable : float64 -> Z;
  uint32_of_unrepresentable : float64 -> Z;
  NilOrderTriggerPrice : Z;
  NilOrderExpiry : Z
}.

(** ** Strings *)

(** [convertSymbolToLighterCoin]: drop the "USDT" suffix. *)
Definition convertSymbolToLighterCoin (symbol : string) : string :=
  let n := String.length symbol in
  if (4 <? n)%nat && String.eqb (substring (n - 4) 4 symbol) "USDT"
  then substring 0 (n - 4) symbol
  else symbol.


(** ** Integer conversions and arithmetic of Go *)

Section Conversions.
Context {ext : Externals}.

(** [int64(x)] for a float64 [x]: the fraction is discarded; a value that
    does not fit is implementation-dependent. *)
Definition int64_of_float64 (x : float64) : Z :=
  match F64.trunc x with
  | Some z =>
      if (- 2 ^ 63 <=? z) && (z <? 2 ^ 63) then z
      else int64_of_unrepresentable x
  | None => int64_of_unrepresentable x
  end.

(** [uint32(x)] for a float64 [x]. *)
Definition uint32_of_float64 (x : float64) : Z :=
  match F64.trunc x with
  | Some z =>
      if (0 <=? z) && (z <? 2 ^ 32) then z
      else uint32_of_unrepresentable x
  | None => uint32_of_unrepresentable x
  end.

End Conversions.

(** [uint16(n)] for an integer [n]: the low 16 bits. *)
Definition uint16_of_int (n : Z) : Z := n mod 2 ^ 16.

(** [a / b] on [int]: truncated division; a zero divisor panics ([None]). *)
Definition int_div (a b : Z) : option Z :=
  if b =? 0 then None else Some (Z.quot a b).

(** [absFloat64] *)
Definition absFloat64 (x : float64) : float64 :=
  if F64.ltb x F64.zero then F64.opp x else x.

(** ** Data model *)

(** [lighterOrderBook]: the metadata of one market. *)
Module lighterOrderBook.
Record t := {
  Symbol : string;
  MarketID : N;
  Status : string;
  TakerFee : string;
  MakerFee : string;
  LiquidationFee : string;
  MinBaseAmount : string;
  MinQuoteAmount : string;
  SupportedSizeDecimals : N;
  SupportedPriceDecimals : N;
  SupportedQuoteDecimals : N
}.
End lighterOrderBook.

Module lighterOrderBooksResponse.
Record t := {
  Code : Z;
  Message : string;
  OrderBooks : list lighterOrderBook.t
}.
End lighterOrderBooksResponse.

Module lighterAccountPosition.
Record t := {
  MarketID : N;
  Symbol : string;
  InitialMarginFraction : string;
  Sign : Z;
  Position : string;
  AvgEntryPrice : string;
  PositionValue : string;
  UnrealizedPnl : string;
  RealizedPnl : string;
  LiquidationPrice : string;
  MarginMode : Z;
  AllocatedMargin : string
}.
End lighterAccountPosition.

Module lighterAccount.
Record t := {
  Index : Z;
  AvailableBalance : string;
  Collateral : string;
  Positions : list lighterAccountPosition.t
}.
End lighterAccount.

Module lighterAccountResponse.
Record t := {
  Code : Z;
  Message : string;
  Total : Z;
  Accounts : list lighterAccount.t
}.
End lighterAccountResponse.

(** A decoded JSON value held in an [interface{}]. A decoded object (a Go
    map) is kept as the list of its entries; [any_lookup] is the map index
    expression. *)
#[local] Unset Elimination Schemes.
Inductive go_any :=
| AnyNil
| AnyBool (b : bool)
| AnyFloat (f : float64)
| AnyString (s : string)
| AnySlice (l : list go_any)
| AnyMap (m : list (string * go_any)).
#[local] Set Elimination Schemes.

Fixpoint any_lookup (k : string) (m : list (string * go_any)) : option go_any :=
  match m with
  | [] => None
  | (k', v) :: m' => if String.eqb k k' then Some v else any_lookup k m'
  end.

(** The element of [GetPositions]' result: a map with exactly these keys. *)
Module PositionMap.
Record t := {
  symbol : string;
  side : string;
  positionAmt : float64;
  entryPrice : float64;
  markPrice : float64;
  unRealizedProfit : float64;
  leverage : float64;
  liquidationPrice : float64
}.
End PositionMap.

(** Requests handed to the transaction client. *)
Inductive MarginMode := CrossMargin.
Inductive OrderType := LimitOrder | StopLossOrder | TakeProfitOrder.
Inductive TimeInForce := ImmediateOrCancel | ImmediateCancelAll.

Module UpdateLeverageTxReq.
Record t := {
  MarketIndex : N;
  InitialMarginFraction : Z;
  MarginMode : MarginMode
}.
End UpdateLeverageTxReq.

Module CreateOrderTxReq.
Record t := {
  MarketIndex : N;
  ClientOrderIndex : Z;
  BaseAmount : Z;
  Price : Z;
  IsAsk : Z;
  Type_ : OrderType;
  TimeInForce : TimeInForce;
  ReduceOnly : Z;
  TriggerPrice : Z;
  OrderExpiry : Z
}.
End CreateOrderTxReq.

Module CancelAllOrdersTxReq.
Record t := {
  TimeInForce : TimeInForce;
  Time : Z
}.
End CancelAllOrdersTxReq.

(** The map returned by the open and close operations. *)
Module OrderResult.
Record t := {
  orderId : Z;
  symbol : string;
  status : string;
  hash : string
}.
End OrderResult.

(** ** The outside world *)

(** What an HTTP GET followed by [io.ReadAll] and [json.Unmarshal] yields:
    the request fails, the body cannot be read, or there is a status code
    and the decoded body ([None] when decoding fails). *)
Inductive http_result (A : Type) :=
| GetFailed
| ReadFailed
| Response (status : Z) (body : option A).
Arguments GetFailed {A}.
Arguments ReadFailed {A}.
Arguments Response {A} status body.

(** The calls that leave the process, as recorded in the trace. *)
Inductive Call :=
| GetOrderBooks
| GetAccount (accountIndex : Z)
| GetOrderBookDetails (market_id : N)
| UpdateLeverageTx (req : UpdateLeverageTxReq.t)
| CreateOrderTx (req : CreateOrderTxReq.t)
| CancelAllOrdersTx (req : CancelAllOrdersTxReq.t).

(** The answers of the outside world. The first argument is the number of
    questions asked so far, so that the same request may be answered
    differently each time. The transaction client answers with the signed
    hash, or [None] for an error; [time_now] is in Unix nanoseconds. *)
Record Exchange := {
  http_orderBooks : nat -> http_result lighterOrderBooksResponse.t;
  http_account : nat -> Z -> http_result lighterAccountResponse.t;
  http_orderBookDetails : nat -> N -> http_result (list (string * go_any));
  tx_updateLeverage : nat -> UpdateLeverageTxReq.t -> option string;
  tx_createOrder : nat -> CreateOrderTxReq.t -> option string;
  tx_cancelAllOrders : nat -> CancelAllOrdersTxReq.t -> option string;
  time_now : nat -> Z
}.

(** The errors built by [fmt.Errorf], one constructor per message. *)
Inductive error :=
| ErrGetFailed          (* http.Get failed *)
| ErrReadFailed         (* reading the body failed *)
| ErrStatus (code : Z)  (* status code other than 200 *)
| ErrDecode             (* json.Unmarshal failed *)
| ErrApi (msg : string) (* response code other than 200 *)
| ErrMarketIndexNotFound (symbol : string)
| ErrMarketInfoNotFound (symbol : string)
| ErrPriceUnavailable (symbol : string)
| ErrSetLeverage
| ErrOpenLong
| ErrOpenShort
| ErrCloseLong
| ErrCloseShort
| ErrCancelAllOrders
| ErrNoLongPosition (symbol : string)
| ErrNoShortPosition (symbol : string)
| ErrNoAccount          (* the account list is empty *)
| ErrSetStopLoss
| ErrSetTakeProfit
| ErrCreateHttpClient
| ErrCreateTxClient.

(** ** The engine's state and its monad *)

(** [LighterTrader], together with the questions asked so far ([asked]) and
    the trace of calls, oldest first. *)
Record State := {
  accountIndex : Z;
  marketInfoCache : gmap string lighterOrderBook.t;
  asked : nat;
  trace : list Call
}.

(** A method returns a value, returns an error, or panics. *)
Inductive outcome (A : Type) :=
| Ok (a : A)
| Err (e : error)
| Panic.
Arguments Ok {A} a.
Arguments Err {A} e.
Arguments Panic {A}.

Definition M (A : Type) : Type := Exchange -> State -> State * outcome A.

#[global] Instance M_ret : MRet M := fun A a _ st => (st, Ok a).

#[global] Instance M_bind : MBind M := fun A B f m ex st =>
  match m ex st with
  | (st', Ok a) => f a ex st'
  | (st', Err e) => (st', Err e)
  | (st', Panic) => (st', Panic)
  end.

Definition fail {A} (e : error) : M A := fun _ st => (st, Err e).

Definition panic {A} : M A := fun _ st => (st, Panic).

(** Run [m] and hand its error, if any, to the caller as a value. *)
Definition attempt {A} (m : M A) : M (option error) := fun ex st =>
  match m ex st with
  | (st', Ok _) => (st', Ok None)
  | (st', Err e) => (st', Ok (Some e))
  | (st', Panic) => (st', Panic)
  end.

Definition get_cache : M (gmap string lighterOrderBook.t) :=
  fun _ st => (st, Ok (marketInfoCache st)).

Definition set_cache (c : gmap string lighterOrderBook.t) : M unit :=
  fun _ st =>
    ({| accountIndex := accountIndex st; marketInfoCache := c;
        asked := asked st; trace := trace st |}, Ok tt).

Definition get_accountIndex : M Z := fun _ st => (st, Ok (accountIndex st)).

(** Ask the outside world: the call is appended to the trace. *)
Definition ask {A} (c : Call) (answer : Exchange -> nat -> A) : M A :=
  fun ex st =>
    ({| accountIndex := accountIndex st; marketInfoCache := marketInfoCache st;
        asked := S (asked st); trace := trace st ++ [c] |},
     Ok (answer ex (asked st))).

(** [time.Now()], in Unix nanoseconds. *)
Definition now : M Z := fun ex st =>
  ({| accountIndex := accountIndex st; marketInfoCache := marketInfoCache st;
      asked := S (asked st); trace := trace st |},
   Ok (time_now ex (asked st))).

(** The checks made on every HTTP answer, in the order of the code: the
    request, the body, the status code, the decoding. *)
Definition body_of {A} (r : http_result A) : M A :=
  match r with
  | GetFailed => fail ErrGetFailed
  | ReadFailed => fail ErrReadFailed
  | Response status body =>
      if negb (status =? 200) then fail (ErrStatus status)
      else match body with
           | None => fail ErrDecode
           | Some resp => mret resp
           end
  end.

(** The check of the response's own code field. *)
Definition code_ok (code : Z) (message : string) : M unit :=
  if negb (code =? 200) then fail (ErrApi message) else mret tt.

(** ** Market metadata cache *)

(** [loadMarketInfo] *)
Definition loadMarketInfo : M unit :=
  r ← ask GetOrderBooks http_orderBooks;
  orderBooksResp ← body_of r;
  _ ← code_ok (lighterOrderBooksResponse.Code orderBooksResp)
        (lighterOrderBooksResponse.Message orderBooksResp);
  cache ← get_cache;
  set_cache
    (foldl (fun c market => <[lighterOrderBook.Symbol market := market]> c)
       cache (lighterOrderBooksResponse.OrderBooks orderBooksResp)).

(** [getMarketIndex] *)
Definition getMarketIndex (symbol : string) : M N :=
  let coin := convertSymbolToLighterCoin symbol in
  cache ← get_cache;
  match cache !! coin with
  | Some marketInfo => mret (lighterOrderBook.MarketID marketInfo)
  | None =>
      err ← attempt loadMarketInfo;
      match err with
      | Some _ => fail (ErrMarketIndexNotFound symbol)
      | None =>
          cache ← get_cache;
          match cache !! coin with
          | Some marketInfo => mret (lighterOrderBook.MarketID marketInfo)
          | None => fail (ErrMarketIndexNotFound symbol)
          end
      end
  end.

(** ** Numeric codec *)

Section Codec.
Context {ext : Externals}.

(** The loop [multiplier *= 10.0], run [decimals] times from [1.0]. *)
Definition multiplier (decimals : N) : float64 :=
  N.iter decimals (fun m => F64.mul m (F64.of_Z 10)) (F64.of_Z 1).

(** [convertToBaseAmount] *)
Definition convertToBaseAmount (cache : gmap string lighterOrderBook.t)
    (symbol : string) (quantity : float64) : Z :=
  let coin := convertSymbolToLighterCoin symbol in
  match cache !! coin with
  | Some marketInfo =>
      int64_of_float64
        (F64.mul quantity
           (multiplier (lighterOrderBook.SupportedSizeDecimals marketInfo)))
  | None => int64_of_float64 (F64.mul quantity (F64.of_Z 10000))
  end.

(** [convertToLighterPrice] *)
Definition convertToLighterPrice (cache : gmap string lighterOrderBook.t)
    (symbol : string) (price : float64) : Z :=
  let coin := convertSymbolToLighterCoin symbol in
  match cache !! coin with
  | Some marketInfo =>
      uint32_of_float64
        (F64.mul price
           (multiplier (lighterOrderBook.SupportedPriceDecimals marketInfo)))
  | None => uint32_of_float64 (F64.mul price (F64.of_Z 10000))
  end.

End Codec.

(** ** Account snapshot reader and workflows *)

Section Engine.
Context {ext : Externals}.

(** The body of the loop of [GetPositions]: [None] when the position is
    skipped. *)
Definition position_entry (pos : lighterAccountPosition.t)
    : option PositionMap.t :=
  let position := fst (strconv_ParseFloat (lighterAccountPosition.Position pos)) in
  if F64.eqb position F64.zero then None
  else
    let symbol := (lighterAccountPosition.Symbol pos ++ "USDT")%string in
    let '(side, positionAmt) :=
      if 0 <? lighterAccountPosition.Sign pos
      then ("long"%string, position)
      else ("short"%string, absFloat64 position) in
    let entryPrice :=
      fst (strconv_ParseFloat (lighterAccountPosition.AvgEntryPrice pos)) in
    let positionValue :=
      fst (strconv_ParseFloat (lighterAccountPosition.PositionValue pos)) in
    let unrealizedPnl :=
      fst (strconv_ParseFloat (lighterAccountPosition.UnrealizedPnl pos)) in
    let liquidationPrice :=
      fst (strconv_ParseFloat (lighterAccountPosition.LiquidationPrice pos)) in
    let markPrice :=
      if negb (F64.eqb position F64.zero)
      then F64.div positionValue (absFloat64 position)
      else F64.zero in
    let imf :=
      fst (strconv_ParseFloat (lighterAccountPosition.InitialMarginFraction pos)) in
    let leverage :=
      if F64.ltb F64.zero imf then F64.div (F64.of_Z 100) imf else F64.zero in
    Some {| PositionMap.symbol := symbol;
            PositionMap.side := side;
            PositionMap.positionAmt := positionAmt;
            PositionMap.entryPrice := entryPrice;
            PositionMap.markPrice := markPrice;
            PositionMap.unRealizedProfit := unrealizedPnl;
            PositionMap.leverage := leverage;
            PositionMap.liquidationPrice := liquidationPrice |}.

(** [GetPositions] *)
Definition GetPositions : M (list PositionMap.t) :=
  idx ← get_accountIndex;
  r ← ask (GetAccount idx) (fun ex n => http_account ex n idx);
  accountResp ← body_of r;
  _ ← code_ok (lighterAccountResponse.Code accountResp)
        (lighterAccountResponse.Message accountResp);
  match lighterAccountResponse.Accounts accountResp with
  | [] => mret []
  | account :: _ => mret (omap position_entry (lighterAccount.Positions account))
  end.

(** The price string of the first level of one side of the book. *)
Definition first_level_price (side : string) (detail : list (string * go_any))
    : float64 :=
  match any_lookup side detail with
  | Some (AnySlice (AnyMap level :: _)) =>
      match any_lookup "price" level with
      | Some (AnyString priceStr) => fst (strconv_ParseFloat priceStr)
      | _ => F64.zero
      end
  | _ => F64.zero
  end.

(** [GetMarketPrice] *)
Definition GetMarketPrice (symbol : string) : M float64 :=
  let coin := convertSymbolToLighterCoin symbol in
  cache ← get_cache;
  match cache !! coin with
  | None => fail (ErrMarketInfoNotFound symbol)
  | Some marketInfo =>
      let id := lighterOrderBook.MarketID marketInfo in
      r ← ask (GetOrderBookDetails id) (fun ex n => http_orderBookDetails ex n id);
      orderBookDetail ← body_of r;
      let fromBook :=
        let askPrice := first_level_price "asks" orderBookDetail in
        let bidPrice := first_level_price "bids" orderBookDetail in
        if F64.ltb F64.zero askPrice && F64.ltb F64.zero bidPrice
        then mret (F64.div (F64.add askPrice bidPrice) (F64.of_Z 2))
        else fail (ErrPriceUnavailable symbol) in
      match any_lookup "mark_price" orderBookDetail with
      | Some (AnyString markPriceStr) =>
          let '(markPrice, ok) := strconv_ParseFloat markPriceStr in
          if ok then mret markPrice else fromBook
      | _ => fromBook
      end
  end.

(** [CancelAllOrders]; [UnixMilli] is the floor of the nanoseconds by 10^6. *)
Definition CancelAllOrders (symbol : string) : M unit :=
  t ← now;
  let cancelAllTx :=
    {| CancelAllOrdersTxReq.TimeInForce := ImmediateCancelAll;
       CancelAllOrdersTxReq.Time := t / 1000000 |} in
  r ← ask (CancelAllOrdersTx cancelAllTx)
        (fun ex n => tx_cancelAllOrders ex n cancelAllTx);
  match r with
  | None => fail ErrCancelAllOrders
  | Some _ => mret tt
  end.

(** [SetLeverage] *)
Definition SetLeverage (symbol : string) (leverage : Z) : M unit :=
  marketIndex ← getMarketIndex symbol;
  match int_div 10000 leverage with
  | None => panic
  | Some q =>
      let imf := uint16_of_int q in
      let updateLeverageTx :=
        {| UpdateLeverageTxReq.MarketIndex := marketIndex;
           UpdateLeverageTxReq.InitialMarginFraction := imf;
           UpdateLeverageTxReq.MarginMode := CrossMargin |} in
      r ← ask (UpdateLeverageTx updateLeverageTx)
            (fun ex n => tx_updateLeverage ex n updateLeverageTx);
      match r with
      | None => fail ErrSetLeverage
      | Some _ => mret tt
      end
  end.

(** The request of the open and close operations: an IOC limit order. *)
Definition ioc_order (marketIndex : N) (clientOrderIndex baseAmount price : Z)
    (isAsk reduceOnly : Z) : CreateOrderTxReq.t :=
  {| CreateOrderTxReq.MarketIndex := marketIndex;
     CreateOrderTxReq.ClientOrderIndex := clientOrderIndex;
     CreateOrderTxReq.BaseAmount := baseAmount;
     CreateOrderTxReq.Price := price;
     CreateOrderTxReq.IsAsk := isAsk;
     CreateOrderTxReq.Type_ := LimitOrder;
     CreateOrderTxReq.TimeInForce := ImmediateOrCancel;
     CreateOrderTxReq.ReduceOnly := reduceOnly;
     CreateOrderTxReq.TriggerPrice := NilOrderTriggerPrice;
     CreateOrderTxReq.OrderExpiry := NilOrderExpiry |}.

Definition pending (clientOrderIndex : Z) (symbol hash : string)
    : OrderResult.t :=
  {| OrderResult.orderId := clientOrderIndex;
     OrderResult.symbol := symbol;
     OrderResult.status := "PENDING";
     OrderResult.hash := hash |}.

(** [OpenLong] *)
Definition OpenLong (symbol : string) (quantity : float64) (leverage : Z)
    : M OrderResult.t :=
  _ ← attempt (CancelAllOrders symbol);
  _ ← SetLeverage symbol leverage;
  marketIndex ← getMarketIndex symbol;
  price ← GetMarketPrice symbol;
  cache ← get_cache;
  let baseAmount := convertToBaseAmount cache symbol quantity in
  let lighterPrice :=
    convertToLighterPrice cache symbol (F64.mul price (F64.lit 101 100)) in
  t ← now;
  let clientOrderIndex := Z.quot t 1000000 in
  let createOrderTx :=
    ioc_order marketIndex clientOrderIndex baseAmount lighterPrice 0 0 in
  r ← ask (CreateOrderTx createOrderTx)
        (fun ex n => tx_createOrder ex n createOrderTx);
  match r with
  | None => fail ErrOpenLong
  | Some hash => mret (pending clientOrderIndex symbol hash)
  end.

(** [OpenShort] *)
Definition OpenShort (symbol : string) (quantity : float64) (leverage : Z)
    : M OrderResult.t :=
  _ ← attempt (CancelAllOrders symbol);
  _ ← SetLeverage symbol leverage;
  marketIndex ← getMarketIndex symbol;
  price ← GetMarketPrice symbol;
  cache ← get_cache;
  let baseAmount := convertToBaseAmount cache symbol quantity in
  let lighterPrice :=
    convertToLighterPrice cache symbol (F64.mul price (F64.lit 99 100)) in
  t ← now;
  let clientOrderIndex := Z.quot t 1000000 in
  let createOrderTx :=
    ioc_order marketIndex clientOrderIndex baseAmount lighterPrice 1 0 in
  r ← ask (CreateOrderTx createOrderTx)
        (fun ex n => tx_createOrder ex n createOrderTx);
  match r with
  | None => fail ErrOpenShort
  | Some hash => mret (pending clientOrderIndex symbol hash)
  end.

(** The first lines of [CloseLong] and [CloseShort]: with a zero quantity,
    take the amount of the first position of [symbol] on [side]. *)
Definition resolve_quantity (symbol side : string) (quantity : float64)
    (notFound : error) : M float64 :=
  if F64.eqb quantity F64.zero then
    positions ← GetPositions;
    let quantity :=
      match find (fun pos => String.eqb (PositionMap.symbol pos) symbol
                             && String.eqb (PositionMap.side pos) side)
                 positions with
      | Some pos => PositionMap.positionAmt pos
      | None => quantity
      end in
    if F64.eqb quantity F64.zero then fail notFound else mret quantity
  else mret quantity.

(** [CloseLong] *)
Definition CloseLong (symbol : string) (quantity : float64)
    : M OrderResult.t :=
  quantity ← resolve_quantity symbol "long" quantity (ErrNoLongPosition symbol);
  marketIndex ← getMarketIndex symbol;
  price ← GetMarketPrice symbol;
  cache ← get_cache;
  let baseAmount := convertToBaseAmount cache symbol quantity in
  let lighterPrice :=
    convertToLighterPrice cache symbol (F64.mul price (F64.lit 99 100)) in
  t ← now;
  let clientOrderIndex := Z.quot t 1000000 in
  let createOrderTx :=
    ioc_order marketIndex clientOrderIndex baseAmount lighterPrice 1 1 in
  r ← ask (CreateOrderTx createOrderTx)
        (fun ex n => tx_createOrder ex n createOrderTx);
  match r with
  | None => fail ErrCloseLong
  | Some hash =>
      _ ← attempt (CancelAllOrders symbol);
      mret (pending clientOrderIndex symbol hash)
  end.

(** [CloseShort] *)
Definition CloseShort (symbol : string) (quantity : float64)
    : M OrderResult.t :=
  quantity ← resolve_quantity symbol "short" quantity (ErrNoShortPosition symbol);
  marketIndex ← getMarketIndex symbol;
  price ← GetMarketPrice symbol;
  cache ← get_cache;
  let baseAmount := convertToBaseAmount cache symbol quantity in
  let lighterPrice :=
    convertToLighterPrice cache symbol (F64.mul price (F64.lit 101 100)) in
  t ← now;
  let clientOrderIndex := Z.quot t 1000000 in
  let createOrderTx :=
    ioc_order marketIndex clientOrderIndex baseAmount lighterPrice 0 1 in
  r ← ask (CreateOrderTx createOrderTx)
        (fun ex n => tx_createOrder ex n createOrderTx);
  match r with
  | None => fail ErrCloseShort
  | Some hash =>
      _ ← attempt (CancelAllOrders symbol);
      mret (pending clientOrderIndex symbol hash)
  end.

End Engine.

(** ** The rest of the engine *)

(** [LighterConfig] *)
Module LighterConfig.
Record t := {
  Endpoint : string;
  APIKeyPrivKey : string;
  AccountIndex : Z;
  APIKeyIndex : N;
  ChainID : N
}.
End LighterConfig.

(** [NewLighterTrader]. The two clients come from the client library:
    [httpClient] tells whether [NewClient] returned a client, [txClient]
    whether [NewTxClient] returned without an error. The error of the first
    load of the markets is logged and dropped. *)
Definition NewLighterTrader (httpClient txClient : bool)
    (config : LighterConfig.t) (ex : Exchange) : outcome State :=
  if negb httpClient then Err ErrCreateHttpClient
  else if negb txClient then Err ErrCreateTxClient
  else
    let trader :=
      {| accountIndex := LighterConfig.AccountIndex config;
         marketInfoCache := ∅;
         asked := 0;
         trace := [] |} in
    match attempt loadMarketInfo ex trader with
    | (trader, Ok _) => Ok trader
    | (_, Err e) => Err e
    | (_, Panic) => Panic
    end.

(** [SetMarginMode]: only logs. *)
Definition SetMarginMode (symbol : string) (isCrossMargin : bool) : M unit :=
  mret tt.

(** Negation on int64 wraps around. *)
Definition int64_wrap (z : Z) : Z := (z + 2 ^ 63) mod 2 ^ 64 - 2 ^ 63.

(** [absInt64] *)
Definition absInt64 (x : Z) : Z :=
  if x <? 0 then int64_wrap (- x) else x.

Definition f64_sub : float64 -> float64 -> float64 := SFsub F64.prec F64.emax.

(** The map returned by [GetBalance]. *)
Module Balance.
Record t := {
  totalWalletBalance : float64;
  availableBalance : float64;
  totalUnrealizedProfit : float64
}.
End Balance.

(** [time.Hour], in nanoseconds. *)
Definition time_Hour : Z := 3600000000000.

Section EngineRest.
Context {ext : Externals}.

(** [GetBalance] *)
Definition GetBalance : M Balance.t :=
  idx ← get_accountIndex;
  r ← ask (GetAccount idx) (fun ex n => http_account ex n idx);
  accountResp ← body_of r;
  _ ← code_ok (lighterAccountResponse.Code accountResp)
        (lighterAccountResponse.Message accountResp);
  match lighterAccountResponse.Accounts accountResp with
  | [] => fail ErrNoAccount
  | account :: _ =>
      let availableBalance :=
        fst (strconv_ParseFloat (lighterAccount.AvailableBalance account)) in
      let collateral :=
        fst (strconv_ParseFloat (lighterAccount.Collateral account)) in
      let totalUnrealizedPnl :=
        foldl (fun total pos =>
                 F64.add total
                   (fst (strconv_ParseFloat
                           (lighterAccountPosition.UnrealizedPnl pos))))
          F64.zero (lighterAccount.Positions account) in
      let walletBalanceWithoutUnrealized :=
        f64_sub collateral totalUnrealizedPnl in
      mret {| Balance.totalWalletBalance := walletBalanceWithoutUnrealized;
              Balance.availableBalance := availableBalance;
              Balance.totalUnrealizedProfit := totalUnrealizedPnl |}
  end.

(** [SetStopLoss] *)
Definition SetStopLoss (symbol positionSide : string)
    (quantity stopPrice : float64) : M unit :=
  marketIndex ← getMarketIndex symbol;
  let isAsk := if String.eqb positionSide "LONG" then 1 else 0 in
  cache ← get_cache;
  let baseAmount := convertToBaseAmount cache symbol quantity in
  let lighterPrice := convertToLighterPrice cache symbol stopPrice in
  let triggerPrice := convertToLighterPrice cache symbol stopPrice in
  t ← now;
  let clientOrderIndex := Z.quot t 1000000 in
  t' ← now;
  let orderExpiry := (t' + 30 * 24 * time_Hour) / 1000000 in
  let createOrderTx :=
    {| CreateOrderTxReq.MarketIndex := marketIndex;
       CreateOrderTxReq.ClientOrderIndex := clientOrderIndex;
       CreateOrderTxReq.BaseAmount := baseAmount;
       CreateOrderTxReq.Price := lighterPrice;
       CreateOrderTxReq.IsAsk := isAsk;
       CreateOrderTxReq.Type_ := StopLossOrder;
       CreateOrderTxReq.TimeInForce := ImmediateOrCancel;
       CreateOrderTxReq.ReduceOnly := 1;
       CreateOrderTxReq.TriggerPrice := triggerPrice;
       CreateOrderTxReq.OrderExpiry := orderExpiry |} in
  r ← ask (CreateOrderTx createOrderTx)
        (fun ex n => tx_createOrder ex n createOrderTx);
  match r with
  | None => fail ErrSetStopLoss
  | Some _ => mret tt
  end.

(** [SetTakeProfit] *)
Definition SetTakeProfit (symbol positionSide : string)
    (quantity takeProfitPrice : float64) : M unit :=
  marketIndex ← getMarketIndex symbol;
  let isAsk := if String.eqb positionSide "LONG" then 1 else 0 in
  cache ← get_cache;
  let baseAmount := convertToBaseAmount cache symbol quantity in
  let lighterPrice := convertToLighterPrice cache symbol takeProfitPrice in
  let triggerPrice := convertToLighterPrice cache symbol takeProfitPrice in
  t ← now;
  let clientOrderIndex := Z.quot t 1000000 in
  t' ← now;
  let orderExpiry := (t' + 30 * 24 * time_Hour) / 1000000 in
  let createOrderTx :=
    {| CreateOrderTxReq.MarketIndex := marketIndex;
       CreateOrderTxReq.ClientOrderIndex := clientOrderIndex;
       CreateOrderTxReq.BaseAmount := baseAmount;
       CreateOrderTxReq.Price := lighterPrice;
       CreateOrderTxReq.IsAsk := isAsk;
       CreateOrderTxReq.Type_ := TakeProfitOrder;
       CreateOrderTxReq.TimeInForce := ImmediateOrCancel;
       CreateOrderTxReq.ReduceOnly := 1;
       CreateOrderTxReq.TriggerPrice := triggerPrice;
       CreateOrderTxReq.OrderExpiry := orderExpiry |} in
  r ← ask (CreateOrderTx createOrderTx)
        (fun ex n => tx_createOrder ex n createOrderTx);
  match r with
  | None => fail ErrSetTakeProfit
  | Some _ => mret tt
  end.

End EngineRest.

(** The last steps that [CloseLong] and [CloseShort] have in common, from the
    encoding on; the two differ in the price factor, the side and the error.
    Used to state lemmas about both. *)
Definition close_tail `{ext : Externals} (symbol : string)
    (quantity factor : float64) (isAsk : Z) (failure : error)
    (marketIndex : N) (price : float64) : M OrderResult.t :=
  cache ← get_cache;
  let baseAmount := convertToBaseAmount cache symbol quantity in
  let lighterPrice :=
    convertToLighterPrice cache symbol (F64.mul price factor) in
  t ← now;
  let clientOrderIndex := Z.quot t 1000000 in
  let createOrderTx :=
    ioc_order marketIndex clientOrderIndex baseAmount lighterPrice isAsk 1 in
  r ← ask (CreateOrderTx createOrderTx)
        (fun ex n => tx_createOrder ex n createOrderTx);
  match r with
  | None => fail failure
  | Some hash =>
      _ ← attempt (CancelAllOrders symbol);
      mret (pending clientOrderIndex symbol hash)
  end.

(** The exchange [ex] with other answers to the cancellation requests. *)
Definition with_cancel_answers
    (answers : nat -> CancelAllOrdersTxReq.t -> option string) (ex : Exchange)
    : Exchange :=
  {| http_orderBooks := http_orderBooks ex;
     http_account := http_account ex;
     http_orderBookDetails := http_orderBookDetails ex;
     tx_updateLeverage := tx_updateLeverage ex;
     tx_createOrder := tx_createOrder ex;
     tx_cancelAllOrders := answers;
     time_now := time_now ex |}.

(** The last market of a list with a given symbol: the one a reload keeps. *)
Definition last_listed (k : string) (l : list lighterOrderBook.t)
    : option lighterOrderBook.t :=
  find (fun m => String.eqb (lighterOrderBook.Symbol m) k) (rev l).

(** The float is finite and greater than zero. *)
Definition finite_positive (x : float64) : bool :=
  match x with
  | S754_finite false _ _ => true
  | _ => false
  end.

(** ** Classifying the calls of a trace *)

Definition is_CreateOrderTx (c : Call) : bool :=
  match c with CreateOrderTx _ => true | _ => false end.

Definition is_CancelAllOrdersTx (c : Call) : bool :=
  match c with CancelAllOrdersTx _ => true | _ => false end.

Definition is_GetOrderBookDetails (c : Call) : bool :=
  match c with GetOrderBookDetails _ => true | _ => false end.

(** [st'] is [st] after the calls [new]: the trace only grows and the
    account index stays. *)
Record steps (st st' : State) (new : list Call) : Prop := {
  steps_account : accountIndex st' = accountIndex st;
  steps_trace : trace st' = trace st ++ new
}.

(** A call that neither creates an order nor cancels orders. *)
Definition quiet (c : Call) : bool :=
  negb (is_CreateOrderTx c) && negb (is_CancelAllOrdersTx c).

(** A call that neither fetches a price nor creates an order. *)
Definition before_price (c : Call) : bool :=
  negb (is_GetOrderBookDetails c) && negb (is_CreateOrderTx c).

(** The shape of the calls of a close operation. If it returns a result, its
    calls end with the order followed by the cancellation; if it returns an
    error, either no order and no cancellation was issued, or the error is
    [submitFailed] and the order is the last call; it does not panic. *)
Definition cancel_only_after_success (close : M OrderResult.t)
    (submitFailed : error) : Prop :=
  forall (ex : Exchange) (st st' : State) (out : outcome OrderResult.t),
    close ex st = (st', out) ->
    exists new,
      trace st' = trace st ++ new /\
      match out with
      | Ok _ =>
          exists pre req cancel,
            new = pre ++ [CreateOrderTx req; CancelAllOrdersTx cancel] /\
            forallb quiet pre = true
      | Err e =>
          forallb quiet new = true \/
          (e = submitFailed /\
           exists pre req,
             new = pre ++ [CreateOrderTx req] /\ forallb quiet pre = true)
      | Panic => False
      end.

(** ** The exact value of a float64 *)

(** [exactly x z]: the finite float [x] is the integer [z]. *)
Definition exactly (x : float64) (z : Z) : bool :=
  match x with
  | S754_zero _ => z =? 0
  | S754_finite s m e =>
      match e with
      | Zneg k => Z.pos m =? Z.abs z * 2 ^ Z.pos k
      | _ => Z.pos m * 2 ^ e =? Z.abs z
      end && Z.eqb (cond_Zopp s (Z.abs z)) z
  | _ => false
  end.

(** The magnitude of a finite float as a fraction [num / den]. *)
Definition magnitude (x : float64) : Z * Z :=
  match x with
  | S754_finite _ m e =>
      match e with
      | Zneg k => (Z.pos m, 2 ^ Z.pos k)
      | _ => (Z.pos m * 2 ^ e, 1)
      end
  | _ => (0, 1)
  end.

(** ** Concrete inputs *)

(** A reader of plain decimal numerals (sign, digits, optional point): the
    numeral [m / 10^k] is rounded once, by a correctly rounded division of
    two exact floats, which is what [strconv.ParseFloat] returns for numerals
    of at most 15 significant digits. Anything else is a syntax error. *)
Definition digit_of (c : ascii) : option Z :=
  let n := Z.of_nat (nat_of_ascii c) in
  if (48 <=? n) && (n <=? 57) then Some (n - 48) else None.

Fixpoint decimal_digits (s : string) (m : Z) (frac : option Z) (any : bool)
    : option (Z * Z) :=
  match s with
  | EmptyString => if any then Some (m, default 0 frac) else None
  | String c s' =>
      if Ascii.eqb c "."
      then match frac with
           | None => decimal_digits s' m (Some 0) any
           | Some _ => None
           end
      else match digit_of c with
           | Some d => decimal_digits s' (10 * m + d) (Z.succ <$> frac) true
           | None => None
           end
  end.

Definition decimal_ParseFloat (s : string) : float64 * bool :=
  let '(neg, body) :=
    match s with
    | String "-" s' => (true, s')
    | String "+" s' => (false, s')
    | _ => (false, s)
    end in
  match decimal_digits body 0 None false with
  | Some (m, k) =>
      (if m =? 0 then S754_zero neg
       else F64.lit (if neg then - m else m) (10 ^ k), true)
  | None => (F64.zero, false)
  end.

(** One admissible choice of what lies outside the repository. *)
Definition sample_externals : Externals :=
  {| strconv_ParseFloat := decimal_ParseFloat;
     int64_of_unrepresentable := fun _ => - 2 ^ 63;
     uint32_of_unrepresentable := fun _ => 0;
     NilOrderTriggerPrice := 0;
     NilOrderExpiry := 0 |}.

Definition market (symbol : string) (id sizeDecimals priceDecimals : N)
    : lighterOrderBook.t :=
  {| lighterOrderBook.Symbol := symbol;
     lighterOrderBook.MarketID := id;
     lighterOrderBook.Status := "active";
     lighterOrderBook.TakerFee := "0";
     lighterOrderBook.MakerFee := "0";
     lighterOrderBook.LiquidationFee := "0";
     lighterOrderBook.MinBaseAmount := "0";
     lighterOrderBook.MinQuoteAmount := "0";
     lighterOrderBook.SupportedSizeDecimals := sizeDecimals;
     lighterOrderBook.SupportedPriceDecimals := priceDecimals;
     lighterOrderBook.SupportedQuoteDecimals := 6 |}.

Definition ETH : lighterOrderBook.t := market "ETH" 0 4 2.
Definition BTC : lighterOrderBook.t := market "BTC" 1 5 1.
Definition OLD : lighterOrderBook.t := market "OLD" 7 3 3.

Definition account_position (symbol position : string) (sign : Z)
    : lighterAccountPosition.t :=
  {| lighterAccountPosition.MarketID := 0;
     lighterAccountPosition.Symbol := symbol;
     lighterAccountPosition.InitialMarginFraction := "10";
     lighterAccountPosition.Sign := sign;
     lighterAccountPosition.Position := position;
     lighterAccountPosition.AvgEntryPrice := "3000";
     lighterAccountPosition.PositionValue := "7500";
     lighterAccountPosition.UnrealizedPnl := "0";
     lighterAccountPosition.RealizedPnl := "0";
     lighterAccountPosition.LiquidationPrice := "0";
     lighterAccountPosition.MarginMode := 0;
     lighterAccountPosition.AllocatedMargin := "0" |}.

Definition account_with (positions : list lighterAccountPosition.t)
    : lighterAccountResponse.t :=
  {| lighterAccountResponse.Code := 200;
     lighterAccountResponse.Message := EmptyString;
     lighterAccountResponse.Total := 1;
     lighterAccountResponse.Accounts :=
       [ {| lighterAccount.Index := 1;
            lighterAccount.AvailableBalance := "100";
            lighterAccount.Collateral := "100";
            lighterAccount.Positions := positions |} ] |}.

(** An exchange that lists [markets], holds [positions], quotes the mark
    price 3000 and signs every transaction unless told otherwise. *)
Definition sample_exchange (markets : list lighterOrderBook.t)
    (positions : list lighterAccountPosition.t)
    (leverageOk createOk cancelOk : bool) : Exchange :=
  {| http_orderBooks := fun _ =>
       Response 200
         (Some {| lighterOrderBooksResponse.Code := 200;
                  lighterOrderBooksResponse.Message := EmptyString;
                  lighterOrderBooksResponse.OrderBooks := markets |});
     http_account := fun _ _ => Response 200 (Some (account_with positions));
     http_orderBookDetails := fun _ _ =>
       Response 200 (Some [("mark_price"%string, AnyString "3000")]);
     tx_updateLeverage := fun _ _ => if leverageOk then Some "h1"%string else None;
     tx_createOrder := fun _ _ => if createOk then Some "h2"%string else None;
     tx_cancelAllOrders := fun _ _ => if cancelOk then Some "h3"%string else None;
     time_now := fun n => 1700000000000000000 + Z.of_nat n |}.

Definition state_with (cache : gmap string lighterOrderBook.t) : State :=
  {| accountIndex := 1; marketInfoCache := cache; asked := 0; trace := [] |}.

(** An exchange that cannot be reached and a signer that refuses. *)
Definition offline_exchange : Exchange :=
  {| http_orderBooks := fun _ => GetFailed;
     http_account := fun _ _ => GetFailed;
     http_orderBookDetails := fun _ _ => GetFailed;
     tx_updateLeverage := fun _ _ => None;
     tx_createOrder := fun _ _ => None;
     tx_cancelAllOrders := fun _ _ => None;
     time_now := fun n => 1700000000000000000 + Z.of_nat n |}.

Definition sample_config : LighterConfig.t :=
  {| LighterConfig.Endpoint := "https://mainnet.zklighter.elliot.ai";
     LighterConfig.APIKeyPrivKey := "00";
     LighterConfig.AccountIndex := 1;
     LighterConfig.APIKeyIndex := 0;
     LighterConfig.ChainID := 2 |}.

(** * Properties *)

Lemma substring_whole (s : string) : substring 0 (String.length s) s = s.
Proof. induction s as [|c s IH]; simpl; [reflexivity | now rewrite IH]. Qed.

Lemma substring_split (s : string) (k : nat) :
  (k <= String.length s)%nat ->
  (substring 0 k s ++ substring k (String.length s - k) s)%string = s.
Proof.
  revert k; induction s as [|c s IH]; intros [|k] Hk; simpl in *;
    try reflexivity; try lia.
  - now rewrite substring_whole.
  - change (String c (substring 0 k s ++ substring k (String.length s - k) s)%string
            = String c s).
    f_equal. apply IH. lia.
Qed.

(** C10: the coin key is the symbol without a trailing "USDT" exactly when
    the symbol is longer than 4 bytes and ends in "USDT"; every other symbol,
    "USDT" and "ETH" among them, is its own key. *)
Theorem convertSymbolToLighterCoin_spec (symbol : string) :
  (if (4 <? String.length symbol)%nat
      && String.eqb (substring (String.length symbol - 4) 4 symbol) "USDT"
   then (convertSymbolToLighterCoin symbol ++ "USDT")%string = symbol
   else convertSymbolToLighterCoin symbol = symbol)
  /\ convertSymbolToLighterCoin "USDT" = "USDT"%string
  /\ convertSymbolToLighterCoin "ETH" = "ETH"%string
  /\ convertSymbolToLighterCoin "ETHUSDT" = "ETH"%string.
Proof.
  split; [|repeat split].
  unfold convertSymbolToLighterCoin.
  destruct ((4 <? String.length symbol)%nat
            && String.eqb (substring (String.length symbol - 4) 4 symbol) "USDT")
    eqn:E; [|reflexivity].
  apply andb_prop in E as [Hlen Hsuf].
  apply Nat.ltb_lt in Hlen. apply String.eqb_eq in Hsuf.
  rewrite <- Hsuf.
  replace 4%nat with (String.length symbol - (String.length symbol - 4))%nat at 3 by lia.
  apply substring_split. lia.
Qed.

(** ** Running the monad *)

Lemma bind_unfold {A B} (m : M A) (f : A -> M B) (ex : Exchange) (st : State) :
  (m ≫= f) ex st =
  match m ex st with
  | (st', Ok a) => f a ex st'
  | (st', Err e) => (st', Err e)
  | (st', Panic) => (st', Panic)
  end.
Proof. reflexivity. Qed.

Lemma steps_refl (st : State) : steps st st [].
Proof. split; [reflexivity | now rewrite app_nil_r]. Qed.

Lemma steps_trans (st st1 st2 : State) (n1 n2 : list Call) :
  steps st st1 n1 -> steps st1 st2 n2 -> steps st st2 (n1 ++ n2).
Proof.
  intros [A1 T1] [A2 T2]; split; [congruence|].
  now rewrite T2, T1, app_assoc.
Qed.

(** Split a run of [m ≫= f] into the run of [m] and the run of [f]. *)
Tactic Notation "run_bind" hyp(H) "as" ident(st1) ident(a) ident(E) :=
  rewrite bind_unfold in H;
  match type of H with
  | context [match ?r with _ => _ end] =>
      destruct r as [st1 [a| |]] eqn:E
  end.

(** ** The cache reload *)

Lemma loadMarketInfo_run (ex : Exchange) (st st' : State) (out : outcome unit) :
  loadMarketInfo ex st = (st', out) ->
  steps st st' [GetOrderBooks] /\
  match out with
  | Ok _ =>
      exists resp,
        http_orderBooks ex (asked st) = Response 200 (Some resp) /\
        lighterOrderBooksResponse.Code resp = 200 /\
        marketInfoCache st' =
          foldl (fun c market => <[lighterOrderBook.Symbol market := market]> c)
            (marketInfoCache st) (lighterOrderBooksResponse.OrderBooks resp)
  | Err _ => marketInfoCache st' = marketInfoCache st
  | Panic => False
  end.
Proof.
  unfold loadMarketInfo. rewrite bind_unfold. cbn [ask].
  rewrite bind_unfold. unfold body_of.
  destruct (http_orderBooks ex (asked st)) as [| |status [resp|]] eqn:Hr;
    cbn [fail negb]; try (intros [= <- <-]; split; [now split|reflexivity]).
  - destruct (status =? 200) eqn:Hs; cbn [negb fail mret M_ret].
    + apply Z.eqb_eq in Hs; subst status.
      rewrite bind_unfold. unfold code_ok.
      destruct (lighterOrderBooksResponse.Code resp =? 200) eqn:Hc;
        cbn [negb fail mret M_ret].
      * intros [= <- <-]. split; [now split|].
        exists resp. apply Z.eqb_eq in Hc. now repeat split.
      * intros [= <- <-]. split; [now split|reflexivity].
    + intros [= <- <-]. split; [now split|reflexivity].
  - destruct (status =? 200); cbn [negb fail];
      intros [= <- <-]; (split; [now split|reflexivity]).
Qed.

(** The keys of the cache after a fold of insertions. *)
Lemma reload_lookup (l : list lighterOrderBook.t)
    (c : gmap string lighterOrderBook.t) (k : string) :
  let c' := foldl (fun c market => <[lighterOrderBook.Symbol market := market]> c) c l in
  (k ∉ map lighterOrderBook.Symbol l -> c' !! k = c !! k) /\
  (k ∈ map lighterOrderBook.Symbol l ->
     exists m, c' !! k = Some m /\ m ∈ l /\ lighterOrderBook.Symbol m = k).
Proof.
  revert c; induction l as [|x l IH]; intros c; cbn [foldl map].
  - split; [reflexivity|]. intros H; inversion H.
  - specialize (IH (<[lighterOrderBook.Symbol x := x]> c)). cbn zeta in IH.
    destruct IH as [IHout IHin].
    destruct (decide (k ∈ map lighterOrderBook.Symbol l)) as [Hk|Hk].
    + split; [intros Hn; exfalso; apply Hn; now right|].
      intros _. destruct (IHin Hk) as (m & Hm & Hml & Hs).
      exists m; repeat split; [exact Hm | now right | exact Hs].
    + split.
      * intros Hn. rewrite (IHout Hk). apply lookup_insert_ne.
        intros Heq. apply Hn. rewrite <- Heq. now left.
      * intros Hin. apply elem_of_cons in Hin as [->|Hin]; [|contradiction].
        exists x. rewrite (IHout Hk), lookup_insert_eq.
        repeat split. now left.
Qed.

(** C1 (as stated, refuted): with "OLD" cached and only "ETH" listed by the
    exchange, the reload succeeds and "OLD" is still a key of the cache
    although it is not in the fetched list. *)
Lemma loadMarketInfo_keeps_delisted :
  let ex := sample_exchange [ETH] [] true true true in
  let st := state_with {[ "OLD"%string := OLD ]} in
  snd (loadMarketInfo ex st) = Ok tt /\
  ~ (is_Some (marketInfoCache (fst (loadMarketInfo ex st)) !! "OLD"%string)
     <-> "OLD"%string ∈ map lighterOrderBook.Symbol [ETH]).
Proof.
  split; [reflexivity|]. intros [H _].
  assert (Hin : "OLD"%string ∈ map lighterOrderBook.Symbol [ETH]).
  { apply H. exists OLD. vm_compute. reflexivity. }
  apply list_elem_of_singleton in Hin. discriminate Hin.
Qed.

(** C1 (amended): a successful reload inserts the fetched markets into the
    cache it finds. Afterwards a key is present if and only if it was present
    before or is the symbol of a fetched market; a key that is not fetched
    keeps its entry, and a fetched key holds a fetched market of that
    symbol. *)
Theorem loadMarketInfo_merges (ex : Exchange) (st st' : State) :
  loadMarketInfo ex st = (st', Ok tt) ->
  exists resp,
    http_orderBooks ex (asked st) = Response 200 (Some resp) /\
    forall k : string,
      let fetched :=
        map lighterOrderBook.Symbol (lighterOrderBooksResponse.OrderBooks resp) in
      (is_Some (marketInfoCache st' !! k) <->
         is_Some (marketInfoCache st !! k) \/ k ∈ fetched) /\
      (k ∉ fetched -> marketInfoCache st' !! k = marketInfoCache st !! k) /\
      (k ∈ fetched ->
         exists m, marketInfoCache st' !! k = Some m /\
                   m ∈ lighterOrderBooksResponse.OrderBooks resp /\
                   lighterOrderBook.Symbol m = k).
Proof.
  intros Hrun. apply loadMarketInfo_run in Hrun as [_ (resp & Hresp & _ & Hc)].
  exists resp. split; [exact Hresp|]. intros k fetched. rewrite Hc.
  destruct (reload_lookup (lighterOrderBooksResponse.OrderBooks resp)
              (marketInfoCache st) k) as [Hout Hin].
  cbn zeta in Hout, Hin. fold fetched in Hout, Hin.
  split; [|split; assumption].
  destruct (decide (k ∈ fetched)) as [Hk|Hk].
  - destruct (Hin Hk) as (m & Hm & _). rewrite Hm.
    split; [intros _; now right | intros _; now exists m].
  - rewrite (Hout Hk). split; [intros H; now left | now intros [H|H]].
Qed.

Lemma loadMarketInfo_merges_witness :
  let st' := fst (loadMarketInfo (sample_exchange [ETH] [] true true true)
                    (state_with {[ "OLD"%string := OLD ]})) in
  is_Some (marketInfoCache st' !! "OLD"%string) /\
  is_Some (marketInfoCache st' !! "ETH"%string).
Proof.
  intros st'.
  destruct (loadMarketInfo_merges (sample_exchange [ETH] [] true true true)
              (state_with {[ "OLD"%string := OLD ]}) st' eq_refl)
    as (resp & Hresp & Hkeys).
  cbn in Hresp. injection Hresp as <-.
  split.
  - apply (Hkeys "OLD"%string). left. exists OLD. vm_compute. reflexivity.
  - apply (Hkeys "ETH"%string). right. cbn. now left.
Defined.

(** ** Positions *)

Lemma GetPositions_run `{ext : Externals} (ex : Exchange) (st st' : State)
    (out : outcome (list PositionMap.t)) :
  GetPositions ex st = (st', out) ->
  steps st st' [GetAccount (accountIndex st)] /\
  marketInfoCache st' = marketInfoCache st /\
  out <> Panic /\
  forall l, out = Ok l ->
    exists resp,
      http_account ex (asked st) (accountIndex st) = Response 200 (Some resp) /\
      l = omap position_entry
            (match lighterAccountResponse.Accounts resp with
             | [] => []
             | account :: _ => lighterAccount.Positions account
             end).
Proof.
  unfold GetPositions. rewrite bind_unfold. cbn [get_accountIndex].
  rewrite bind_unfold. cbn [ask]. rewrite bind_unfold. unfold body_of.
  destruct (http_account ex (asked st) (accountIndex st))
    as [| |status [resp|]] eqn:Hr; cbn [fail];
    try (intros [= <- <-]; repeat split; discriminate).
  - destruct (status =? 200) eqn:Hs; cbn [negb fail mret M_ret];
      [|intros [= <- <-]; repeat split; discriminate].
    apply Z.eqb_eq in Hs; subst status.
    rewrite bind_unfold. unfold code_ok.
    destruct (lighterAccountResponse.Code resp =? 200);
      cbn [negb fail mret M_ret];
      [|intros [= <- <-]; repeat split; discriminate].
    destruct (lighterAccountResponse.Accounts resp) as [|account rest] eqn:Ha;
      cbn [mret M_ret]; intros [= <- <-]; repeat split; try discriminate;
      intros l [= <-]; exists resp; rewrite Ha; now split.
  - destruct (status =? 200); cbn [negb fail];
      intros [= <- <-]; repeat split; discriminate.
Qed.

Lemma position_entry_cases `{ext : Externals} (pos : lighterAccountPosition.t) :
  let position :=
    fst (strconv_ParseFloat (lighterAccountPosition.Position pos)) in
  if F64.eqb position F64.zero then position_entry pos = None
  else exists e,
    position_entry pos = Some e /\
    PositionMap.symbol e
      = (lighterAccountPosition.Symbol pos ++ "USDT")%string /\
    if 0 <? lighterAccountPosition.Sign pos
    then PositionMap.side e = "long"%string /\
         PositionMap.positionAmt e = position
    else PositionMap.side e = "short"%string /\
         PositionMap.positionAmt e = absFloat64 position.
Proof.
  cbn zeta. unfold position_entry.
  destruct (F64.eqb (fst (strconv_ParseFloat (lighterAccountPosition.Position pos)))
              F64.zero); [reflexivity|].
  destruct (0 <? lighterAccountPosition.Sign pos);
    eexists; repeat split.
Qed.

(** C4 (as stated, refuted): the quantity "2.5" is positive, yet with
    [Sign = -1] the position is reported short. *)
Lemma GetPositions_positive_quantity_short :
  let ex := sample_exchange [ETH] [account_position "ETH" "2.5" (-1)]
              true true true in
  F64.ltb F64.zero (fst (decimal_ParseFloat "2.5")) = true /\
  exists e,
    snd (GetPositions (ext := sample_externals) ex (state_with ∅)) = Ok [e] /\
    PositionMap.side e = "short"%string /\
    PositionMap.positionAmt e = fst (decimal_ParseFloat "2.5").
Proof. split; [reflexivity|]. eexists. repeat split. Qed.

(** C4 (amended): [GetPositions] answers with the entries of the positions of
    the first account, in order, where a position whose parsed quantity is 0
    has no entry, a position with [Sign > 0] is long with the parsed quantity
    as amount, and any other position is short with the absolute value of
    the parsed quantity as amount. *)
Theorem GetPositions_side_from_Sign `{ext : Externals} (ex : Exchange)
    (st st' : State) (l : list PositionMap.t) :
  GetPositions ex st = (st', Ok l) ->
  exists resp,
    http_account ex (asked st) (accountIndex st) = Response 200 (Some resp) /\
    let snapshot :=
      match lighterAccountResponse.Accounts resp with
      | [] => []
      | account :: _ => lighterAccount.Positions account
      end in
    l = omap position_entry snapshot /\
    forall pos, pos ∈ snapshot ->
      let position :=
        fst (strconv_ParseFloat (lighterAccountPosition.Position pos)) in
      if F64.eqb position F64.zero then position_entry pos = None
      else exists e,
        position_entry pos = Some e /\ e ∈ l /\
        PositionMap.symbol e
          = (lighterAccountPosition.Symbol pos ++ "USDT")%string /\
        if 0 <? lighterAccountPosition.Sign pos
        then PositionMap.side e = "long"%string /\
             PositionMap.positionAmt e = position
        else PositionMap.side e = "short"%string /\
             PositionMap.positionAmt e = absFloat64 position.
Proof.
  intros Hrun. apply GetPositions_run in Hrun as (_ & _ & _ & Hl).
  destruct (Hl l eq_refl) as (resp & Hresp & ->).
  exists resp. split; [exact Hresp|]. cbn zeta. split; [reflexivity|].
  intros pos Hpos. pose proof (position_entry_cases pos) as Hc.
  cbn zeta in Hc.
  destruct (F64.eqb (fst (strconv_ParseFloat (lighterAccountPosition.Position pos)))
              F64.zero); [exact Hc|].
  destruct Hc as (e & He & Hsym & Hside).
  exists e. repeat split; try assumption.
  apply list_elem_of_omap. exists pos. now split.
Qed.

Lemma GetPositions_side_from_Sign_witness :
  exists e,
    snd (GetPositions (ext := sample_externals)
           (sample_exchange [ETH] [account_position "ETH" "2.5" (-1)]
              true true true)
           (state_with ∅)) = Ok [e] /\
    PositionMap.side e = "short"%string /\
    PositionMap.positionAmt e = F64.lit 25 10.
Proof.
  destruct (GetPositions_side_from_Sign (ext := sample_externals)
              (sample_exchange [ETH] [account_position "ETH" "2.5" (-1)]
                 true true true)
              (state_with ∅) _ _ eq_refl) as (resp & Hresp & _ & Hall).
  cbn in Hresp. injection Hresp as <-.
  specialize (Hall (account_position "ETH" "2.5" (-1))).
  cbn [lighterAccountResponse.Accounts account_with lighterAccount.Positions]
    in Hall.
  specialize (Hall ltac:(now left)).
  vm_compute in Hall. destruct Hall as (e & He & _ & _ & Hside & Hamt).
  injection He as <-. eexists. repeat split.
Defined.

(** ** Cancelling orders *)

Lemma CancelAllOrders_run (symbol : string) (ex : Exchange) (st st' : State)
    (out : outcome unit) :
  CancelAllOrders symbol ex st = (st', out) ->
  let req :=
    {| CancelAllOrdersTxReq.TimeInForce := ImmediateCancelAll;
       CancelAllOrdersTxReq.Time := time_now ex (asked st) / 1000000 |} in
  steps st st' [CancelAllOrdersTx req] /\
  marketInfoCache st' = marketInfoCache st /\
  out = match tx_cancelAllOrders ex (S (asked st)) req with
        | Some _ => Ok tt
        | None => Err ErrCancelAllOrders
        end.
Proof.
  unfold CancelAllOrders. rewrite bind_unfold. cbn [now].
  rewrite bind_unfold. cbn [ask asked].
  destruct (tx_cancelAllOrders ex (S (asked st)) _);
    intros [= <- <-]; repeat split.
Qed.

(** C5 (the code at the failing input): the request built by
    [CancelAllOrders] holds a time-in-force and a time only. The symbol is
    not used: two symbols give the same run, and with both markets cached
    the request for "ETHUSDT" is the request for "BTCUSDT". *)
Theorem CancelAllOrders_ignores_symbol :
  (forall (s1 s2 : string) (ex : Exchange) (st : State),
     CancelAllOrders s1 ex st = CancelAllOrders s2 ex st) /\
  (forall (symbol : string) (ex : Exchange) (st : State),
     trace (fst (CancelAllOrders symbol ex st)) =
     trace st ++
       [CancelAllOrdersTx
          {| CancelAllOrdersTxReq.TimeInForce := ImmediateCancelAll;
             CancelAllOrdersTxReq.Time := time_now ex (asked st) / 1000000 |}]) /\
  (let ex := sample_exchange [ETH; BTC] [] true true true in
   let st := state_with {[ "ETH"%string := ETH; "BTC"%string := BTC ]} in
   trace (fst (CancelAllOrders "ETHUSDT" ex st)) =
     [CancelAllOrdersTx
        {| CancelAllOrdersTxReq.TimeInForce := ImmediateCancelAll;
           CancelAllOrdersTxReq.Time := 1700000000000 |}] /\
   trace (fst (CancelAllOrders "BTCUSDT" ex st)) =
     trace (fst (CancelAllOrders "ETHUSDT" ex st))).
Proof.
  split; [reflexivity|]. split; [|split; reflexivity].
  intros symbol ex st.
  destruct (CancelAllOrders symbol ex st) as [st' out] eqn:E.
  apply CancelAllOrders_run in E as [[_ Ht] _]. exact Ht.
Qed.

(** ** The numeric codec *)

(** The integer part of a finite float is its magnitude truncated: for
    [z = trunc x] and [|x| = num / den], [|z| <= |x| < |z| + 1], and [z] has
    the sign of [x]. *)
Lemma trunc_towards_zero (x : float64) (z : Z) :
  F64.trunc x = Some z ->
  0 < snd (magnitude x) /\
  Z.abs z * snd (magnitude x) <= fst (magnitude x)
    < (Z.abs z + 1) * snd (magnitude x) /\
  z = Z.quot (fst (magnitude x)) (snd (magnitude x))
      * (match x with S754_finite true _ _ => -1 | _ => 1 end).
Proof.
  destruct x as [s|s| |s m e]; cbn [F64.trunc magnitude fst snd];
    try discriminate.
  - intros [= <-]. vm_compute. repeat split; discriminate.
  - intros [= <-].
    assert (Habs : forall v, 0 <= v -> Z.abs (cond_Zopp s v) = v).
    { intros v Hv. destruct s; cbn [cond_Zopp]; lia. }
    assert (Hsig : forall v, cond_Zopp s v = v * (if s then -1 else 1)).
    { intros v. destruct s; cbn [cond_Zopp]; lia. }
    destruct e as [|e|k]; cbn [fst snd].
    + rewrite Habs by lia. rewrite Z.quot_1_r, Hsig. lia.
    + assert (0 < 2 ^ Z.pos e) by (apply Z.pow_pos_nonneg; lia).
      rewrite Habs by nia. rewrite Z.quot_1_r, Hsig. lia.
    + assert (Hp : 0 < 2 ^ Z.pos k) by (apply Z.pow_pos_nonneg; lia).
      assert (Hq : 0 <= Z.pos m / 2 ^ Z.pos k) by (apply Z.div_pos; lia).
      rewrite Habs by exact Hq.
      rewrite Z.quot_div_nonneg by lia. rewrite Hsig.
      pose proof (Z.mul_div_le (Z.pos m) (2 ^ Z.pos k) Hp).
      pose proof (Z.mul_succ_div_gt (Z.pos m) (2 ^ Z.pos k) Hp).
      split; [exact Hp|]. split; [|destruct s; reflexivity]. nia.
Qed.

(** Up to 22 decimals the multiplier of the loop is exactly [10^decimals]. *)
Lemma multiplier_exact (decimals : N) :
  (decimals <= 22)%N -> exactly (multiplier decimals) (10 ^ Z.of_N decimals) = true.
Proof.
  intros Hd.
  assert (Hall : forallb (fun n => exactly (multiplier (N.of_nat n))
                                     (10 ^ Z.of_N (N.of_nat n)))
                   (seq 0 23) = true) by (vm_compute; reflexivity).
  rewrite forallb_forall in Hall.
  specialize (Hall (N.to_nat decimals)).
  rewrite N2Nat.id in Hall. apply Hall. apply in_seq. lia.
Qed.

(** C6: for a symbol whose coin key is not in the cache, sizes and prices
    are encoded with the multiplier 10000, which is the multiplier of 4
    decimals and is exactly 10^4; both functions return a number. *)
Theorem fallback_precision_4 `{ext : Externals}
    (cache : gmap string lighterOrderBook.t) (symbol : string)
    (quantity price : float64) :
  cache !! convertSymbolToLighterCoin symbol = None ->
  convertToBaseAmount cache symbol quantity
    = int64_of_float64 (F64.mul quantity (F64.of_Z 10000)) /\
  convertToLighterPrice cache symbol price
    = uint32_of_float64 (F64.mul price (F64.of_Z 10000)) /\
  F64.of_Z 10000 = multiplier 4 /\
  exactly (F64.of_Z 10000) (10 ^ 4) = true.
Proof.
  intros Hmiss. unfold convertToBaseAmount, convertToLighterPrice.
  rewrite Hmiss. repeat split.
Qed.

Lemma fallback_precision_4_witness :
  convertToBaseAmount (ext := sample_externals) ∅ "DOGEUSDT" (F64.lit 15 10)
    = 15000 /\
  convertToLighterPrice (ext := sample_externals) ∅ "DOGEUSDT" (F64.lit 25 100)
    = 2500.
Proof.
  assert (Hmiss : (∅ : gmap string lighterOrderBook.t)
                     !! convertSymbolToLighterCoin "DOGEUSDT" = None)
    by (vm_compute; reflexivity).
  destruct (fallback_precision_4 (ext := sample_externals) ∅ "DOGEUSDT"
              (F64.lit 15 10) (F64.lit 25 100) Hmiss) as (Hq & Hp & _).
  rewrite Hq, Hp. split; vm_compute; reflexivity.
Defined.

(** C7: for a symbol with a cached market, the size is the float64 product
    of the quantity and the multiplier of [SupportedSizeDecimals], converted
    to int64. The multiplier is exactly 10^decimals up to 22 decimals; when
    the product is finite and fits int64 the result is its integer part,
    the fraction discarded (never rounded up in magnitude); with 4 decimals
    the quantity 1.23456 gives 12345. *)
Theorem convertToBaseAmount_truncates `{ext : Externals}
    (cache : gmap string lighterOrderBook.t) (symbol : string)
    (marketInfo : lighterOrderBook.t) (quantity : float64) :
  cache !! convertSymbolToLighterCoin symbol = Some marketInfo ->
  let decimals := lighterOrderBook.SupportedSizeDecimals marketInfo in
  let product := F64.mul quantity (multiplier decimals) in
  convertToBaseAmount cache symbol quantity = int64_of_float64 product /\
  ((decimals <= 22)%N ->
     exactly (multiplier decimals) (10 ^ Z.of_N decimals) = true) /\
  (forall z, F64.trunc product = Some z -> - 2 ^ 63 <= z < 2 ^ 63 ->
     convertToBaseAmount cache symbol quantity = z /\
     Z.abs z * snd (magnitude product) <= fst (magnitude product)
       < (Z.abs z + 1) * snd (magnitude product) /\
     z = Z.quot (fst (magnitude product)) (snd (magnitude product))
         * (match product with S754_finite true _ _ => -1 | _ => 1 end)) /\
  (decimals = 4%N ->
     convertToBaseAmount cache symbol (F64.lit 123456 100000) = 12345).
Proof.
  intros Hhit decimals product.
  assert (Hdef : forall q, convertToBaseAmount cache symbol q
                           = int64_of_float64 (F64.mul q (multiplier decimals))).
  { intros q. unfold convertToBaseAmount. now rewrite Hhit. }
  split; [apply Hdef|]. split; [apply multiplier_exact|]. split.
  - intros z Hz Hrange. rewrite Hdef. fold product.
    split.
    + unfold int64_of_float64. rewrite Hz.
      destruct Hrange as [Hlo Hhi].
      apply Z.leb_le in Hlo. apply Z.ltb_lt in Hhi. now rewrite Hlo, Hhi.
    + apply trunc_towards_zero in Hz as (_ & Hb & Hq). split; assumption.
  - intros H4. rewrite Hdef, H4. reflexivity.
Qed.

Lemma convertToBaseAmount_truncates_witness :
  convertToBaseAmount (ext := sample_externals) {[ "ETH"%string := ETH ]}
    "ETHUSDT" (F64.lit 123456 100000) = 12345.
Proof.
  assert (Hhit : ({[ "ETH"%string := ETH ]} : gmap string lighterOrderBook.t)
                    !! convertSymbolToLighterCoin "ETHUSDT" = Some ETH)
    by (vm_compute; reflexivity).
  apply (convertToBaseAmount_truncates (ext := sample_externals)
           {[ "ETH"%string := ETH ]} "ETHUSDT" ETH (F64.lit 123456 100000)
           Hhit).
  reflexivity.
Defined.

(** ** Market lookup, price and leverage *)

Lemma getMarketIndex_hit (symbol : string) (ex : Exchange) (st : State)
    (marketInfo : lighterOrderBook.t) :
  marketInfoCache st !! convertSymbolToLighterCoin symbol = Some marketInfo ->
  getMarketIndex symbol ex st = (st, Ok (lighterOrderBook.MarketID marketInfo)).
Proof.
  intros Hhit. unfold getMarketIndex. rewrite bind_unfold. cbn [get_cache].
  now rewrite Hhit.
Qed.

Lemma getMarketIndex_run (symbol : string) (ex : Exchange) (st st' : State)
    (out : outcome N) :
  getMarketIndex symbol ex st = (st', out) ->
  exists new,
    steps st st' new /\
    (new = [] \/ new = [GetOrderBooks]) /\
    out <> Panic /\
    forall id, out = Ok id ->
      exists marketInfo,
        marketInfoCache st' !! convertSymbolToLighterCoin symbol = Some marketInfo /\
        lighterOrderBook.MarketID marketInfo = id.
Proof.
  unfold getMarketIndex. rewrite bind_unfold. cbn [get_cache].
  destruct (marketInfoCache st !! convertSymbolToLighterCoin symbol)
    as [mi|] eqn:Hc.
  - intros [= <- <-]. exists []. split; [apply steps_refl|].
    split; [now left|]. split; [discriminate|].
    intros id [= <-]. now exists mi.
  - rewrite bind_unfold. unfold attempt.
    destruct (loadMarketInfo ex st) as [st1 o] eqn:Hload.
    apply loadMarketInfo_run in Hload as [Hsteps Ho].
    destruct o as [[]|e|]; [| |contradiction].
    + rewrite bind_unfold. cbn [get_cache].
      destruct (marketInfoCache st1 !! convertSymbolToLighterCoin symbol)
        as [mi|] eqn:Hc1; intros [= <- <-]; exists [GetOrderBooks];
        (split; [exact Hsteps|]); (split; [now right|]);
        (split; [discriminate|]).
      * intros id [= <-]. now exists mi.
      * intros id [=].
    + intros [= <- <-]. exists [GetOrderBooks].
      split; [exact Hsteps|]. split; [now right|]. split; [discriminate|].
      intros id [=].
Qed.

Lemma GetMarketPrice_run `{ext : Externals} (symbol : string) (ex : Exchange)
    (st st' : State) (out : outcome float64) :
  GetMarketPrice symbol ex st = (st', out) ->
  marketInfoCache st' = marketInfoCache st /\
  out <> Panic /\
  match marketInfoCache st !! convertSymbolToLighterCoin symbol with
  | Some marketInfo =>
      steps st st' [GetOrderBookDetails (lighterOrderBook.MarketID marketInfo)]
  | None => st' = st /\ out = Err (ErrMarketInfoNotFound symbol)
  end.
Proof.
  unfold GetMarketPrice. rewrite bind_unfold. cbn [get_cache].
  destruct (marketInfoCache st !! convertSymbolToLighterCoin symbol)
    as [mi|] eqn:Hc.
  - rewrite bind_unfold. cbn [ask]. rewrite bind_unfold. unfold body_of.
    destruct (http_orderBookDetails ex (asked st) (lighterOrderBook.MarketID mi))
      as [| |status [detail|]]; cbn [fail];
      try (intros [= <- <-]; repeat split; discriminate).
    + destruct (status =? 200); cbn [negb fail mret M_ret];
        [|intros [= <- <-]; repeat split; discriminate].
      set (book := if F64.ltb F64.zero (first_level_price "asks" detail)
                      && F64.ltb F64.zero (first_level_price "bids" detail)
                   then _ else _).
      assert (Hbook : forall s, exists o, book ex s = (s, o) /\ o <> Panic).
      { intros s. subst book.
        destruct (F64.ltb F64.zero (first_level_price "asks" detail)
                  && F64.ltb F64.zero (first_level_price "bids" detail));
          eexists; split; try reflexivity; discriminate. }
      destruct (any_lookup "mark_price" detail) as [[| | |s| |]|];
        try (destruct (Hbook
               {| accountIndex := accountIndex st;
                  marketInfoCache := marketInfoCache st;
                  asked := S (asked st);
                  trace := trace st ++
                    [GetOrderBookDetails (lighterOrderBook.MarketID mi)] |})
               as (o & -> & Ho);
             intros [= <- <-]; repeat split; assumption).
      destruct (strconv_ParseFloat s) as [markPrice [|]].
      * intros [= <- <-]; repeat split; discriminate.
      * destruct (Hbook
               {| accountIndex := accountIndex st;
                  marketInfoCache := marketInfoCache st;
                  asked := S (asked st);
                  trace := trace st ++
                    [GetOrderBookDetails (lighterOrderBook.MarketID mi)] |})
               as (o & -> & Ho).
        intros [= <- <-]; repeat split; assumption.
    + destruct (status =? 200); cbn [negb fail];
        intros [= <- <-]; repeat split; discriminate.
  - intros [= <- <-]. repeat split. discriminate.
Qed.

Lemma SetLeverage_run (symbol : string) (leverage : Z) (ex : Exchange)
    (st st' : State) (out : outcome unit) :
  SetLeverage symbol leverage ex st = (st', out) ->
  exists pre,
    (pre = [] \/ pre = [GetOrderBooks]) /\
    match out with
    | Ok _ =>
        leverage <> 0 /\
        exists lev marketInfo,
          steps st st' (pre ++ [UpdateLeverageTx lev]) /\
          marketInfoCache st' !! convertSymbolToLighterCoin symbol
            = Some marketInfo /\
          UpdateLeverageTxReq.MarketIndex lev
            = lighterOrderBook.MarketID marketInfo /\
          UpdateLeverageTxReq.InitialMarginFraction lev
            = uint16_of_int (Z.quot 10000 leverage) /\
          UpdateLeverageTxReq.MarginMode lev = CrossMargin
    | Err _ =>
        steps st st' pre \/ exists lev, steps st st' (pre ++ [UpdateLeverageTx lev])
    | Panic => leverage = 0 /\ steps st st' pre
    end.
Proof.
  unfold SetLeverage. intros H. run_bind H as st1 id E.
  - apply getMarketIndex_run in E as (pre & Hpre & Hcases & _ & Hid).
    destruct (Hid id eq_refl) as (mi & Hmi & Hmid).
    exists pre. split; [exact Hcases|].
    unfold int_div in H. destruct (leverage =? 0) eqn:Hl.
    + apply Z.eqb_eq in Hl. cbv [panic] in H. injection H as <- <-. now split.
    + apply Z.eqb_neq in Hl. rewrite bind_unfold in H. cbn [ask] in H.
      match type of H with
      | context [tx_updateLeverage ex (asked st1) ?r] =>
          set (lev := r) in *;
          assert (Hs : steps st1
                    {| accountIndex := accountIndex st1;
                       marketInfoCache := marketInfoCache st1;
                       asked := S (asked st1);
                       trace := trace st1 ++ [UpdateLeverageTx lev] |}
                    [UpdateLeverageTx lev]) by (now split);
          destruct (tx_updateLeverage ex (asked st1) lev)
      end; cbv [mret M_ret fail] in H; injection H as <- <-.
      * split; [exact Hl|]. exists lev, mi.
        split; [exact (steps_trans _ _ _ _ _ Hpre Hs)|].
        split; [exact Hmi|]. split; [symmetry; exact Hmid|].
        split; reflexivity.
      * right. exists lev. exact (steps_trans _ _ _ _ _ Hpre Hs).
  - apply getMarketIndex_run in E as (pre & Hpre & Hcases & _ & _).
    injection H as <- <-. exists pre. split; [exact Hcases|]. now left.
  - apply getMarketIndex_run in E as (pre & _ & _ & Hp & _). now contradiction Hp.
Qed.

Lemma attempt_CancelAllOrders_run (symbol : string) (ex : Exchange)
    (st st' : State) (out : outcome (option error)) :
  attempt (CancelAllOrders symbol) ex st = (st', out) ->
  exists req err,
    out = Ok err /\
    steps st st' [CancelAllOrdersTx req] /\
    marketInfoCache st' = marketInfoCache st.
Proof.
  unfold attempt. destruct (CancelAllOrders symbol ex st) as [s o] eqn:E.
  apply CancelAllOrders_run in E as (Hs & Hc & Ho). cbn zeta in Ho.
  rewrite Ho.
  destruct (tx_cancelAllOrders ex (S (asked st)) _);
    intros [= <- <-]; do 2 eexists; (split; [reflexivity|]);
    (split; [exact Hs | exact Hc]).
Qed.

(** C9: [SetLeverage] divides 10000 by the leverage without a check. For a
    leverage of at least 1 the quotient is 10000 / leverage, it fits uint16,
    and the method does not panic; for leverage 0 the division panics as soon
    as the market index is resolved, in [SetLeverage] and so in [OpenLong]
    and [OpenShort]. *)
Theorem SetLeverage_unguarded_division `{ext : Externals} :
  (forall leverage, 1 <= leverage ->
     int_div 10000 leverage = Some (10000 / leverage) /\
     uint16_of_int (10000 / leverage) = 10000 / leverage) /\
  int_div 10000 0 = None /\
  (forall symbol leverage ex st, 1 <= leverage ->
     snd (SetLeverage symbol leverage ex st) <> Panic) /\
  (forall symbol ex st st1 id,
     getMarketIndex symbol ex st = (st1, Ok id) ->
     SetLeverage symbol 0 ex st = (st1, Panic)) /\
  (forall symbol quantity ex st st1 id,
     getMarketIndex symbol ex (fst (attempt (CancelAllOrders symbol) ex st))
       = (st1, Ok id) ->
     OpenLong symbol quantity 0 ex st = (st1, Panic) /\
     OpenShort symbol quantity 0 ex st = (st1, Panic)).
Proof.
  assert (Hzero : forall symbol ex st st1 id,
            getMarketIndex symbol ex st = (st1, Ok id) ->
            SetLeverage symbol 0 ex st = (st1, Panic)).
  { intros symbol ex st st1 id Hidx. unfold SetLeverage.
    rewrite bind_unfold, Hidx. reflexivity. }
  split; [|split; [reflexivity|split; [|split; [exact Hzero|]]]].
  - intros leverage Hl. unfold int_div, uint16_of_int.
    replace (leverage =? 0) with false by (symmetry; apply Z.eqb_neq; lia).
    rewrite Z.quot_div_nonneg by lia. split; [reflexivity|].
    apply Z.mod_small. split; [apply Z.div_pos; lia|].
    apply Z.le_lt_trans with 10000; [|reflexivity].
    apply Z.div_le_upper_bound; lia.
  - intros symbol leverage ex st Hl.
    destruct (SetLeverage symbol leverage ex st) as [st' out] eqn:E.
    apply SetLeverage_run in E as (pre & _ & Hout). cbn [snd].
    intros ->. destruct Hout as [Hz _]. lia.
  - intros symbol quantity ex st st1 id Hidx.
    destruct (attempt (CancelAllOrders symbol) ex st) as [s0 o] eqn:Hc.
    pose proof (attempt_CancelAllOrders_run _ _ _ _ _ Hc) as (req & err & -> & _).
    cbn [fst] in Hidx. apply Hzero in Hidx.
    unfold OpenLong, OpenShort.
    rewrite !(bind_unfold (attempt (CancelAllOrders symbol))), Hc.
    rewrite !(bind_unfold (SetLeverage symbol 0)), Hidx. now split.
Qed.

Lemma SetLeverage_unguarded_division_witness :
  snd (SetLeverage "ETHUSDT" 0 (sample_exchange [ETH] [] true true true)
         (state_with {[ "ETH"%string := ETH ]})) = Panic /\
  snd (SetLeverage "ETHUSDT" 10 (sample_exchange [ETH] [] true true true)
         (state_with {[ "ETH"%string := ETH ]})) <> Panic.
Proof.
  destruct (SetLeverage_unguarded_division (ext := sample_externals))
    as (_ & _ & Hpos & Hzero & _).
  split.
  - assert (Hidx : getMarketIndex "ETHUSDT"
                     (sample_exchange [ETH] [] true true true)
                     (state_with {[ "ETH"%string := ETH ]})
                   = (state_with {[ "ETH"%string := ETH ]}, Ok 0%N))
      by (vm_compute; reflexivity).
    rewrite (Hzero _ _ _ _ _ Hidx). reflexivity.
  - apply Hpos. lia.
Defined.

(** ** Closing a position *)

Lemma resolve_quantity_run `{ext : Externals} (symbol side : string)
    (quantity : float64) (notFound : error) (ex : Exchange) (st st' : State)
    (out : outcome float64) :
  resolve_quantity symbol side quantity notFound ex st = (st', out) ->
  exists new,
    steps st st' new /\
    (new = [] \/ new = [GetAccount (accountIndex st)]) /\
    out <> Panic.
Proof.
  unfold resolve_quantity.
  destruct (F64.eqb quantity F64.zero).
  - intros H. run_bind H as s1 positions E;
      apply GetPositions_run in E as (Hs & _ & Hp & _).
    + exists [GetAccount (accountIndex st)].
      destruct (F64.eqb _ F64.zero) in H; cbv [fail mret M_ret] in H;
        injection H as <- <-; (split; [exact Hs|]);
        (split; [now right|discriminate]).
    + injection H as <- <-. exists [GetAccount (accountIndex st)].
      split; [exact Hs|]. split; [now right|discriminate].
    + contradiction.
  - intros [= <- <-]. exists []. split; [apply steps_refl|].
    split; [now left|discriminate].
Qed.

(** C8: [CloseLong] with a zero quantity, when the positions are fetched and
    none of them is a long position of the symbol, returns the error "no
    long position of symbol"; its only call is the account query, so no
    order is created. *)
Theorem CloseLong_without_position `{ext : Externals} (symbol : string)
    (quantity : float64) (ex : Exchange) (st st1 : State)
    (positions : list PositionMap.t) :
  F64.eqb quantity F64.zero = true ->
  GetPositions ex st = (st1, Ok positions) ->
  (forall pos, pos ∈ positions ->
     ~ (PositionMap.symbol pos = symbol /\ PositionMap.side pos = "long"%string)) ->
  CloseLong symbol quantity ex st = (st1, Err (ErrNoLongPosition symbol)) /\
  trace st1 = trace st ++ [GetAccount (accountIndex st)] /\
  forall req, CreateOrderTx req ∉ [GetAccount (accountIndex st)].
Proof.
  intros Hq Hget Hnone.
  assert (Hfind : find (fun pos => String.eqb (PositionMap.symbol pos) symbol
                                   && String.eqb (PositionMap.side pos) "long")
                    positions = None).
  { destruct (find _ positions) as [pos|] eqn:Hf; [|reflexivity].
    apply find_some in Hf as [Hin Hb]. exfalso.
    apply (Hnone pos); [now apply list_elem_of_In|].
    apply andb_prop in Hb as [H1 H2]. now split; apply String.eqb_eq. }
  split; [|split].
  - unfold CloseLong. rewrite bind_unfold. unfold resolve_quantity.
    rewrite Hq, bind_unfold, Hget, Hfind, Hq. reflexivity.
  - apply GetPositions_run in Hget as ([_ Ht] & _). exact Ht.
  - intros req Hin. apply list_elem_of_singleton in Hin. discriminate Hin.
Qed.

Lemma CloseLong_without_position_witness :
  snd (CloseLong (ext := sample_externals) "ETHUSDT" F64.zero
         (sample_exchange [ETH] [account_position "ETH" "2.5" (-1)]
            true true true)
         (state_with {[ "ETH"%string := ETH ]}))
  = Err (ErrNoLongPosition "ETHUSDT").
Proof.
  pose (ex := sample_exchange [ETH] [account_position "ETH" "2.5" (-1)]
                true true true).
  pose (st := state_with {[ "ETH"%string := ETH ]}).
  assert (Hget : GetPositions (ext := sample_externals) ex st
                 = (fst (GetPositions (ext := sample_externals) ex st),
                    Ok (omap (position_entry (ext := sample_externals))
                          [account_position "ETH" "2.5" (-1)])))
    by (vm_compute; reflexivity).
  assert (Hnone : forall pos,
            pos ∈ omap (position_entry (ext := sample_externals))
                    [account_position "ETH" "2.5" (-1)] ->
            ~ (PositionMap.symbol pos = "ETHUSDT"%string /\
               PositionMap.side pos = "long"%string)).
  { intros pos Hin [_ Hside].
    apply list_elem_of_singleton in Hin. subst pos. discriminate Hside. }
  destruct (CloseLong_without_position (ext := sample_externals) "ETHUSDT"
              F64.zero ex st _ _ eq_refl Hget Hnone) as [Hrun _].
  fold ex st. rewrite Hrun. reflexivity.
Defined.

Lemma resolve_quantity_quiet `{ext : Externals} (symbol side : string)
    (quantity : float64) (notFound : error) (ex : Exchange) (st st' : State)
    (out : outcome float64) :
  resolve_quantity symbol side quantity notFound ex st = (st', out) ->
  out <> Panic /\ exists new, steps st st' new /\ forallb quiet new = true.
Proof.
  intros H. apply resolve_quantity_run in H as (new & Hs & Hc & Hp).
  split; [exact Hp|]. exists new. split; [exact Hs|].
  destruct Hc as [-> | ->]; reflexivity.
Qed.

Lemma getMarketIndex_quiet (symbol : string) (ex : Exchange) (st st' : State)
    (out : outcome N) :
  getMarketIndex symbol ex st = (st', out) ->
  out <> Panic /\ exists new, steps st st' new /\ forallb quiet new = true.
Proof.
  intros H. apply getMarketIndex_run in H as (new & Hs & Hc & Hp & _).
  split; [exact Hp|]. exists new. split; [exact Hs|].
  destruct Hc as [-> | ->]; reflexivity.
Qed.

Lemma GetMarketPrice_quiet `{ext : Externals} (symbol : string) (ex : Exchange)
    (st st' : State) (out : outcome float64) :
  GetMarketPrice symbol ex st = (st', out) ->
  out <> Panic /\ exists new, steps st st' new /\ forallb quiet new = true.
Proof.
  intros H. apply GetMarketPrice_run in H as (_ & Hp & Hm).
  split; [exact Hp|].
  destruct (marketInfoCache st !! convertSymbolToLighterCoin symbol) as [mi|].
  - eexists. split; [exact Hm|reflexivity].
  - destruct Hm as [-> _]. exists []. split; [apply steps_refl|reflexivity].
Qed.

(** C2 (as stated, refuted): the signer refuses the close order. The order
    creation is in the trace, so the submission step was reached, and no
    cancellation was issued. *)
Lemma CloseLong_failed_submission_no_cancel :
  let run := CloseLong (ext := sample_externals) "ETHUSDT" (F64.lit 1 10)
               (sample_exchange [ETH] [] true false true) (state_with ∅) in
  snd run = Err ErrCloseLong /\
  existsb is_CreateOrderTx (trace (fst run)) = true /\
  existsb is_CancelAllOrdersTx (trace (fst run)) = false.
Proof. vm_compute. repeat split. Qed.

(** C2 (amended): in every execution of [CloseLong] and of [CloseShort], when
    the submission of the close order succeeds, the cancellation of all
    orders is issued right after it and the operation returns its result,
    whatever the cancellation answers; when the submission fails, the
    operation returns that error and the order creation is its last call. *)
Theorem close_cancels_after_success `{ext : Externals} (symbol : string)
    (quantity : float64) :
  cancel_only_after_success (CloseLong symbol quantity) ErrCloseLong /\
  cancel_only_after_success (CloseShort symbol quantity) ErrCloseShort.
Proof.
  split; intros ex st st' out H;
    [unfold CloseLong in H | unfold CloseShort in H];
  (* the two operations have the same steps *)
  (run_bind H as s1 q E1;
    apply resolve_quantity_quiet in E1 as (P1 & n1 & S1 & Q1);
    [ | injection H as <- <-; exists n1; (split; [exact (steps_trace _ _ _ S1)|]); now left
      | now contradiction P1 ];
  run_bind H as s2 id E2;
    apply getMarketIndex_quiet in E2 as (P2 & n2 & S2 & Q2);
    pose proof (steps_trans _ _ _ _ _ S1 S2) as S12;
    assert (Q12 : forallb quiet (n1 ++ n2) = true)
      by (rewrite forallb_app, Q1, Q2; reflexivity);
    [ | injection H as <- <-; exists (n1 ++ n2); (split; [exact (steps_trace _ _ _ S12)|]); now left
      | now contradiction P2 ];
  run_bind H as s3 p E3;
    apply GetMarketPrice_quiet in E3 as (P3 & n3 & S3 & Q3);
    pose proof (steps_trans _ _ _ _ _ S12 S3) as S123;
    assert (Q123 : forallb quiet ((n1 ++ n2) ++ n3) = true)
      by (rewrite forallb_app, Q12, Q3; reflexivity);
    [ | injection H as <- <-; exists ((n1 ++ n2) ++ n3); (split; [exact (steps_trace _ _ _ S123)|]); now left
      | now contradiction P3 ];
  rewrite bind_unfold in H; cbn [get_cache] in H;
  rewrite bind_unfold in H; cbn [now] in H;
  rewrite bind_unfold in H; cbn [ask] in H;
  match type of H with
  | context [tx_createOrder ex ?n ?r] =>
      set (req := r) in *; destruct (tx_createOrder ex n req) as [hash|]
  end;
  [ run_bind H as s5 err E5;
      apply attempt_CancelAllOrders_run in E5 as (creq & err' & Hok & [_ T5] & _);
      try discriminate Hok;
      injection H as <- <-;
      exists (((n1 ++ n2) ++ n3) ++ [CreateOrderTx req; CancelAllOrdersTx creq]);
      split;
      [ rewrite T5; cbn [trace]; rewrite (steps_trace _ _ _ S123);
        rewrite <- !app_assoc; reflexivity
      | exists ((n1 ++ n2) ++ n3), req, creq; now split ]
  | injection H as <- <-;
      exists (((n1 ++ n2) ++ n3) ++ [CreateOrderTx req]);
      split;
      [ cbn [trace]; rewrite (steps_trace _ _ _ S123);
        rewrite <- !app_assoc; reflexivity
      | right; split; [reflexivity|];
        exists ((n1 ++ n2) ++ n3), req; now split ] ]).
Qed.

Lemma close_cancels_after_success_witness :
  let run := CloseLong (ext := sample_externals) "ETHUSDT" (F64.lit 1 10)
               (sample_exchange [ETH] [] true true false) (state_with ∅) in
  exists r new pre req cancel,
    snd run = Ok r /\
    trace (fst run) = new /\
    new = pre ++ [CreateOrderTx req; CancelAllOrdersTx cancel] /\
    forallb quiet pre = true.
Proof.
  intros run.
  destruct (close_cancels_after_success (ext := sample_externals) "ETHUSDT"
              (F64.lit 1 10)) as [Hlong _].
  destruct (Hlong (sample_exchange [ETH] [] true true false) (state_with ∅)
              (fst run) (snd run) (surjective_pairing _)) as (new & Ht & Hm).
  assert (Hok : exists r, snd run = Ok r) by (eexists; vm_compute; reflexivity).
  destruct Hok as [r Hr]. rewrite Hr in Hm.
  destruct Hm as (pre & req & cancel & Hnew & Hq).
  exists r, new, pre, req, cancel. repeat split; assumption.
Defined.

(** ** Opening a long position *)

Lemma imf_of_leverage (leverage : Z) :
  1 <= leverage -> uint16_of_int (Z.quot 10000 leverage) = 10000 / leverage.
Proof.
  intros Hl. unfold uint16_of_int. rewrite Z.quot_div_nonneg by lia.
  apply Z.mod_small. split; [apply Z.div_pos; lia|].
  apply Z.le_lt_trans with 10000; [|reflexivity].
  apply Z.div_le_upper_bound; lia.
Qed.

(** C3: in [OpenLong], after the cancellation of step 1: when the leverage
    step succeeds and the price step resolves to [p], the calls are the
    cancellation, at most one market reload, the leverage update with
    IMF = uint16(10000 / leverage) (which is 10000 / leverage for a leverage
    of at least 1), the price fetch and then the order, a buy ([IsAsk = 0])
    IOC limit order, not reduce-only, priced at the encoding of [p * 1.01];
    when the leverage step returns an error or panics, [OpenLong] ends the
    same way and no price is fetched and no order is created. *)
Theorem OpenLong_leverage_then_buy `{ext : Externals} (symbol : string)
    (quantity : float64) (leverage : Z) (ex : Exchange) (st : State) :
  let s0 := fst (attempt (CancelAllOrders symbol) ex st) in
  (forall s1 s2 p,
     SetLeverage symbol leverage ex s0 = (s1, Ok tt) ->
     GetMarketPrice symbol ex s1 = (s2, Ok p) ->
     exists cancel pre lev id req,
       trace (fst (OpenLong symbol quantity leverage ex st)) =
         trace st ++ CancelAllOrdersTx cancel :: pre ++
           [UpdateLeverageTx lev; GetOrderBookDetails id; CreateOrderTx req] /\
       (pre = [] \/ pre = [GetOrderBooks]) /\
       UpdateLeverageTxReq.MarketIndex lev = id /\
       UpdateLeverageTxReq.InitialMarginFraction lev
         = uint16_of_int (Z.quot 10000 leverage) /\
       (1 <= leverage ->
        UpdateLeverageTxReq.InitialMarginFraction lev = 10000 / leverage) /\
       CreateOrderTxReq.MarketIndex req = id /\
       CreateOrderTxReq.IsAsk req = 0 /\
       CreateOrderTxReq.Type_ req = LimitOrder /\
       CreateOrderTxReq.TimeInForce req = ImmediateOrCancel /\
       CreateOrderTxReq.ReduceOnly req = 0 /\
       CreateOrderTxReq.BaseAmount req
         = convertToBaseAmount (marketInfoCache s2) symbol quantity /\
       CreateOrderTxReq.Price req
         = convertToLighterPrice (marketInfoCache s2) symbol
             (F64.mul p (F64.lit 101 100))) /\
  (forall s1 e,
     SetLeverage symbol leverage ex s0 = (s1, Err e) ->
     OpenLong symbol quantity leverage ex st = (s1, Err e) /\
     exists new,
       trace s1 = trace st ++ new /\ forallb before_price new = true) /\
  (forall s1,
     SetLeverage symbol leverage ex s0 = (s1, Panic) ->
     OpenLong symbol quantity leverage ex st = (s1, Panic) /\
     exists new,
       trace s1 = trace st ++ new /\ forallb before_price new = true).
Proof.
  destruct (attempt (CancelAllOrders symbol) ex st) as [s0 o0] eqn:Hc.
  pose proof (attempt_CancelAllOrders_run _ _ _ _ _ Hc)
    as (cancel & err & -> & S0 & _).
  cbn [fst]. split; [|split].
  - intros s1 s2 p Hlev Hprice.
    pose proof (SetLeverage_run _ _ _ _ _ _ Hlev)
      as (pre & Hpre & _ & lev & mi & S1 & Hmi & Hidx & Himf & _).
    pose proof (getMarketIndex_hit symbol ex s1 mi Hmi) as Hhit.
    pose proof (GetMarketPrice_run _ _ _ _ _ Hprice) as (Hcache & _ & S2).
    rewrite Hmi in S2.
    pose proof (steps_trans _ _ _ _ _ (steps_trans _ _ _ _ _ S0 S1) S2) as S012.
    unfold OpenLong.
    rewrite bind_unfold, Hc, bind_unfold, Hlev, bind_unfold, Hhit,
      bind_unfold, Hprice.
    rewrite bind_unfold. cbn [get_cache]. rewrite bind_unfold. cbn [now].
    rewrite bind_unfold. cbn [ask].
    match goal with
    | |- context [tx_createOrder ex ?n ?r] =>
        set (req := r); destruct (tx_createOrder ex n req)
    end;
      exists cancel, pre, lev, (lighterOrderBook.MarketID mi), req;
      (split;
       [ cbn [fst trace mret M_ret fail]; rewrite (steps_trace _ _ _ S012);
         repeat (progress (rewrite <- ?app_assoc; cbn [app])); reflexivity |]);
      (split; [exact Hpre|]); (split; [exact Hidx|]); (split; [exact Himf|]);
      (split; [intros Hl; rewrite Himf; now apply imf_of_leverage|]);
      repeat split.
  - intros s1 e Hlev. split.
    + unfold OpenLong. now rewrite bind_unfold, Hc, bind_unfold, Hlev.
    + pose proof (SetLeverage_run _ _ _ _ _ _ Hlev) as (pre & Hpre & Hcases).
      destruct Hcases as [S1 | [lev S1]];
        pose proof (steps_trans _ _ _ _ _ S0 S1) as S01;
        eexists; (split; [exact (steps_trace _ _ _ S01)|]);
        destruct Hpre as [-> | ->]; reflexivity.
  - intros s1 Hlev. split.
    + unfold OpenLong. now rewrite bind_unfold, Hc, bind_unfold, Hlev.
    + pose proof (SetLeverage_run _ _ _ _ _ _ Hlev) as (pre & Hpre & _ & S1).
      pose proof (steps_trans _ _ _ _ _ S0 S1) as S01.
      eexists. split; [exact (steps_trace _ _ _ S01)|].
      destruct Hpre as [-> | ->]; reflexivity.
Qed.

Lemma OpenLong_leverage_then_buy_witness :
  let ex := sample_exchange [ETH] [] true true true in
  let run := OpenLong (ext := sample_externals) "ETHUSDT" (F64.lit 1 100) 10
               ex (state_with ∅) in
  exists cancel pre lev id req,
    trace (fst run) =
      CancelAllOrdersTx cancel :: pre ++
        [UpdateLeverageTx lev; GetOrderBookDetails id; CreateOrderTx req] /\
    UpdateLeverageTxReq.InitialMarginFraction lev = 1000 /\
    CreateOrderTxReq.IsAsk req = 0 /\
    CreateOrderTxReq.Price req = 303000.
Proof.
  intros ex run.
  pose (s0 := fst (attempt (CancelAllOrders "ETHUSDT") ex (state_with ∅))).
  pose (s1 := fst (SetLeverage "ETHUSDT" 10 ex s0)).
  pose (s2 := fst (GetMarketPrice (ext := sample_externals) "ETHUSDT" ex s1)).
  assert (Hlev : SetLeverage "ETHUSDT" 10 ex s0 = (s1, Ok tt))
    by (vm_compute; reflexivity).
  assert (Hprice : GetMarketPrice (ext := sample_externals) "ETHUSDT" ex s1
                   = (s2, Ok (F64.of_Z 3000)))
    by (vm_compute; reflexivity).
  destruct (OpenLong_leverage_then_buy (ext := sample_externals) "ETHUSDT"
              (F64.lit 1 100) 10 ex (state_with ∅)) as [Hbuy _].
  destruct (Hbuy s1 s2 (F64.of_Z 3000) Hlev Hprice)
    as (cancel & pre & lev & id & req & Ht & _ & _ & _ & Himf & _ & Hask
        & _ & _ & _ & _ & Hp).
  exists cancel, pre, lev, id, req.
  split; [exact Ht|]. split; [apply Himf; lia|]. split; [exact Hask|].
  rewrite Hp. vm_compute. reflexivity.
Defined.

(** * Further properties of the engine *)

(** ** Reloading the cache *)

Lemma loadMarketInfo_success (ex : Exchange) (st : State)
    (resp : lighterOrderBooksResponse.t) :
  http_orderBooks ex (asked st) = Response 200 (Some resp) ->
  lighterOrderBooksResponse.Code resp = 200 ->
  loadMarketInfo ex st =
    ({| accountIndex := accountIndex st;
        marketInfoCache :=
          foldl (fun c market => <[lighterOrderBook.Symbol market := market]> c)
            (marketInfoCache st) (lighterOrderBooksResponse.OrderBooks resp);
        asked := S (asked st);
        trace := trace st ++ [GetOrderBooks] |}, Ok tt).
Proof.
  intros Hresp Hcode. unfold loadMarketInfo.
  rewrite bind_unfold. cbn [ask]. rewrite bind_unfold. unfold body_of.
  rewrite Hresp. cbn [Z.eqb Pos.eqb negb mret M_ret].
  rewrite bind_unfold. unfold code_ok. rewrite Hcode. reflexivity.
Qed.

Lemma foldl_last_listed (l : list lighterOrderBook.t)
    (c : gmap string lighterOrderBook.t) (k : string) :
  foldl (fun c market => <[lighterOrderBook.Symbol market := market]> c) c l !! k
  = match last_listed k l with
    | Some m => Some m
    | None => c !! k
    end.
Proof.
  induction l as [|x l IH] using rev_ind; [reflexivity|].
  rewrite foldl_app. cbn [foldl]. unfold last_listed.
  rewrite rev_app_distr. cbn [rev app find].
  destruct (String.eqb (lighterOrderBook.Symbol x) k) eqn:E.
  - apply String.eqb_eq in E. subst k. apply lookup_insert_eq.
  - apply String.eqb_neq in E. rewrite lookup_insert_ne by exact E.
    exact IH.
Qed.

(** X1: a reload that fails leaves the cache as it was. Every reload, failed
    or not, makes exactly one call, the market list request, and does not
    panic. *)
Theorem loadMarketInfo_failure_keeps_cache (ex : Exchange) (st st' : State)
    (out : outcome unit) :
  loadMarketInfo ex st = (st', out) ->
  trace st' = trace st ++ [GetOrderBooks] /\
  accountIndex st' = accountIndex st /\
  out <> Panic /\
  (forall e, out = Err e -> marketInfoCache st' = marketInfoCache st).
Proof.
  intros H. apply loadMarketInfo_run in H as [[Ha Ht] Hout].
  split; [exact Ht|]. split; [exact Ha|].
  destruct out as [u|e|]; [|split|contradiction]; try discriminate.
  - split; [discriminate|]. intros e [=].
  - intros e' _. exact Hout.
Qed.

Lemma loadMarketInfo_failure_keeps_cache_witness :
  let run := loadMarketInfo offline_exchange
               (state_with {[ "OLD"%string := OLD ]}) in
  snd run = Err ErrGetFailed /\
  marketInfoCache (fst run) = {[ "OLD"%string := OLD ]}.
Proof.
  intros run.
  destruct (loadMarketInfo_failure_keeps_cache offline_exchange
              (state_with {[ "OLD"%string := OLD ]}) (fst run) (snd run)
              (surjective_pairing _)) as (_ & _ & _ & Hkeep).
  split; [reflexivity|]. exact (Hkeep ErrGetFailed eq_refl).
Defined.

(** X2: after a successful reload the entry of a key is the last fetched
    market with that symbol, when there is one, and the entry it had before
    otherwise: of two fetched markets with the same symbol the later one
    stays. *)
Theorem loadMarketInfo_last_wins (ex : Exchange) (st st' : State) :
  loadMarketInfo ex st = (st', Ok tt) ->
  exists resp,
    http_orderBooks ex (asked st) = Response 200 (Some resp) /\
    forall k : string,
      marketInfoCache st' !! k =
      match last_listed k (lighterOrderBooksResponse.OrderBooks resp) with
      | Some m => Some m
      | None => marketInfoCache st !! k
      end.
Proof.
  intros H. apply loadMarketInfo_run in H as [_ (resp & Hresp & _ & Hc)].
  exists resp. split; [exact Hresp|]. intros k. rewrite Hc.
  apply foldl_last_listed.
Qed.

Lemma loadMarketInfo_last_wins_witness :
  let st' := fst (loadMarketInfo
                    (sample_exchange [market "ETH" 0 4 2; market "ETH" 9 1 1]
                       [] true true true)
                    (state_with {[ "OLD"%string := OLD ]})) in
  marketInfoCache st' !! "ETH"%string = Some (market "ETH" 9 1 1) /\
  marketInfoCache st' !! "OLD"%string = Some OLD.
Proof.
  intros st'.
  destruct (loadMarketInfo_last_wins
              (sample_exchange [market "ETH" 0 4 2; market "ETH" 9 1 1]
                 [] true true true)
              (state_with {[ "OLD"%string := OLD ]}) st' eq_refl)
    as (resp & Hresp & Hlast).
  cbn in Hresp. injection Hresp as <-.
  split; rewrite Hlast; vm_compute; reflexivity.
Defined.

(** X3: reloading again with the same answer from the exchange changes
    nothing: the second reload succeeds and leaves the cache of the first. *)
Theorem loadMarketInfo_twice (ex : Exchange) (st st1 : State) :
  loadMarketInfo ex st = (st1, Ok tt) ->
  http_orderBooks ex (asked st1) = http_orderBooks ex (asked st) ->
  exists st2,
    loadMarketInfo ex st1 = (st2, Ok tt) /\
    marketInfoCache st2 = marketInfoCache st1.
Proof.
  intros H1 Hsame.
  pose proof (loadMarketInfo_run _ _ _ _ H1) as [_ (resp & Hresp & Hcode & Hc1)].
  rewrite Hresp in Hsame.
  pose proof (loadMarketInfo_success ex st1 resp Hsame Hcode) as H2.
  eexists. split; [exact H2|]. cbn [marketInfoCache].
  apply map_eq. intros k. rewrite foldl_last_listed.
  rewrite Hc1, foldl_last_listed.
  now destruct (last_listed k (lighterOrderBooksResponse.OrderBooks resp)).
Qed.

Lemma loadMarketInfo_twice_witness :
  let ex := sample_exchange [ETH; BTC] [] true true true in
  let st1 := fst (loadMarketInfo ex (state_with ∅)) in
  marketInfoCache (fst (loadMarketInfo ex st1)) = marketInfoCache st1.
Proof.
  intros ex st1.
  destruct (loadMarketInfo_twice ex (state_with ∅) st1 eq_refl eq_refl)
    as (st2 & H2 & Hc).
  rewrite H2. exact Hc.
Defined.

(** X4: once both clients exist, [NewLighterTrader] returns a trader whatever
    the first load of the markets does. The trader has the account index of
    the configuration and has made one call, the market list request. If the
    load succeeded the cache holds, for each key, the last fetched market
    with that symbol and nothing else; if it failed the cache is empty. *)
Theorem NewLighterTrader_initial_cache (config : LighterConfig.t)
    (ex : Exchange) :
  exists trader,
    NewLighterTrader true true config ex = Ok trader /\
    accountIndex trader = LighterConfig.AccountIndex config /\
    trace trader = [GetOrderBooks] /\
    (forall resp,
       http_orderBooks ex 0 = Response 200 (Some resp) ->
       lighterOrderBooksResponse.Code resp = 200 ->
       forall k : string,
         marketInfoCache trader !! k
         = last_listed k (lighterOrderBooksResponse.OrderBooks resp)) /\
    (marketInfoCache trader = ∅ \/
     exists resp,
       http_orderBooks ex 0 = Response 200 (Some resp) /\
       lighterOrderBooksResponse.Code resp = 200).
Proof.
  unfold NewLighterTrader. cbn [negb]. unfold attempt.
  match goal with
  | |- context [loadMarketInfo ex ?t] =>
      set (trader0 := t); destruct (loadMarketInfo ex trader0) as [t1 o] eqn:E
  end.
  pose proof (loadMarketInfo_run _ _ _ _ E) as [[Ha Ht] Hout].
  destruct o as [[]|e|]; [| |contradiction]; exists t1;
    (split; [reflexivity|]); (split; [exact Ha|]); (split; [exact Ht|]).
  - destruct Hout as (resp & Hresp & Hcode & Hc). split.
    + intros resp' Hresp' _ k. cbn [asked trader0] in Hresp.
      rewrite Hresp in Hresp'. injection Hresp' as <-.
      rewrite Hc, foldl_last_listed. cbn [marketInfoCache trader0].
      rewrite lookup_empty.
      now destruct (last_listed k (lighterOrderBooksResponse.OrderBooks resp)).
    + right. exists resp. now split.
  - split; [|left; exact Hout].
    intros resp Hresp Hcode. exfalso.
    rewrite (loadMarketInfo_success ex trader0 resp Hresp Hcode) in E.
    discriminate E.
Qed.

Lemma NewLighterTrader_initial_cache_witness :
  exists trader,
    NewLighterTrader true true sample_config
      (sample_exchange [ETH; BTC] [] true true true) = Ok trader /\
    marketInfoCache trader !! "ETH"%string = Some ETH /\
    marketInfoCache trader !! "OLD"%string = None.
Proof.
  destruct (NewLighterTrader_initial_cache sample_config
              (sample_exchange [ETH; BTC] [] true true true))
    as (trader & Hnew & _ & _ & Hcache & _).
  exists trader. split; [exact Hnew|].
  split; rewrite (Hcache _ eq_refl eq_refl); vm_compute; reflexivity.
Defined.

(** ** Looking a market up *)

(** X5: [getMarketIndex] makes no call when the coin key is cached and
    answers with the cached market id, the state unchanged. When the key is
    missing it reloads once; it then answers with the id of the market the
    reload brought, and in every other case (the reload failed, or the key is
    still missing) with the same "market index not found" error, the reload
    error being dropped. It does not panic. *)
Theorem getMarketIndex_reloads_once (symbol : string) (ex : Exchange)
    (st st' : State) (out : outcome N) :
  getMarketIndex symbol ex st = (st', out) ->
  match marketInfoCache st !! convertSymbolToLighterCoin symbol with
  | Some marketInfo =>
      st' = st /\ out = Ok (lighterOrderBook.MarketID marketInfo)
  | None =>
      trace st' = trace st ++ [GetOrderBooks] /\
      match marketInfoCache st' !! convertSymbolToLighterCoin symbol with
      | Some marketInfo => out = Ok (lighterOrderBook.MarketID marketInfo)
      | None => out = Err (ErrMarketIndexNotFound symbol)
      end
  end.
Proof.
  unfold getMarketIndex. rewrite bind_unfold. cbn [get_cache].
  destruct (marketInfoCache st !! convertSymbolToLighterCoin symbol)
    as [mi|] eqn:Hc.
  - intros [= <- <-]. now split.
  - rewrite bind_unfold. unfold attempt.
    destruct (loadMarketInfo ex st) as [st1 o] eqn:Hload.
    apply loadMarketInfo_run in Hload as [[_ Ht] Ho].
    destruct o as [[]|e|]; [| |contradiction].
    + rewrite bind_unfold. cbn [get_cache].
      destruct (marketInfoCache st1 !! convertSymbolToLighterCoin symbol)
        as [mi|] eqn:Hc1; intros [= <- <-]; (split; [exact Ht|]);
        rewrite Hc1; reflexivity.
    + intros [= <- <-]. split; [exact Ht|]. rewrite Ho, Hc. reflexivity.
Qed.

Lemma getMarketIndex_reloads_once_witness :
  let run := getMarketIndex "BTCUSDT"
               (sample_exchange [ETH; BTC] [] true true true)
               (state_with {[ "ETH"%string := ETH ]}) in
  snd run = Ok 1%N /\ trace (fst run) = [GetOrderBooks].
Proof.
  intros run.
  pose proof (getMarketIndex_reloads_once "BTCUSDT"
                (sample_exchange [ETH; BTC] [] true true true)
                (state_with {[ "ETH"%string := ETH ]}) (fst run) (snd run)
                (surjective_pairing _)) as H.
  vm_compute in H. destruct H as [Ht _].
  split; [reflexivity|]. vm_compute. reflexivity.
Defined.

(** ** The market price *)

Lemma GetMarketPrice_answer `{ext : Externals} (symbol : string)
    (ex : Exchange) (st : State) (marketInfo : lighterOrderBook.t)
    (detail : list (string * go_any)) :
  marketInfoCache st !! convertSymbolToLighterCoin symbol = Some marketInfo ->
  http_orderBookDetails ex (asked st) (lighterOrderBook.MarketID marketInfo)
    = Response 200 (Some detail) ->
  GetMarketPrice symbol ex st =
    (let fromBook : M float64 :=
       if F64.ltb F64.zero (first_level_price "asks" detail)
          && F64.ltb F64.zero (first_level_price "bids" detail)
       then mret (F64.div (F64.add (first_level_price "asks" detail)
                             (first_level_price "bids" detail)) (F64.of_Z 2))
       else fail (ErrPriceUnavailable symbol) in
     match any_lookup "mark_price" detail with
     | Some (AnyString markPriceStr) =>
         let '(markPrice, ok) := strconv_ParseFloat markPriceStr in
         if ok then mret markPrice else fromBook
     | _ => fromBook
     end) ex
      {| accountIndex := accountIndex st;
         marketInfoCache := marketInfoCache st;
         asked := S (asked st);
         trace := trace st
                    ++ [GetOrderBookDetails (lighterOrderBook.MarketID marketInfo)] |}.
Proof.
  intros Hhit Hresp. unfold GetMarketPrice.
  rewrite bind_unfold. cbn [get_cache]. rewrite Hhit.
  rewrite bind_unfold. cbn [ask]. rewrite bind_unfold. unfold body_of.
  rewrite Hresp. reflexivity.
Qed.

(** X6: with the market cached and a decoded answer of status 200, the price
    is the parsed [mark_price] string when there is one that parses, whatever
    the book holds. Otherwise it is the mean of the first ask and the first
    bid when both are greater than zero, and the error "price unavailable"
    when one of them is missing, unparsable or not positive. *)
Theorem GetMarketPrice_mark_then_mid `{ext : Externals} (symbol : string)
    (ex : Exchange) (st : State) (marketInfo : lighterOrderBook.t)
    (detail : list (string * go_any)) :
  marketInfoCache st !! convertSymbolToLighterCoin symbol = Some marketInfo ->
  http_orderBookDetails ex (asked st) (lighterOrderBook.MarketID marketInfo)
    = Response 200 (Some detail) ->
  (forall markPriceStr markPrice,
     any_lookup "mark_price" detail = Some (AnyString markPriceStr) ->
     strconv_ParseFloat markPriceStr = (markPrice, true) ->
     snd (GetMarketPrice symbol ex st) = Ok markPrice) /\
  ((forall markPriceStr,
      any_lookup "mark_price" detail = Some (AnyString markPriceStr) ->
      snd (strconv_ParseFloat markPriceStr) = false) ->
   let askPrice := first_level_price "asks" detail in
   let bidPrice := first_level_price "bids" detail in
   snd (GetMarketPrice symbol ex st) =
     if F64.ltb F64.zero askPrice && F64.ltb F64.zero bidPrice
     then Ok (F64.div (F64.add askPrice bidPrice) (F64.of_Z 2))
     else Err (ErrPriceUnavailable symbol)).
Proof.
  intros Hhit Hresp. rewrite (GetMarketPrice_answer _ _ _ _ _ Hhit Hresp).
  cbn zeta. split.
  - intros s v Hs Hv. rewrite Hs, Hv. reflexivity.
  - intros Hnone.
    assert (Hbook : forall s0,
              snd ((if F64.ltb F64.zero (first_level_price "asks" detail)
                       && F64.ltb F64.zero (first_level_price "bids" detail)
                    then mret (F64.div (F64.add (first_level_price "asks" detail)
                                          (first_level_price "bids" detail))
                                 (F64.of_Z 2))
                    else fail (ErrPriceUnavailable symbol) : M float64) ex s0)
              = if F64.ltb F64.zero (first_level_price "asks" detail)
                   && F64.ltb F64.zero (first_level_price "bids" detail)
                then Ok (F64.div (F64.add (first_level_price "asks" detail)
                                    (first_level_price "bids" detail))
                           (F64.of_Z 2))
                else Err (ErrPriceUnavailable symbol)).
    { intros s0.
      destruct (F64.ltb F64.zero (first_level_price "asks" detail)
                && F64.ltb F64.zero (first_level_price "bids" detail));
        reflexivity. }
    destruct (any_lookup "mark_price" detail) as [[| | |s| |]|] eqn:Hm;
      try apply Hbook.
    specialize (Hnone s eq_refl).
    destruct (strconv_ParseFloat s) as [v ok]. cbn [snd] in Hnone.
    subst ok. apply Hbook.
Qed.

Lemma GetMarketPrice_mark_then_mid_witness :
  let ex :=
    {| http_orderBooks := http_orderBooks offline_exchange;
       http_account := http_account offline_exchange;
       http_orderBookDetails := fun _ _ =>
         Response 200
           (Some [("asks"%string,
                   AnySlice [AnyMap [("price"%string, AnyString "3001")]]);
                  ("bids"%string,
                   AnySlice [AnyMap [("price"%string, AnyString "2999")]])]);
       tx_updateLeverage := tx_updateLeverage offline_exchange;
       tx_createOrder := tx_createOrder offline_exchange;
       tx_cancelAllOrders := tx_cancelAllOrders offline_exchange;
       time_now := time_now offline_exchange |} in
  snd (GetMarketPrice (ext := sample_externals) "ETHUSDT" ex
         (state_with {[ "ETH"%string := ETH ]})) = Ok (F64.of_Z 3000).
Proof.
  intros ex.
  assert (Hhit : marketInfoCache (state_with {[ "ETH"%string := ETH ]})
                   !! convertSymbolToLighterCoin "ETHUSDT" = Some ETH)
    by (vm_compute; reflexivity).
  destruct (GetMarketPrice_mark_then_mid (ext := sample_externals) "ETHUSDT"
              ex (state_with {[ "ETH"%string := ETH ]}) ETH _ Hhit eq_refl)
    as [_ Hmid].
  rewrite Hmid; [vm_compute; reflexivity|].
  intros s Hs. vm_compute in Hs. discriminate Hs.
Defined.

(** X7: [GetMarketPrice] never changes the cache and never reloads it: with
    the coin key missing it fails at once without a call, where
    [getMarketIndex] would reload. After a successful [getMarketIndex] the
    key is there, and the price request is made for the market id that
    [getMarketIndex] returned. *)
Theorem GetMarketPrice_after_getMarketIndex `{ext : Externals}
    (symbol : string) (ex : Exchange) (st st' : State) (out : outcome float64) :
  GetMarketPrice symbol ex st = (st', out) ->
  marketInfoCache st' = marketInfoCache st /\
  out <> Panic /\
  (marketInfoCache st !! convertSymbolToLighterCoin symbol = None ->
   st' = st /\ out = Err (ErrMarketInfoNotFound symbol)) /\
  (forall st0 id,
     getMarketIndex symbol ex st0 = (st, Ok id) ->
     trace st' = trace st ++ [GetOrderBookDetails id]).
Proof.
  intros H. apply GetMarketPrice_run in H as (Hc & Hp & Hm).
  split; [exact Hc|]. split; [exact Hp|]. split.
  - intros Hmiss. now rewrite Hmiss in Hm.
  - intros st0 id Hidx.
    apply getMarketIndex_run in Hidx as (_ & _ & _ & _ & Hid).
    destruct (Hid id eq_refl) as (mi & Hmi & <-).
    rewrite Hmi in Hm. exact (steps_trace _ _ _ Hm).
Qed.

Lemma GetMarketPrice_after_getMarketIndex_witness :
  let ex := sample_exchange [ETH] [] true true true in
  let st := fst (getMarketIndex "ETHUSDT" ex (state_with ∅)) in
  trace (fst (GetMarketPrice (ext := sample_externals) "ETHUSDT" ex st))
  = [GetOrderBooks; GetOrderBookDetails 0].
Proof.
  intros ex st.
  destruct (GetMarketPrice_after_getMarketIndex (ext := sample_externals)
              "ETHUSDT" ex st _ _ (surjective_pairing _))
    as (_ & _ & _ & Hreq).
  rewrite (Hreq (state_with ∅) 0%N); [reflexivity|].
  vm_compute. reflexivity.
Defined.

(** ** Symbols and coin keys *)

Lemma append_cons (c : ascii) (a b : string) :
  (String c a ++ b)%string = String c (a ++ b)%string.
Proof. reflexivity. Qed.

Lemma length_append (a b : string) :
  String.length (a ++ b)%string = (String.length a + String.length b)%nat.
Proof.
  induction a as [|c a IH]; [reflexivity|].
  rewrite append_cons. cbn [String.length Nat.add]. now rewrite IH.
Qed.

Lemma substring_append_r (a b : string) :
  substring (String.length a) (String.length b) (a ++ b)%string = b.
Proof.
  induction a as [|c a IH]; [apply substring_whole|].
  rewrite append_cons. exact IH.
Qed.

Lemma substring_append_l (a b : string) :
  substring 0 (String.length a) (a ++ b)%string = a.
Proof.
  induction a as [|c a IH]; [now destruct b|].
  rewrite append_cons. cbn [String.length substring]. now rewrite IH.
Qed.

(** X8: the coin key of a symbol built as [GetPositions] builds it, the coin
    followed by "USDT", is the coin again, for every coin that is not empty;
    for the empty coin the symbol "USDT" is its own key. *)
Theorem convertSymbolToLighterCoin_of_position_symbol (coin : string) :
  convertSymbolToLighterCoin (coin ++ "USDT")
  = if String.eqb coin EmptyString then "USDT"%string else coin.
Proof.
  unfold convertSymbolToLighterCoin. rewrite length_append.
  destruct coin as [|c coin]; [reflexivity|].
  cbn [String.eqb]. change (String.length "USDT") with 4%nat.
  replace (String.length (String c coin) + 4 - 4)%nat
    with (String.length (String c coin)) by lia.
  replace (4 <? String.length (String c coin) + 4)%nat with true
    by (symmetry; apply Nat.ltb_lt; cbn [String.length]; lia).
  change 4%nat with (String.length "USDT") at 1.
  rewrite substring_append_r, substring_append_l. reflexivity.
Qed.

(** ** Absolute values *)

Lemma absFloat64_not_negative (x : float64) :
  F64.ltb (absFloat64 x) F64.zero = false.
Proof. destruct x as [[]|[]| |[] m e]; reflexivity. Qed.

Lemma absFloat64_not_zero (x : float64) :
  F64.eqb x F64.zero = false -> F64.eqb (absFloat64 x) F64.zero = false.
Proof. destruct x as [[]|[]| |[] m e]; intros H; try reflexivity; exact H. Qed.

(** X9: [absFloat64] never returns a value below zero, applying it twice is
    applying it once, and a value that is not zero stays not zero. What is
    not below zero is left as it is, the negative zero and NaN included. *)
Theorem absFloat64_spec (x : float64) :
  F64.ltb (absFloat64 x) F64.zero = false /\
  absFloat64 (absFloat64 x) = absFloat64 x /\
  (F64.eqb x F64.zero = false -> F64.eqb (absFloat64 x) F64.zero = false) /\
  absFloat64 (S754_zero true) = S754_zero true /\
  absFloat64 S754_nan = S754_nan.
Proof.
  split; [apply absFloat64_not_negative|].
  split; [destruct x as [[]|[]| |[] m e]; reflexivity|].
  split; [apply absFloat64_not_zero|].
  split; reflexivity.
Qed.

Lemma absFloat64_spec_witness :
  F64.eqb (absFloat64 (F64.lit (-25) 10)) F64.zero = false /\
  absFloat64 (F64.lit (-25) 10) = F64.lit 25 10.
Proof.
  destruct (absFloat64_spec (F64.lit (-25) 10)) as (_ & _ & Hnz & _).
  split; [apply Hnz; reflexivity | reflexivity].
Defined.

(** X10: [absInt64] is the absolute value for every int64 but the least one,
    where the negation wraps around and the result is the least int64 itself,
    a negative number. *)
Theorem absInt64_spec (x : Z) :
  (- 2 ^ 63 < x < 2 ^ 63 -> absInt64 x = Z.abs x /\ 0 <= absInt64 x) /\
  absInt64 (- 2 ^ 63) = - 2 ^ 63.
Proof.
  split; [|reflexivity]. intros Hx. unfold absInt64, int64_wrap.
  destruct (x <? 0) eqn:E.
  - apply Z.ltb_lt in E.
    replace ((- x + 2 ^ 63) mod 2 ^ 64) with (- x + 2 ^ 63)
      by (symmetry; apply Z.mod_small; lia).
    lia.
  - apply Z.ltb_ge in E. lia.
Qed.

Lemma absInt64_spec_witness : absInt64 (- 5) = 5 /\ 0 <= absInt64 (- 5).
Proof.
  destruct (absInt64_spec (- 5)) as [H _].
  assert (Hr : - 2 ^ 63 < - 5 < 2 ^ 63) by (vm_compute; split; reflexivity).
  destruct (H Hr) as [Ha Hp]. rewrite Ha. split; [reflexivity|].
  vm_compute. discriminate.
Defined.

(** ** The account snapshot *)

Lemma account_answer {A} (k : lighterAccountResponse.t -> M A) (ex : Exchange)
    (st : State) (resp : lighterAccountResponse.t) :
  http_account ex (asked st) (accountIndex st) = Response 200 (Some resp) ->
  lighterAccountResponse.Code resp = 200 ->
  (idx ← get_accountIndex;
   r ← ask (GetAccount idx) (fun ex n => http_account ex n idx);
   accountResp ← body_of r;
   _ ← code_ok (lighterAccountResponse.Code accountResp)
         (lighterAccountResponse.Message accountResp);
   k accountResp) ex st
  = k resp ex
      {| accountIndex := accountIndex st;
         marketInfoCache := marketInfoCache st;
         asked := S (asked st);
         trace := trace st ++ [GetAccount (accountIndex st)] |}.
Proof.
  intros Hresp Hcode.
  rewrite bind_unfold. cbn [get_accountIndex].
  rewrite bind_unfold. cbn [ask]. rewrite bind_unfold. unfold body_of.
  rewrite Hresp. cbn [Z.eqb Pos.eqb negb mret M_ret].
  rewrite bind_unfold. unfold code_ok. rewrite Hcode. reflexivity.
Qed.

(** X11: every entry of the answer of [GetPositions] has side "long" or
    "short", an amount that is not zero, and for a short side not below zero;
    its symbol is the exchange's symbol followed by "USDT", and its mark
    price is the position value divided by the absolute quantity, a divisor
    that is not zero. The call makes one account request and leaves the cache
    alone. *)
Theorem GetPositions_entries `{ext : Externals} (ex : Exchange)
    (st st' : State) (l : list PositionMap.t) :
  GetPositions ex st = (st', Ok l) ->
  trace st' = trace st ++ [GetAccount (accountIndex st)] /\
  marketInfoCache st' = marketInfoCache st /\
  forall e, e ∈ l ->
    (PositionMap.side e = "long"%string \/ PositionMap.side e = "short"%string) /\
    F64.eqb (PositionMap.positionAmt e) F64.zero = false /\
    (PositionMap.side e = "short"%string ->
     F64.ltb (PositionMap.positionAmt e) F64.zero = false) /\
    exists pos,
      let position :=
        fst (strconv_ParseFloat (lighterAccountPosition.Position pos)) in
      PositionMap.symbol e
        = (lighterAccountPosition.Symbol pos ++ "USDT")%string /\
      F64.eqb (absFloat64 position) F64.zero = false /\
      PositionMap.markPrice e
        = F64.div
            (fst (strconv_ParseFloat (lighterAccountPosition.PositionValue pos)))
            (absFloat64 position).
Proof.
  intros H. apply GetPositions_run in H as ([_ Ht] & Hc & _ & Hl).
  split; [exact Ht|]. split; [exact Hc|].
  destruct (Hl l eq_refl) as (resp & _ & ->).
  intros e He. apply list_elem_of_omap in He as (pos & _ & Hpos).
  unfold position_entry in Hpos.
  destruct (F64.eqb (fst (strconv_ParseFloat (lighterAccountPosition.Position pos)))
              F64.zero) eqn:Hz; [discriminate|].
  destruct (0 <? lighterAccountPosition.Sign pos);
    cbn [negb] in Hpos; injection Hpos as <-; cbn [PositionMap.side
      PositionMap.positionAmt PositionMap.symbol PositionMap.markPrice].
  - split; [now left|]. split; [exact Hz|]. split; [discriminate|].
    exists pos. split; [reflexivity|].
    split; [now apply absFloat64_not_zero | reflexivity].
  - split; [now right|]. split; [now apply absFloat64_not_zero|].
    split; [intros _; apply absFloat64_not_negative|].
    exists pos. split; [reflexivity|].
    split; [now apply absFloat64_not_zero | reflexivity].
Qed.

Lemma GetPositions_entries_witness :
  let run := GetPositions (ext := sample_externals)
               (sample_exchange [ETH]
                  [account_position "ETH" "2.5" (-1);
                   account_position "BTC" "0" 1] true true true)
               (state_with ∅) in
  exists e, snd run = Ok [e] /\
            F64.eqb (PositionMap.positionAmt e) F64.zero = false /\
            PositionMap.markPrice e = F64.of_Z 3000.
Proof.
  intros run.
  assert (Hrun : exists e, run = (fst run, Ok [e]))
    by (eexists; vm_compute; reflexivity).
  destruct Hrun as [e Hrun].
  destruct (GetPositions_entries (ext := sample_externals) _ _ _ _ Hrun)
    as (_ & _ & Hall).
  destruct (Hall e ltac:(now left)) as (_ & Hnz & _).
  exists e. split; [now rewrite Hrun|]. split; [exact Hnz|].
  vm_compute in Hrun. injection Hrun as <-. reflexivity.
Defined.

(** X12: on an answer without any account, [GetBalance] fails with the "no
    account" error while [GetPositions] succeeds with the empty list; both
    have made the same single account request. *)
Theorem no_account_balance_fails_positions_empty `{ext : Externals}
    (ex : Exchange) (st : State) (resp : lighterAccountResponse.t) :
  http_account ex (asked st) (accountIndex st) = Response 200 (Some resp) ->
  lighterAccountResponse.Code resp = 200 ->
  lighterAccountResponse.Accounts resp = [] ->
  snd (GetBalance ex st) = Err ErrNoAccount /\
  snd (GetPositions ex st) = Ok [] /\
  fst (GetBalance ex st) = fst (GetPositions ex st) /\
  trace (fst (GetBalance ex st)) = trace st ++ [GetAccount (accountIndex st)].
Proof.
  intros Hresp Hcode Hnone. unfold GetBalance, GetPositions.
  rewrite !(account_answer _ ex st resp Hresp Hcode), Hnone.
  repeat split.
Qed.

Lemma no_account_balance_fails_positions_empty_witness :
  let ex :=
    {| http_orderBooks := http_orderBooks offline_exchange;
       http_account := fun _ _ =>
         Response 200
           (Some {| lighterAccountResponse.Code := 200;
                    lighterAccountResponse.Message := EmptyString;
                    lighterAccountResponse.Total := 0;
                    lighterAccountResponse.Accounts := [] |});
       http_orderBookDetails := http_orderBookDetails offline_exchange;
       tx_updateLeverage := tx_updateLeverage offline_exchange;
       tx_createOrder := tx_createOrder offline_exchange;
       tx_cancelAllOrders := tx_cancelAllOrders offline_exchange;
       time_now := time_now offline_exchange |} in
  snd (GetBalance (ext := sample_externals) ex (state_with ∅)) = Err ErrNoAccount /\
  snd (GetPositions (ext := sample_externals) ex (state_with ∅)) = Ok [].
Proof.
  intros ex.
  destruct (no_account_balance_fails_positions_empty (ext := sample_externals)
              ex (state_with ∅) _ eq_refl eq_refl eq_refl) as (Hb & Hp & _).
  now split.
Defined.

Lemma f64_sub_zero (x : float64) : f64_sub x F64.zero = x.
Proof. destruct x as [[]|[]| |[] m e]; reflexivity. Qed.

(** X13: [GetBalance] reads the first account of the answer only. The wallet
    balance is the collateral minus the total unrealized profit, the total
    being the float64 sum of the positions' parsed profits from 0 in the
    order of the list; without positions the total is 0 and the wallet
    balance is the collateral itself. *)
Theorem GetBalance_first_account `{ext : Externals} (ex : Exchange)
    (st : State) (resp : lighterAccountResponse.t)
    (account : lighterAccount.t) (others : list lighterAccount.t) :
  http_account ex (asked st) (accountIndex st) = Response 200 (Some resp) ->
  lighterAccountResponse.Code resp = 200 ->
  lighterAccountResponse.Accounts resp = account :: others ->
  exists b,
    snd (GetBalance ex st) = Ok b /\
    trace (fst (GetBalance ex st)) = trace st ++ [GetAccount (accountIndex st)] /\
    Balance.availableBalance b
      = fst (strconv_ParseFloat (lighterAccount.AvailableBalance account)) /\
    Balance.totalUnrealizedProfit b
      = foldl (fun total pos =>
                 F64.add total
                   (fst (strconv_ParseFloat
                           (lighterAccountPosition.UnrealizedPnl pos))))
          F64.zero (lighterAccount.Positions account) /\
    Balance.totalWalletBalance b
      = f64_sub (fst (strconv_ParseFloat (lighterAccount.Collateral account)))
          (Balance.totalUnrealizedProfit b) /\
    (lighterAccount.Positions account = [] ->
     Balance.totalUnrealizedProfit b = F64.zero /\
     Balance.totalWalletBalance b
       = fst (strconv_ParseFloat (lighterAccount.Collateral account))).
Proof.
  intros Hresp Hcode Hacc. unfold GetBalance.
  rewrite (account_answer _ ex st resp Hresp Hcode), Hacc.
  eexists. split; [reflexivity|]. split; [reflexivity|].
  cbn [Balance.availableBalance Balance.totalUnrealizedProfit
       Balance.totalWalletBalance].
  split; [reflexivity|]. split; [reflexivity|]. split; [reflexivity|].
  intros Hnone. rewrite Hnone. cbn [foldl].
  split; [reflexivity | apply f64_sub_zero].
Qed.

Lemma GetBalance_first_account_witness :
  exists b,
    snd (GetBalance (ext := sample_externals)
           (sample_exchange [ETH] [] true true true) (state_with ∅)) = Ok b /\
    Balance.totalWalletBalance b = F64.of_Z 100 /\
    Balance.totalUnrealizedProfit b = F64.zero.
Proof.
  destruct (GetBalance_first_account (ext := sample_externals)
              (sample_exchange [ETH] [] true true true) (state_with ∅)
              _ _ _ eq_refl eq_refl eq_refl)
    as (b & Hb & _ & _ & _ & _ & Hnone).
  exists b. split; [exact Hb|].
  destruct (Hnone eq_refl) as [Hu Hw]. split; [rewrite Hw; reflexivity|exact Hu].
Defined.

(** ** More on the numeric codec *)

Lemma multiplier_finite (decimals : N) :
  (decimals <= 255)%N -> finite_positive (multiplier decimals) = true.
Proof.
  intros Hd.
  assert (Hall : forallb (fun n => finite_positive (multiplier (N.of_nat n)))
                   (seq 0 256) = true) by (vm_compute; reflexivity).
  rewrite forallb_forall in Hall.
  specialize (Hall (N.to_nat decimals)).
  rewrite N2Nat.id in Hall. apply Hall. apply in_seq. lia.
Qed.

(** X14: for every number of decimals a uint8 can hold, the loop of the
    multiplier ends on a finite float64 greater than zero: it never reaches
    infinity. *)
Theorem multiplier_never_overflows (decimals : N) :
  (decimals <= 255)%N ->
  finite_positive (multiplier decimals) = true /\
  F64.ltb F64.zero (multiplier decimals) = true.
Proof.
  intros Hd. pose proof (multiplier_finite decimals Hd) as Hf.
  split; [exact Hf|].
  destruct (multiplier decimals) as [s|s| |[] m e]; try discriminate Hf.
  reflexivity.
Qed.

Lemma multiplier_never_overflows_witness :
  finite_positive (multiplier 255) = true.
Proof.
  apply (multiplier_never_overflows 255). vm_compute. discriminate.
Defined.

(** X15: for a symbol with a cached market, the price is the float64 product
    of the price and the multiplier of [SupportedPriceDecimals], converted to
    uint32. When the integer part of the product lies in 0 .. 2^32 - 1 the
    result is that integer part, the fraction discarded; when it lies outside
    (a negative price, a price too large) nothing is reported and the result
    is the value the platform gives to such a conversion. *)
Theorem convertToLighterPrice_truncates `{ext : Externals}
    (cache : gmap string lighterOrderBook.t) (symbol : string)
    (marketInfo : lighterOrderBook.t) (price : float64) :
  cache !! convertSymbolToLighterCoin symbol = Some marketInfo ->
  let product :=
    F64.mul price
      (multiplier (lighterOrderBook.SupportedPriceDecimals marketInfo)) in
  convertToLighterPrice cache symbol price = uint32_of_float64 product /\
  (forall z, F64.trunc product = Some z -> 0 <= z < 2 ^ 32 ->
     convertToLighterPrice cache symbol price = z /\
     z * snd (magnitude product) <= fst (magnitude product)
       < (z + 1) * snd (magnitude product)) /\
  (forall z, F64.trunc product = Some z -> z < 0 \/ 2 ^ 32 <= z ->
     convertToLighterPrice cache symbol price
     = uint32_of_unrepresentable product).
Proof.
  intros Hhit product.
  assert (Hdef : convertToLighterPrice cache symbol price
                 = uint32_of_float64 product).
  { unfold convertToLighterPrice. now rewrite Hhit. }
  split; [exact Hdef|]. rewrite Hdef. unfold uint32_of_float64. split.
  - intros z Hz [Hlo Hhi]. rewrite Hz.
    pose proof (trunc_towards_zero _ _ Hz) as (_ & Hb & _).
    rewrite Z.abs_eq in Hb by exact Hlo.
    apply Z.leb_le in Hlo. apply Z.ltb_lt in Hhi. rewrite Hlo, Hhi.
    split; [reflexivity | exact Hb].
  - intros z Hz Hout. rewrite Hz.
    destruct Hout as [Hneg | Hbig].
    + replace (0 <=? z) with false by (symmetry; apply Z.leb_gt; exact Hneg).
      reflexivity.
    + replace (z <? 2 ^ 32) with false by (symmetry; apply Z.ltb_ge; exact Hbig).
      now rewrite andb_false_r.
Qed.

Lemma convertToLighterPrice_truncates_witness :
  convertToLighterPrice (ext := sample_externals) {[ "ETH"%string := ETH ]}
    "ETHUSDT" (F64.lit 3030129 1000) = 303012 /\
  convertToLighterPrice (ext := sample_externals) {[ "ETH"%string := ETH ]}
    "ETHUSDT" (F64.of_Z (-3)) = 0.
Proof.
  assert (Hhit : ({[ "ETH"%string := ETH ]} : gmap string lighterOrderBook.t)
                    !! convertSymbolToLighterCoin "ETHUSDT" = Some ETH)
    by (vm_compute; reflexivity).
  split.
  - destruct (convertToLighterPrice_truncates (ext := sample_externals)
                {[ "ETH"%string := ETH ]} "ETHUSDT" ETH (F64.lit 3030129 1000)
                Hhit) as (_ & Hin & _).
    apply (Hin 303012); [reflexivity|]. split; [discriminate | reflexivity].
  - destruct (convertToLighterPrice_truncates (ext := sample_externals)
                {[ "ETH"%string := ETH ]} "ETHUSDT" ETH (F64.of_Z (-3))
                Hhit) as (_ & _ & Hout).
    rewrite (Hout (-300)); [reflexivity | reflexivity | left; reflexivity].
Defined.

(** X16: a zero quantity is encoded as 0 and a zero price as 0, for an
    unknown symbol and for every cached market whose decimals fit a uint8. *)
Theorem zero_encodes_to_zero `{ext : Externals}
    (cache : gmap string lighterOrderBook.t) (symbol : string) (s : bool) :
  (forall marketInfo,
     cache !! convertSymbolToLighterCoin symbol = Some marketInfo ->
     (lighterOrderBook.SupportedSizeDecimals marketInfo <= 255)%N /\
     (lighterOrderBook.SupportedPriceDecimals marketInfo <= 255)%N) ->
  convertToBaseAmount cache symbol (S754_zero s) = 0 /\
  convertToLighterPrice cache symbol (S754_zero s) = 0.
Proof.
  intros Hdec. unfold convertToBaseAmount, convertToLighterPrice.
  destruct (cache !! convertSymbolToLighterCoin symbol) as [mi|];
    [|split; reflexivity].
  destruct (Hdec mi eq_refl) as [Hs Hp].
  pose proof (multiplier_finite _ Hs) as Hfs.
  pose proof (multiplier_finite _ Hp) as Hfp.
  destruct (multiplier (lighterOrderBook.SupportedSizeDecimals mi))
    as [?|?| |[] ms es]; try discriminate Hfs.
  destruct (multiplier (lighterOrderBook.SupportedPriceDecimals mi))
    as [?|?| |[] mp ep]; try discriminate Hfp.
  split; reflexivity.
Qed.

Lemma zero_encodes_to_zero_witness :
  convertToBaseAmount (ext := sample_externals) {[ "ETH"%string := ETH ]}
    "ETHUSDT" (S754_zero true) = 0.
Proof.
  apply (zero_encodes_to_zero (ext := sample_externals)
           {[ "ETH"%string := ETH ]} "ETHUSDT" true).
  intros mi Hmi.
  assert (Hhit : ({[ "ETH"%string := ETH ]} : gmap string lighterOrderBook.t)
                    !! convertSymbolToLighterCoin "ETHUSDT" = Some ETH)
    by (vm_compute; reflexivity).
  rewrite Hhit in Hmi. injection Hmi as <-. split; vm_compute; discriminate.
Defined.

(** ** Opening positions *)

(** X17: in [OpenShort], after the cancellation of step 1: when the leverage
    step succeeds and the price step resolves to [p], the calls are the
    cancellation, at most one market reload, the leverage update, the price
    fetch and then the order, a sell ([IsAsk = 1]) IOC limit order, not
    reduce-only, priced at the encoding of [p * 0.99] and sized by the
    encoding of the quantity. *)
Theorem OpenShort_leverage_then_sell `{ext : Externals} (symbol : string)
    (quantity : float64) (leverage : Z) (ex : Exchange) (st : State)
    (s1 s2 : State) (p : float64) :
  SetLeverage symbol leverage ex
    (fst (attempt (CancelAllOrders symbol) ex st)) = (s1, Ok tt) ->
  GetMarketPrice symbol ex s1 = (s2, Ok p) ->
  exists cancel pre lev id req,
    trace (fst (OpenShort symbol quantity leverage ex st)) =
      trace st ++ CancelAllOrdersTx cancel :: pre ++
        [UpdateLeverageTx lev; GetOrderBookDetails id; CreateOrderTx req] /\
    (pre = [] \/ pre = [GetOrderBooks]) /\
    UpdateLeverageTxReq.MarketIndex lev = id /\
    UpdateLeverageTxReq.InitialMarginFraction lev
      = uint16_of_int (Z.quot 10000 leverage) /\
    CreateOrderTxReq.MarketIndex req = id /\
    CreateOrderTxReq.IsAsk req = 1 /\
    CreateOrderTxReq.Type_ req = LimitOrder /\
    CreateOrderTxReq.TimeInForce req = ImmediateOrCancel /\
    CreateOrderTxReq.ReduceOnly req = 0 /\
    CreateOrderTxReq.BaseAmount req
      = convertToBaseAmount (marketInfoCache s2) symbol quantity /\
    CreateOrderTxReq.Price req
      = convertToLighterPrice (marketInfoCache s2) symbol
          (F64.mul p (F64.lit 99 100)) /\
    snd (OpenShort symbol quantity leverage ex st) <> Panic.
Proof.
  destruct (attempt (CancelAllOrders symbol) ex st) as [s0 o0] eqn:Hc.
  pose proof (attempt_CancelAllOrders_run _ _ _ _ _ Hc)
    as (cancel & err & -> & S0 & _).
  cbn [fst]. intros Hlev Hprice.
  pose proof (SetLeverage_run _ _ _ _ _ _ Hlev)
    as (pre & Hpre & _ & lev & mi & S1 & Hmi & Hidx & Himf & _).
  pose proof (getMarketIndex_hit symbol ex s1 mi Hmi) as Hhit.
  pose proof (GetMarketPrice_run _ _ _ _ _ Hprice) as (Hcache & _ & S2).
  rewrite Hmi in S2.
  pose proof (steps_trans _ _ _ _ _ (steps_trans _ _ _ _ _ S0 S1) S2) as S012.
  unfold OpenShort.
  rewrite bind_unfold, Hc, bind_unfold, Hlev, bind_unfold, Hhit,
    bind_unfold, Hprice.
  rewrite bind_unfold. cbn [get_cache]. rewrite bind_unfold. cbn [now].
  rewrite bind_unfold. cbn [ask].
  match goal with
  | |- context [tx_createOrder ex ?n ?r] =>
      set (req := r); destruct (tx_createOrder ex n req)
  end;
    exists cancel, pre, lev, (lighterOrderBook.MarketID mi), req;
    (split;
     [ cbn [fst trace mret M_ret fail]; rewrite (steps_trace _ _ _ S012);
       repeat (progress (rewrite <- ?app_assoc; cbn [app])); reflexivity |]);
    (split; [exact Hpre|]); (split; [exact Hidx|]); (split; [exact Himf|]);
    repeat split; discriminate.
Qed.

Lemma OpenShort_leverage_then_sell_witness :
  let ex := sample_exchange [ETH] [] true true true in
  let run := OpenShort (ext := sample_externals) "ETHUSDT" (F64.lit 1 100) 10
               ex (state_with ∅) in
  exists cancel pre lev id req,
    trace (fst run) =
      CancelAllOrdersTx cancel :: pre ++
        [UpdateLeverageTx lev; GetOrderBookDetails id; CreateOrderTx req] /\
    CreateOrderTxReq.IsAsk req = 1 /\
    CreateOrderTxReq.Price req = 297000.
Proof.
  intros ex run.
  pose (s0 := fst (attempt (CancelAllOrders "ETHUSDT") ex (state_with ∅))).
  pose (s1 := fst (SetLeverage "ETHUSDT" 10 ex s0)).
  pose (s2 := fst (GetMarketPrice (ext := sample_externals) "ETHUSDT" ex s1)).
  assert (Hlev : SetLeverage "ETHUSDT" 10 ex
                   (fst (attempt (CancelAllOrders "ETHUSDT") ex (state_with ∅)))
                 = (s1, Ok tt))
    by (vm_compute; reflexivity).
  assert (Hprice : GetMarketPrice (ext := sample_externals) "ETHUSDT" ex s1
                   = (s2, Ok (F64.of_Z 3000)))
    by (vm_compute; reflexivity).
  destruct (OpenShort_leverage_then_sell (ext := sample_externals) "ETHUSDT"
              (F64.lit 1 100) 10 ex (state_with ∅) s1 s2 (F64.of_Z 3000)
              Hlev Hprice)
    as (cancel & pre & lev & id & req & Ht & _ & _ & _ & _ & Hask
        & _ & _ & _ & _ & Hp & _).
  exists cancel, pre, lev, id, req.
  split; [exact Ht|]. split; [exact Hask|].
  rewrite Hp. vm_compute. reflexivity.
Defined.

(** X18: when [OpenLong] (or [OpenShort]) has set the leverage and the price
    step then fails, the operation returns the price error: the cancellation
    and the leverage update have been issued and stay, and no order is
    created. *)
Theorem open_price_failure_keeps_leverage `{ext : Externals} (symbol : string)
    (quantity : float64) (leverage : Z) (ex : Exchange) (st : State)
    (s1 s2 : State) (e : error) :
  SetLeverage symbol leverage ex
    (fst (attempt (CancelAllOrders symbol) ex st)) = (s1, Ok tt) ->
  GetMarketPrice symbol ex s1 = (s2, Err e) ->
  OpenLong symbol quantity leverage ex st = (s2, Err e) /\
  OpenShort symbol quantity leverage ex st = (s2, Err e) /\
  exists cancel pre lev rest,
    trace s2 = trace st ++ CancelAllOrdersTx cancel :: pre
                 ++ UpdateLeverageTx lev :: rest /\
    (pre = [] \/ pre = [GetOrderBooks]) /\
    forallb quiet rest = true.
Proof.
  destruct (attempt (CancelAllOrders symbol) ex st) as [s0 o0] eqn:Hc.
  pose proof (attempt_CancelAllOrders_run _ _ _ _ _ Hc)
    as (cancel & err & -> & S0 & _).
  cbn [fst]. intros Hlev Hprice.
  pose proof (SetLeverage_run _ _ _ _ _ _ Hlev)
    as (pre & Hpre & _ & lev & mi & S1 & Hmi & _).
  pose proof (getMarketIndex_hit symbol ex s1 mi Hmi) as Hhit.
  pose proof (GetMarketPrice_quiet _ _ _ _ _ Hprice) as (_ & rest & S2 & Hq).
  pose proof (steps_trans _ _ _ _ _ (steps_trans _ _ _ _ _ S0 S1) S2) as S012.
  split; [|split].
  - unfold OpenLong.
    now rewrite bind_unfold, Hc, bind_unfold, Hlev, bind_unfold, Hhit,
      bind_unfold, Hprice.
  - unfold OpenShort.
    now rewrite bind_unfold, Hc, bind_unfold, Hlev, bind_unfold, Hhit,
      bind_unfold, Hprice.
  - exists cancel, pre, lev, rest. split; [|now split].
    rewrite (steps_trace _ _ _ S012).
    repeat (progress (rewrite <- ?app_assoc; cbn [app])). reflexivity.
Qed.

Lemma open_price_failure_keeps_leverage_witness :
  let ex :=
    {| http_orderBooks := http_orderBooks (sample_exchange [ETH] [] true true true);
       http_account := http_account offline_exchange;
       http_orderBookDetails := http_orderBookDetails offline_exchange;
       tx_updateLeverage := fun _ _ => Some "h1"%string;
       tx_createOrder := fun _ _ => Some "h2"%string;
       tx_cancelAllOrders := fun _ _ => Some "h3"%string;
       time_now := time_now offline_exchange |} in
  snd (OpenLong (ext := sample_externals) "ETHUSDT" (F64.lit 1 100) 10 ex
         (state_with ∅)) = Err ErrGetFailed.
Proof.
  intros ex.
  pose (s1 := fst (SetLeverage "ETHUSDT" 10 ex
                     (fst (attempt (CancelAllOrders "ETHUSDT") ex (state_with ∅))))).
  pose (s2 := fst (GetMarketPrice (ext := sample_externals) "ETHUSDT" ex s1)).
  assert (Hlev : SetLeverage "ETHUSDT" 10 ex
                   (fst (attempt (CancelAllOrders "ETHUSDT") ex (state_with ∅)))
                 = (s1, Ok tt))
    by (vm_compute; reflexivity).
  assert (Hprice : GetMarketPrice (ext := sample_externals) "ETHUSDT" ex s1
                   = (s2, Err ErrGetFailed))
    by (vm_compute; reflexivity).
  destruct (open_price_failure_keeps_leverage (ext := sample_externals)
              "ETHUSDT" (F64.lit 1 100) 10 ex (state_with ∅) s1 s2 _
              Hlev Hprice) as (Hlong & _).
  now rewrite Hlong.
Defined.

(** ** Closing positions: the order *)

Lemma CloseLong_unfold `{ext : Externals} (symbol : string) (quantity : float64) :
  CloseLong symbol quantity =
  (q ← resolve_quantity symbol "long" quantity (ErrNoLongPosition symbol);
   marketIndex ← getMarketIndex symbol;
   price ← GetMarketPrice symbol;
   close_tail symbol q (F64.lit 99 100) 1 ErrCloseLong marketIndex price).
Proof. reflexivity. Qed.

Lemma CloseShort_unfold `{ext : Externals} (symbol : string) (quantity : float64) :
  CloseShort symbol quantity =
  (q ← resolve_quantity symbol "short" quantity (ErrNoShortPosition symbol);
   marketIndex ← getMarketIndex symbol;
   price ← GetMarketPrice symbol;
   close_tail symbol q (F64.lit 101 100) 0 ErrCloseShort marketIndex price).
Proof. reflexivity. Qed.

Lemma close_tail_run `{ext : Externals} (symbol : string)
    (quantity factor : float64) (isAsk : Z) (failure : error)
    (marketIndex : N) (price : float64) (ex : Exchange) (s2 : State) :
  let req :=
    ioc_order marketIndex (Z.quot (time_now ex (asked s2)) 1000000)
      (convertToBaseAmount (marketInfoCache s2) symbol quantity)
      (convertToLighterPrice (marketInfoCache s2) symbol (F64.mul price factor))
      isAsk 1 in
  let run := close_tail symbol quantity factor isAsk failure marketIndex price
               ex s2 in
  match tx_createOrder ex (S (asked s2)) req with
  | None =>
      trace (fst run) = trace s2 ++ [CreateOrderTx req] /\
      snd run = Err failure
  | Some hash =>
      (exists cancel,
         trace (fst run)
         = trace s2 ++ [CreateOrderTx req; CancelAllOrdersTx cancel]) /\
      snd run = Ok (pending (Z.quot (time_now ex (asked s2)) 1000000) symbol hash)
  end.
Proof.
  intros req run. subst run. unfold close_tail.
  rewrite bind_unfold. cbn [get_cache]. rewrite bind_unfold. cbn [now].
  rewrite bind_unfold. cbn [ask asked]. fold req.
  destruct (tx_createOrder ex (S (asked s2)) req) as [hash|];
    [|split; reflexivity].
  rewrite bind_unfold.
  match goal with
  | |- context [attempt (CancelAllOrders symbol) ex ?s] =>
      destruct (attempt (CancelAllOrders symbol) ex s) as [s5 o] eqn:E
  end.
  apply attempt_CancelAllOrders_run in E as (cancel & err & -> & [_ T] & _).
  cbn [trace] in T. cbn [fst snd mret M_ret]. split; [|reflexivity].
  exists cancel. rewrite T. now rewrite <- app_assoc.
Qed.

Lemma resolve_quantity_given `{ext : Externals} (symbol side : string)
    (quantity : float64) (notFound : error) (ex : Exchange) (st : State) :
  F64.eqb quantity F64.zero = false ->
  resolve_quantity symbol side quantity notFound ex st = (st, Ok quantity).
Proof. intros H. unfold resolve_quantity. now rewrite H. Qed.

(** X19: [CloseLong] with a quantity other than zero asks for no positions.
    Once the market index and the price [p] are resolved it submits a sell
    ([IsAsk = 1]) reduce-only IOC limit order, sized by the encoding of the
    quantity and priced at the encoding of [p * 0.99]. If the signer refuses,
    the result is the "close long" error; otherwise the result carries the
    order's client index, the symbol, the status "PENDING" and the hash, and
    one cancellation follows the order. *)
Theorem CloseLong_sells_reduce_only `{ext : Externals} (symbol : string)
    (quantity : float64) (ex : Exchange) (st s1 s2 : State) (id : N)
    (p : float64) :
  F64.eqb quantity F64.zero = false ->
  getMarketIndex symbol ex st = (s1, Ok id) ->
  GetMarketPrice symbol ex s1 = (s2, Ok p) ->
  exists req,
    req = ioc_order id (Z.quot (time_now ex (asked s2)) 1000000)
            (convertToBaseAmount (marketInfoCache s2) symbol quantity)
            (convertToLighterPrice (marketInfoCache s2) symbol
               (F64.mul p (F64.lit 99 100)))
            1 1 /\
    let run := CloseLong symbol quantity ex st in
    match tx_createOrder ex (S (asked s2)) req with
    | None =>
        trace (fst run) = trace s2 ++ [CreateOrderTx req] /\
        snd run = Err ErrCloseLong
    | Some hash =>
        (exists cancel,
           trace (fst run)
           = trace s2 ++ [CreateOrderTx req; CancelAllOrdersTx cancel]) /\
        snd run
        = Ok {| OrderResult.orderId := CreateOrderTxReq.ClientOrderIndex req;
                OrderResult.symbol := symbol;
                OrderResult.status := "PENDING";
                OrderResult.hash := hash |}
    end.
Proof.
  intros Hq Hidx Hprice. eexists. split; [reflexivity|]. cbn zeta.
  rewrite CloseLong_unfold.
  rewrite bind_unfold, (resolve_quantity_given _ _ _ _ _ _ Hq).
  rewrite bind_unfold, Hidx, bind_unfold, Hprice.
  exact (close_tail_run symbol quantity (F64.lit 99 100) 1 ErrCloseLong id p
           ex s2).
Qed.

Lemma CloseLong_sells_reduce_only_witness :
  let ex := sample_exchange [ETH] [] true true true in
  let run := CloseLong (ext := sample_externals) "ETHUSDT" (F64.lit 1 10) ex
               (state_with ∅) in
  exists req cancel,
    trace (fst run) =
      [GetOrderBooks; GetOrderBookDetails 0; CreateOrderTx req;
       CancelAllOrdersTx cancel] /\
    CreateOrderTxReq.IsAsk req = 1 /\
    CreateOrderTxReq.ReduceOnly req = 1 /\
    CreateOrderTxReq.BaseAmount req = 1000 /\
    CreateOrderTxReq.Price req = 297000.
Proof.
  intros ex run.
  pose (s1 := fst (getMarketIndex "ETHUSDT" ex (state_with ∅))).
  pose (s2 := fst (GetMarketPrice (ext := sample_externals) "ETHUSDT" ex s1)).
  assert (Hidx : getMarketIndex "ETHUSDT" ex (state_with ∅) = (s1, Ok 0%N))
    by (vm_compute; reflexivity).
  assert (Hprice : GetMarketPrice (ext := sample_externals) "ETHUSDT" ex s1
                   = (s2, Ok (F64.of_Z 3000)))
    by (vm_compute; reflexivity).
  destruct (CloseLong_sells_reduce_only (ext := sample_externals) "ETHUSDT"
              (F64.lit 1 10) ex (state_with ∅) s1 s2 0%N (F64.of_Z 3000)
              eq_refl Hidx Hprice) as (req & Hreq & Hrun).
  cbn zeta in Hrun.
  assert (Hsign : tx_createOrder ex (S (asked s2)) req = Some "h2"%string)
    by reflexivity.
  rewrite Hsign in Hrun. destruct Hrun as [[cancel Ht] _].
  exists req, cancel. split; [exact Ht|].
  rewrite Hreq. repeat split; vm_compute; reflexivity.
Defined.

(** X20: [CloseShort] with a quantity other than zero asks for no positions.
    Once the market index and the price [p] are resolved it submits a buy
    ([IsAsk = 0]) reduce-only IOC limit order, sized by the encoding of the
    quantity and priced at the encoding of [p * 1.01]; a refusal of the
    signer gives the "close short" error, and otherwise one cancellation
    follows the order. *)
Theorem CloseShort_buys_reduce_only `{ext : Externals} (symbol : string)
    (quantity : float64) (ex : Exchange) (st s1 s2 : State) (id : N)
    (p : float64) :
  F64.eqb quantity F64.zero = false ->
  getMarketIndex symbol ex st = (s1, Ok id) ->
  GetMarketPrice symbol ex s1 = (s2, Ok p) ->
  exists req,
    req = ioc_order id (Z.quot (time_now ex (asked s2)) 1000000)
            (convertToBaseAmount (marketInfoCache s2) symbol quantity)
            (convertToLighterPrice (marketInfoCache s2) symbol
               (F64.mul p (F64.lit 101 100)))
            0 1 /\
    let run := CloseShort symbol quantity ex st in
    match tx_createOrder ex (S (asked s2)) req with
    | None =>
        trace (fst run) = trace s2 ++ [CreateOrderTx req] /\
        snd run = Err ErrCloseShort
    | Some hash =>
        (exists cancel,
           trace (fst run)
           = trace s2 ++ [CreateOrderTx req; CancelAllOrdersTx cancel]) /\
        snd run
        = Ok {| OrderResult.orderId := CreateOrderTxReq.ClientOrderIndex req;
                OrderResult.symbol := symbol;
                OrderResult.status := "PENDING";
                OrderResult.hash := hash |}
    end.
Proof.
  intros Hq Hidx Hprice. eexists. split; [reflexivity|]. cbn zeta.
  rewrite CloseShort_unfold.
  rewrite bind_unfold, (resolve_quantity_given _ _ _ _ _ _ Hq).
  rewrite bind_unfold, Hidx, bind_unfold, Hprice.
  exact (close_tail_run symbol quantity (F64.lit 101 100) 0 ErrCloseShort id p
           ex s2).
Qed.

Lemma CloseShort_buys_reduce_only_witness :
  let ex := sample_exchange [ETH] [] true false true in
  let run := CloseShort (ext := sample_externals) "ETHUSDT" (F64.lit 1 10) ex
               (state_with ∅) in
  exists req,
    trace (fst run) =
      [GetOrderBooks; GetOrderBookDetails 0; CreateOrderTx req] /\
    snd run = Err ErrCloseShort /\
    CreateOrderTxReq.IsAsk req = 0 /\
    CreateOrderTxReq.Price req = 303000.
Proof.
  intros ex run.
  pose (s1 := fst (getMarketIndex "ETHUSDT" ex (state_with ∅))).
  pose (s2 := fst (GetMarketPrice (ext := sample_externals) "ETHUSDT" ex s1)).
  assert (Hidx : getMarketIndex "ETHUSDT" ex (state_with ∅) = (s1, Ok 0%N))
    by (vm_compute; reflexivity).
  assert (Hprice : GetMarketPrice (ext := sample_externals) "ETHUSDT" ex s1
                   = (s2, Ok (F64.of_Z 3000)))
    by (vm_compute; reflexivity).
  destruct (CloseShort_buys_reduce_only (ext := sample_externals) "ETHUSDT"
              (F64.lit 1 10) ex (state_with ∅) s1 s2 0%N (F64.of_Z 3000)
              eq_refl Hidx Hprice) as (req & Hreq & Hrun).
  cbn zeta in Hrun.
  assert (Hsign : tx_createOrder ex (S (asked s2)) req = None) by reflexivity.
  rewrite Hsign in Hrun. destruct Hrun as [Ht Hout].
  exists req. split; [exact Ht|]. split; [exact Hout|].
  rewrite Hreq. split; vm_compute; reflexivity.
Defined.

Lemma GetPositions_amount_not_zero `{ext : Externals} (ex : Exchange)
    (st st' : State) (l : list PositionMap.t) :
  GetPositions ex st = (st', Ok l) ->
  forall e, e ∈ l -> F64.eqb (PositionMap.positionAmt e) F64.zero = false.
Proof.
  intros H. apply GetPositions_run in H as (_ & _ & _ & Hl).
  destruct (Hl l eq_refl) as (resp & _ & ->).
  intros e He. apply list_elem_of_omap in He as (pos & _ & Hpos).
  pose proof (position_entry_cases pos) as Hc. cbn zeta in Hc.
  destruct (F64.eqb (fst (strconv_ParseFloat (lighterAccountPosition.Position pos)))
              F64.zero) eqn:Hz; [congruence|].
  destruct Hc as (e' & He' & _ & Hside).
  rewrite Hpos in He'. injection He' as <-.
  destruct (0 <? lighterAccountPosition.Sign pos);
    destruct Hside as [_ ->]; [exact Hz | now apply absFloat64_not_zero].
Qed.

(** X21: [CloseLong] with a zero quantity closes the whole position: when
    the positions are fetched and hold a long position of the symbol, the
    order is sized by the encoding of the amount of the first such position.
    It is a sell reduce-only IOC limit order at the encoding of [p * 0.99],
    placed after the account request. *)
Theorem CloseLong_whole_position `{ext : Externals} (symbol : string)
    (quantity : float64) (ex : Exchange) (st s0 s1 s2 : State)
    (positions : list PositionMap.t) (pos : PositionMap.t) (id : N)
    (p : float64) :
  F64.eqb quantity F64.zero = true ->
  GetPositions ex st = (s0, Ok positions) ->
  find (fun pos => String.eqb (PositionMap.symbol pos) symbol
                   && String.eqb (PositionMap.side pos) "long") positions
    = Some pos ->
  getMarketIndex symbol ex s0 = (s1, Ok id) ->
  GetMarketPrice symbol ex s1 = (s2, Ok p) ->
  exists req rest,
    trace (fst (CloseLong symbol quantity ex st))
      = trace s2 ++ CreateOrderTx req :: rest /\
    (exists mid, trace s2 = trace st ++ GetAccount (accountIndex st) :: mid) /\
    req = ioc_order id (Z.quot (time_now ex (asked s2)) 1000000)
            (convertToBaseAmount (marketInfoCache s2) symbol
               (PositionMap.positionAmt pos))
            (convertToLighterPrice (marketInfoCache s2) symbol
               (F64.mul p (F64.lit 99 100)))
            1 1.
Proof.
  intros Hq Hget Hfind Hidx Hprice.
  assert (Hamt : F64.eqb (PositionMap.positionAmt pos) F64.zero = false).
  { apply (GetPositions_amount_not_zero _ _ _ _ Hget).
    apply find_some in Hfind as [Hin _]. now apply list_elem_of_In. }
  assert (Hres : resolve_quantity symbol "long" quantity
                   (ErrNoLongPosition symbol) ex st
                 = (s0, Ok (PositionMap.positionAmt pos))).
  { unfold resolve_quantity.
    rewrite Hq, bind_unfold, Hget, Hfind, Hamt. reflexivity. }
  pose proof (close_tail_run symbol (PositionMap.positionAmt pos)
                (F64.lit 99 100) 1 ErrCloseLong id p ex s2) as Htail.
  cbn zeta in Htail.
  rewrite CloseLong_unfold.
  rewrite bind_unfold, Hres, bind_unfold, Hidx, bind_unfold, Hprice.
  assert (Hmid : exists mid,
            trace s2 = trace st ++ GetAccount (accountIndex st) :: mid).
  { apply GetPositions_run in Hget as (S0 & _).
    apply getMarketIndex_run in Hidx as (n1 & S1 & _).
    apply GetMarketPrice_quiet in Hprice as (_ & n2 & S2 & _).
    pose proof (steps_trans _ _ _ _ _ (steps_trans _ _ _ _ _ S0 S1) S2) as S.
    exists (n1 ++ n2). rewrite (steps_trace _ _ _ S).
    now rewrite <- !app_assoc. }
  eexists.
  destruct (tx_createOrder ex (S (asked s2)) _) as [hash|].
  - destruct Htail as [[cancel Ht] _]. exists [CancelAllOrdersTx cancel].
    split; [exact Ht|]. now split.
  - destruct Htail as [Ht _]. exists []. split; [exact Ht|]. now split.
Qed.

Lemma CloseLong_whole_position_witness :
  let ex := sample_exchange [ETH] [account_position "ETH" "2.5" 1]
              true true true in
  exists req rest,
    trace (fst (CloseLong (ext := sample_externals) "ETHUSDT" F64.zero ex
                  (state_with ∅)))
      = [GetAccount 1; GetOrderBooks; GetOrderBookDetails 0]
          ++ CreateOrderTx req :: rest /\
    CreateOrderTxReq.BaseAmount req = 25000.
Proof.
  intros ex.
  pose (s0 := fst (GetPositions (ext := sample_externals) ex (state_with ∅))).
  pose (s1 := fst (getMarketIndex "ETHUSDT" ex s0)).
  pose (s2 := fst (GetMarketPrice (ext := sample_externals) "ETHUSDT" ex s1)).
  assert (Hget : exists pos,
            GetPositions (ext := sample_externals) ex (state_with ∅)
              = (s0, Ok [pos]) /\
            PositionMap.symbol pos = "ETHUSDT"%string /\
            PositionMap.side pos = "long"%string /\
            PositionMap.positionAmt pos = F64.lit 25 10)
    by (vm_compute; eexists; repeat split).
  destruct Hget as (pos & Hget & Hsym & Hside & Hamt).
  assert (Hfind : find (fun pos => String.eqb (PositionMap.symbol pos) "ETHUSDT"
                                   && String.eqb (PositionMap.side pos) "long")
                    [pos] = Some pos)
    by (cbn [find]; rewrite Hsym, Hside; reflexivity).
  assert (Hidx : getMarketIndex "ETHUSDT" ex s0 = (s1, Ok 0%N))
    by (vm_compute; reflexivity).
  assert (Hprice : GetMarketPrice (ext := sample_externals) "ETHUSDT" ex s1
                   = (s2, Ok (F64.of_Z 3000)))
    by (vm_compute; reflexivity).
  destruct (CloseLong_whole_position (ext := sample_externals) "ETHUSDT"
              F64.zero ex (state_with ∅) s0 s1 s2 [pos] pos 0%N (F64.of_Z 3000)
              eq_refl Hget Hfind Hidx Hprice) as (req & rest & Ht & _ & Hreq).
  assert (Hpre : trace s2 = [GetAccount 1; GetOrderBooks; GetOrderBookDetails 0])
    by (vm_compute; reflexivity).
  rewrite Hpre in Ht.
  exists req, rest. split; [exact Ht|].
  rewrite Hreq, Hamt. vm_compute. reflexivity.
Defined.

(** X22: [CloseShort] with a zero quantity, when the positions are fetched
    and none of them is a short position of the symbol, returns the error "no
    short position of symbol"; its only call is the account request, so no
    order is created and nothing is cancelled. *)
Theorem CloseShort_without_position `{ext : Externals} (symbol : string)
    (quantity : float64) (ex : Exchange) (st st1 : State)
    (positions : list PositionMap.t) :
  F64.eqb quantity F64.zero = true ->
  GetPositions ex st = (st1, Ok positions) ->
  (forall pos, pos ∈ positions ->
     ~ (PositionMap.symbol pos = symbol /\ PositionMap.side pos = "short"%string)) ->
  CloseShort symbol quantity ex st = (st1, Err (ErrNoShortPosition symbol)) /\
  trace st1 = trace st ++ [GetAccount (accountIndex st)].
Proof.
  intros Hq Hget Hnone.
  assert (Hfind : find (fun pos => String.eqb (PositionMap.symbol pos) symbol
                                   && String.eqb (PositionMap.side pos) "short")
                    positions = None).
  { destruct (find _ positions) as [pos|] eqn:Hf; [|reflexivity].
    apply find_some in Hf as [Hin Hb]. exfalso.
    apply (Hnone pos); [now apply list_elem_of_In|].
    apply andb_prop in Hb as [H1 H2]. now split; apply String.eqb_eq. }
  split.
  - unfold CloseShort. rewrite bind_unfold. unfold resolve_quantity.
    rewrite Hq, bind_unfold, Hget, Hfind, Hq. reflexivity.
  - apply GetPositions_run in Hget as ([_ Ht] & _). exact Ht.
Qed.

Lemma CloseShort_without_position_witness :
  snd (CloseShort (ext := sample_externals) "ETHUSDT" F64.zero
         (sample_exchange [ETH] [account_position "ETH" "2.5" 1]
            true true true)
         (state_with {[ "ETH"%string := ETH ]}))
  = Err (ErrNoShortPosition "ETHUSDT").
Proof.
  pose (ex := sample_exchange [ETH] [account_position "ETH" "2.5" 1]
                true true true).
  pose (st := state_with {[ "ETH"%string := ETH ]}).
  assert (Hget : GetPositions (ext := sample_externals) ex st
                 = (fst (GetPositions (ext := sample_externals) ex st),
                    Ok (omap (position_entry (ext := sample_externals))
                          [account_position "ETH" "2.5" 1])))
    by (vm_compute; reflexivity).
  assert (Hnone : forall pos,
            pos ∈ omap (position_entry (ext := sample_externals))
                    [account_position "ETH" "2.5" 1] ->
            ~ (PositionMap.symbol pos = "ETHUSDT"%string /\
               PositionMap.side pos = "short"%string)).
  { intros pos Hin [_ Hside].
    apply list_elem_of_singleton in Hin. subst pos. discriminate Hside. }
  destruct (CloseShort_without_position (ext := sample_externals) "ETHUSDT"
              F64.zero ex st _ _ eq_refl Hget Hnone) as [Hrun _].
  fold ex st. rewrite Hrun. reflexivity.
Defined.

(** ** Protective orders *)

Lemma thirty_days (t : Z) :
  (t + 30 * 24 * time_Hour) / 1000000 = t / 1000000 + 2592000000.
Proof.
  unfold time_Hour.
  replace (t + 30 * 24 * 3600000000000) with (t + 2592000000 * 1000000) by lia.
  apply Z.div_add. lia.
Qed.

Lemma SetStopLoss_run `{ext : Externals} (symbol positionSide : string)
    (quantity stopPrice : float64) (ex : Exchange) (st s1 : State) (id : N) :
  getMarketIndex symbol ex st = (s1, Ok id) ->
  let req :=
    {| CreateOrderTxReq.MarketIndex := id;
       CreateOrderTxReq.ClientOrderIndex := Z.quot (time_now ex (asked s1)) 1000000;
       CreateOrderTxReq.BaseAmount :=
         convertToBaseAmount (marketInfoCache s1) symbol quantity;
       CreateOrderTxReq.Price :=
         convertToLighterPrice (marketInfoCache s1) symbol stopPrice;
       CreateOrderTxReq.IsAsk := if String.eqb positionSide "LONG" then 1 else 0;
       CreateOrderTxReq.Type_ := StopLossOrder;
       CreateOrderTxReq.TimeInForce := ImmediateOrCancel;
       CreateOrderTxReq.ReduceOnly := 1;
       CreateOrderTxReq.TriggerPrice :=
         convertToLighterPrice (marketInfoCache s1) symbol stopPrice;
       CreateOrderTxReq.OrderExpiry :=
         (time_now ex (S (asked s1)) + 30 * 24 * time_Hour) / 1000000 |} in
  SetStopLoss symbol positionSide quantity stopPrice ex st =
    ({| accountIndex := accountIndex s1;
        marketInfoCache := marketInfoCache s1;
        asked := S (S (S (asked s1)));
        trace := trace s1 ++ [CreateOrderTx req] |},
     match tx_createOrder ex (S (S (asked s1))) req with
     | Some _ => Ok tt
     | None => Err ErrSetStopLoss
     end).
Proof.
  intros Hidx req. unfold SetStopLoss.
  rewrite bind_unfold, Hidx. rewrite bind_unfold. cbn [get_cache].
  rewrite bind_unfold. cbn [now]. rewrite bind_unfold. cbn [now asked].
  rewrite bind_unfold. cbn [ask asked trace accountIndex marketInfoCache].
  fold req. now destruct (tx_createOrder ex (S (S (asked s1))) req).
Qed.

Lemma SetTakeProfit_run `{ext : Externals} (symbol positionSide : string)
    (quantity takeProfitPrice : float64) (ex : Exchange) (st s1 : State)
    (id : N) :
  getMarketIndex symbol ex st = (s1, Ok id) ->
  let req :=
    {| CreateOrderTxReq.MarketIndex := id;
       CreateOrderTxReq.ClientOrderIndex := Z.quot (time_now ex (asked s1)) 1000000;
       CreateOrderTxReq.BaseAmount :=
         convertToBaseAmount (marketInfoCache s1) symbol quantity;
       CreateOrderTxReq.Price :=
         convertToLighterPrice (marketInfoCache s1) symbol takeProfitPrice;
       CreateOrderTxReq.IsAsk := if String.eqb positionSide "LONG" then 1 else 0;
       CreateOrderTxReq.Type_ := TakeProfitOrder;
       CreateOrderTxReq.TimeInForce := ImmediateOrCancel;
       CreateOrderTxReq.ReduceOnly := 1;
       CreateOrderTxReq.TriggerPrice :=
         convertToLighterPrice (marketInfoCache s1) symbol takeProfitPrice;
       CreateOrderTxReq.OrderExpiry :=
         (time_now ex (S (asked s1)) + 30 * 24 * time_Hour) / 1000000 |} in
  SetTakeProfit symbol positionSide quantity takeProfitPrice ex st =
    ({| accountIndex := accountIndex s1;
        marketInfoCache := marketInfoCache s1;
        asked := S (S (S (asked s1)));
        trace := trace s1 ++ [CreateOrderTx req] |},
     match tx_createOrder ex (S (S (asked s1))) req with
     | Some _ => Ok tt
     | None => Err ErrSetTakeProfit
     end).
Proof.
  intros Hidx req. unfold SetTakeProfit.
  rewrite bind_unfold, Hidx. rewrite bind_unfold. cbn [get_cache].
  rewrite bind_unfold. cbn [now]. rewrite bind_unfold. cbn [now asked].
  rewrite bind_unfold. cbn [ask asked trace accountIndex marketInfoCache].
  fold req. now destruct (tx_createOrder ex (S (S (asked s1))) req).
Qed.

(** X23: once the market index is resolved, [SetStopLoss] makes exactly one
    call, a stop-loss order that is reduce-only, on the sell side when the
    position side is "LONG" and on the buy side for any other string, with
    the trigger price equal to the limit price (the encoding of the stop
    price) and an expiry exactly 30 days (2592000000 ms) after the second
    clock reading in milliseconds. It neither cancels orders nor touches the
    leverage or the cache, and its error, if any, is the signer's refusal. *)
Theorem SetStopLoss_order `{ext : Externals} (symbol positionSide : string)
    (quantity stopPrice : float64) (ex : Exchange) (st s1 : State) (id : N) :
  getMarketIndex symbol ex st = (s1, Ok id) ->
  let run := SetStopLoss symbol positionSide quantity stopPrice ex st in
  exists req,
    trace (fst run) = trace s1 ++ [CreateOrderTx req] /\
    marketInfoCache (fst run) = marketInfoCache s1 /\
    CreateOrderTxReq.MarketIndex req = id /\
    CreateOrderTxReq.IsAsk req
      = (if String.eqb positionSide "LONG" then 1 else 0) /\
    CreateOrderTxReq.Type_ req = StopLossOrder /\
    CreateOrderTxReq.ReduceOnly req = 1 /\
    CreateOrderTxReq.BaseAmount req
      = convertToBaseAmount (marketInfoCache s1) symbol quantity /\
    CreateOrderTxReq.Price req
      = convertToLighterPrice (marketInfoCache s1) symbol stopPrice /\
    CreateOrderTxReq.TriggerPrice req = CreateOrderTxReq.Price req /\
    CreateOrderTxReq.OrderExpiry req
      = time_now ex (S (asked s1)) / 1000000 + 2592000000 /\
    snd run = match tx_createOrder ex (S (S (asked s1))) req with
              | Some _ => Ok tt
              | None => Err ErrSetStopLoss
              end.
Proof.
  intros Hidx run. subst run.
  rewrite (SetStopLoss_run _ _ _ _ _ _ _ _ Hidx). cbn zeta.
  eexists. split; [reflexivity|]. cbn [fst snd marketInfoCache].
  repeat split. apply thirty_days.
Qed.

Lemma SetStopLoss_order_witness :
  let run := SetStopLoss (ext := sample_externals) "ETHUSDT" "LONG"
               (F64.lit 1 10) (F64.of_Z 2900)
               (sample_exchange [ETH] [] true true true)
               (state_with {[ "ETH"%string := ETH ]}) in
  exists req,
    trace (fst run) = [CreateOrderTx req] /\
    CreateOrderTxReq.IsAsk req = 1 /\
    CreateOrderTxReq.Price req = 290000 /\
    CreateOrderTxReq.TriggerPrice req = 290000 /\
    CreateOrderTxReq.OrderExpiry req = 1700000000000 + 2592000000.
Proof.
  intros run.
  assert (Hidx : getMarketIndex "ETHUSDT"
                   (sample_exchange [ETH] [] true true true)
                   (state_with {[ "ETH"%string := ETH ]})
                 = (state_with {[ "ETH"%string := ETH ]}, Ok 0%N))
    by (vm_compute; reflexivity).
  destruct (SetStopLoss_order (ext := sample_externals) "ETHUSDT" "LONG"
              (F64.lit 1 10) (F64.of_Z 2900) _ _ _ _ Hidx)
    as (req & Ht & _ & _ & Hask & _ & _ & _ & Hp & Htp & Hexp & _).
  exists req. split; [exact Ht|]. split; [exact Hask|].
  assert (Hprice : convertToLighterPrice (ext := sample_externals)
                     (marketInfoCache (state_with {[ "ETH"%string := ETH ]}))
                     "ETHUSDT" (F64.of_Z 2900) = 290000)
    by (vm_compute; reflexivity).
  rewrite Hprice in Hp.
  split; [exact Hp|]. split; [now rewrite Htp|].
  rewrite Hexp. vm_compute. reflexivity.
Defined.

(** X24: for the same arguments and the same state, [SetTakeProfit] builds
    the order of [SetStopLoss] with the order type changed to take-profit
    and nothing else: same market, side, size, prices, client index and
    expiry. *)
Theorem SetTakeProfit_like_SetStopLoss `{ext : Externals}
    (symbol positionSide : string) (quantity price : float64) (ex : Exchange)
    (st s1 : State) (id : N) :
  getMarketIndex symbol ex st = (s1, Ok id) ->
  exists req,
    trace (fst (SetStopLoss symbol positionSide quantity price ex st))
      = trace s1 ++ [CreateOrderTx req] /\
    CreateOrderTxReq.Type_ req = StopLossOrder /\
    trace (fst (SetTakeProfit symbol positionSide quantity price ex st))
      = trace s1 ++
          [CreateOrderTx
             {| CreateOrderTxReq.MarketIndex := CreateOrderTxReq.MarketIndex req;
                CreateOrderTxReq.ClientOrderIndex :=
                  CreateOrderTxReq.ClientOrderIndex req;
                CreateOrderTxReq.BaseAmount := CreateOrderTxReq.BaseAmount req;
                CreateOrderTxReq.Price := CreateOrderTxReq.Price req;
                CreateOrderTxReq.IsAsk := CreateOrderTxReq.IsAsk req;
                CreateOrderTxReq.Type_ := TakeProfitOrder;
                CreateOrderTxReq.TimeInForce := CreateOrderTxReq.TimeInForce req;
                CreateOrderTxReq.ReduceOnly := CreateOrderTxReq.ReduceOnly req;
                CreateOrderTxReq.TriggerPrice := CreateOrderTxReq.TriggerPrice req;
                CreateOrderTxReq.OrderExpiry := CreateOrderTxReq.OrderExpiry req |}].
Proof.
  intros Hidx.
  rewrite (SetStopLoss_run _ _ _ _ _ _ _ _ Hidx).
  rewrite (SetTakeProfit_run _ _ _ _ _ _ _ _ Hidx). cbn zeta.
  eexists. split; [reflexivity|]. split; reflexivity.
Qed.

Lemma SetTakeProfit_like_SetStopLoss_witness :
  let ex := sample_exchange [ETH] [] true true true in
  let st := state_with {[ "ETH"%string := ETH ]} in
  exists req,
    trace (fst (SetTakeProfit (ext := sample_externals) "ETHUSDT" "SHORT"
                  (F64.lit 1 10) (F64.of_Z 2900) ex st))
      = [CreateOrderTx req] /\
    CreateOrderTxReq.Type_ req = TakeProfitOrder /\
    CreateOrderTxReq.IsAsk req = 0.
Proof.
  intros ex st.
  assert (Hidx : getMarketIndex "ETHUSDT" ex st = (st, Ok 0%N))
    by (vm_compute; reflexivity).
  destruct (SetTakeProfit_like_SetStopLoss (ext := sample_externals)
              "ETHUSDT" "SHORT" (F64.lit 1 10) (F64.of_Z 2900) ex st st 0%N
              Hidx) as (req & Hsl & _ & Htp).
  eexists. split; [exact Htp|]. split; [reflexivity|].
  cbn [CreateOrderTxReq.IsAsk].
  vm_compute in Hsl. injection Hsl as <-. reflexivity.
Defined.

Lemma getMarketIndex_error (symbol : string) (ex : Exchange) (st st' : State)
    (e : error) :
  getMarketIndex symbol ex st = (st', Err e) ->
  e = ErrMarketIndexNotFound symbol /\
  trace st' = trace st ++ [GetOrderBooks].
Proof.
  unfold getMarketIndex. rewrite bind_unfold. cbn [get_cache].
  destruct (marketInfoCache st !! convertSymbolToLighterCoin symbol);
    [discriminate|].
  rewrite bind_unfold. unfold attempt.
  destruct (loadMarketInfo ex st) as [st1 o] eqn:Hload.
  apply loadMarketInfo_run in Hload as [[_ Ht] Ho].
  destruct o as [[]|e'|]; [| |contradiction].
  - rewrite bind_unfold. cbn [get_cache].
    destruct (marketInfoCache st1 !! convertSymbolToLighterCoin symbol);
      [discriminate|]. intros [= <- <-]. now split.
  - intros [= <- <-]. now split.
Qed.

(** X25: when the market of the symbol cannot be resolved, [SetStopLoss] and
    [SetTakeProfit] return the "market index not found" error; they have
    made the one market list request of the lookup and created no order. *)
Theorem protective_order_needs_market `{ext : Externals}
    (symbol positionSide : string) (quantity price : float64) (ex : Exchange)
    (st s1 : State) (e : error) :
  getMarketIndex symbol ex st = (s1, Err e) ->
  SetStopLoss symbol positionSide quantity price ex st
    = (s1, Err (ErrMarketIndexNotFound symbol)) /\
  SetTakeProfit symbol positionSide quantity price ex st
    = (s1, Err (ErrMarketIndexNotFound symbol)) /\
  trace s1 = trace st ++ [GetOrderBooks].
Proof.
  intros Hidx. pose proof (getMarketIndex_error _ _ _ _ _ Hidx) as [-> Ht].
  unfold SetStopLoss, SetTakeProfit.
  rewrite !(bind_unfold (getMarketIndex symbol)), Hidx. now repeat split.
Qed.

Lemma protective_order_needs_market_witness :
  snd (SetStopLoss (ext := sample_externals) "DOGEUSDT" "LONG" (F64.lit 1 10)
         (F64.of_Z 1) (sample_exchange [ETH] [] true true true)
         (state_with ∅))
  = Err (ErrMarketIndexNotFound "DOGEUSDT").
Proof.
  pose (ex := sample_exchange [ETH] [] true true true).
  assert (Hidx : getMarketIndex "DOGEUSDT" ex (state_with ∅)
                 = (fst (getMarketIndex "DOGEUSDT" ex (state_with ∅)),
                    Err (ErrMarketIndexNotFound "DOGEUSDT")))
    by (vm_compute; reflexivity).
  destruct (protective_order_needs_market (ext := sample_externals)
              "DOGEUSDT" "LONG" (F64.lit 1 10) (F64.of_Z 1) ex (state_with ∅)
              _ _ Hidx) as (Hsl & _).
  fold ex. now rewrite Hsl.
Defined.

(** X26: the sides that [GetPositions] reports are "long" and "short", and
    the protective orders recognise "LONG" only: for a position side taken
    from an entry of [GetPositions], long or short, [SetStopLoss] and
    [SetTakeProfit] place the order on the buy side ([IsAsk = 0]). *)
Theorem protective_order_side_of_reported_position `{ext : Externals}
    (pos : lighterAccountPosition.t) (entry : PositionMap.t)
    (symbol : string) (quantity price : float64) (ex : Exchange)
    (st s1 : State) (id : N) :
  position_entry pos = Some entry ->
  getMarketIndex symbol ex st = (s1, Ok id) ->
  String.eqb (PositionMap.side entry) "LONG" = false /\
  exists req req',
    trace (fst (SetStopLoss symbol (PositionMap.side entry) quantity price ex st))
      = trace s1 ++ [CreateOrderTx req] /\
    trace (fst (SetTakeProfit symbol (PositionMap.side entry) quantity price ex st))
      = trace s1 ++ [CreateOrderTx req'] /\
    CreateOrderTxReq.IsAsk req = 0 /\
    CreateOrderTxReq.IsAsk req' = 0.
Proof.
  intros Hentry Hidx.
  assert (Hside : String.eqb (PositionMap.side entry) "LONG" = false).
  { pose proof (position_entry_cases pos) as Hc. cbn zeta in Hc.
    destruct (F64.eqb _ F64.zero) in Hc; [congruence|].
    destruct Hc as (e & He & _ & Hs). rewrite Hentry in He.
    injection He as <-.
    destruct (0 <? lighterAccountPosition.Sign pos);
      destruct Hs as [-> _]; reflexivity. }
  split; [exact Hside|].
  rewrite (SetStopLoss_run _ _ _ _ _ _ _ _ Hidx).
  rewrite (SetTakeProfit_run _ _ _ _ _ _ _ _ Hidx). cbn zeta.
  do 2 eexists. split; [reflexivity|]. split; [reflexivity|].
  cbn [CreateOrderTxReq.IsAsk]. rewrite Hside. now split.
Qed.

Lemma protective_order_side_of_reported_position_witness :
  exists entry,
    position_entry (ext := sample_externals) (account_position "ETH" "2.5" 1)
      = Some entry /\
    PositionMap.side entry = "long"%string /\
    String.eqb (PositionMap.side entry) "LONG" = false.
Proof.
  assert (He : {entry | position_entry (ext := sample_externals)
                          (account_position "ETH" "2.5" 1) = Some entry})
    by (vm_compute; eexists; reflexivity).
  destruct He as [entry He].
  assert (Hidx : getMarketIndex "ETHUSDT"
                   (sample_exchange [ETH] [] true true true)
                   (state_with {[ "ETH"%string := ETH ]})
                 = (state_with {[ "ETH"%string := ETH ]}, Ok 0%N))
    by (vm_compute; reflexivity).
  destruct (protective_order_side_of_reported_position
              (ext := sample_externals) _ entry "ETHUSDT" (F64.lit 1 10)
              (F64.of_Z 2900) _ _ _ _ He Hidx) as [Hside _].
  exists entry. split; [exact He|]. split; [|exact Hside].
  vm_compute in He. injection He as <-. reflexivity.
Defined.

(** ** Best-effort cancellation *)

Section CancelAnswers.
Context `{ext : Externals}.
Variable answers : nat -> CancelAllOrdersTxReq.t -> option string.
Variable ex : Exchange.

Let ex' : Exchange := with_cancel_answers answers ex.

(** Two runs agree when their first parts agree and their continuations do. *)
Lemma bind_same {A B} (m : M A) (f : A -> M B) (st : State) :
  m ex' st = m ex st ->
  (forall a s, f a ex' s = f a ex s) ->
  (m ≫= f) ex' st = (m ≫= f) ex st.
Proof.
  intros Hm Hf. rewrite !bind_unfold, Hm.
  destruct (m ex st) as [s [a| |]]; [apply Hf | reflexivity | reflexivity].
Qed.

Lemma body_of_same {A} (r : http_result A) (st : State) :
  body_of r ex' st = body_of r ex st.
Proof.
  unfold body_of. destruct r as [| |status [resp|]]; try reflexivity;
    destruct (negb (status =? 200)); reflexivity.
Qed.

Lemma code_ok_same (code : Z) (message : string) (st : State) :
  code_ok code message ex' st = code_ok code message ex st.
Proof. unfold code_ok. destruct (negb (code =? 200)); reflexivity. Qed.

Lemma loadMarketInfo_same (st : State) :
  loadMarketInfo ex' st = loadMarketInfo ex st.
Proof.
  unfold loadMarketInfo. apply bind_same; [reflexivity|]. intros r s.
  apply bind_same; [apply body_of_same|]. intros resp s1.
  apply bind_same; [apply code_ok_same|]. intros _ s2.
  apply bind_same; [reflexivity|]. intros cache s3. reflexivity.
Qed.

Lemma getMarketIndex_same (symbol : string) (st : State) :
  getMarketIndex symbol ex' st = getMarketIndex symbol ex st.
Proof.
  unfold getMarketIndex. apply bind_same; [reflexivity|]. intros cache s.
  destruct (cache !! convertSymbolToLighterCoin symbol); [reflexivity|].
  apply bind_same.
  - unfold attempt. now rewrite loadMarketInfo_same.
  - intros [e|] s1; [reflexivity|].
    apply bind_same; [reflexivity|]. intros cache1 s2.
    destruct (cache1 !! convertSymbolToLighterCoin symbol); reflexivity.
Qed.

Lemma GetMarketPrice_same (symbol : string) (st : State) :
  GetMarketPrice symbol ex' st = GetMarketPrice symbol ex st.
Proof.
  unfold GetMarketPrice. apply bind_same; [reflexivity|]. intros cache s.
  destruct (cache !! convertSymbolToLighterCoin symbol); [|reflexivity].
  apply bind_same; [reflexivity|]. intros r s1.
  apply bind_same; [apply body_of_same|]. intros detail s2.
  assert (Hbook : forall s3,
            (if F64.ltb F64.zero (first_level_price "asks" detail)
                && F64.ltb F64.zero (first_level_price "bids" detail)
             then mret (F64.div (F64.add (first_level_price "asks" detail)
                                   (first_level_price "bids" detail))
                          (F64.of_Z 2))
             else fail (ErrPriceUnavailable symbol) : M float64) ex' s3
            = (if F64.ltb F64.zero (first_level_price "asks" detail)
                  && F64.ltb F64.zero (first_level_price "bids" detail)
               then mret (F64.div (F64.add (first_level_price "asks" detail)
                                     (first_level_price "bids" detail))
                            (F64.of_Z 2))
               else fail (ErrPriceUnavailable symbol) : M float64) ex s3).
  { intros s3.
    destruct (F64.ltb F64.zero (first_level_price "asks" detail)
              && F64.ltb F64.zero (first_level_price "bids" detail));
      reflexivity. }
  cbn zeta.
  destruct (any_lookup "mark_price" detail) as [[| | |str| |]|]; try apply Hbook.
  destruct (strconv_ParseFloat str) as [v [|]]; [reflexivity | apply Hbook].
Qed.

Lemma GetPositions_same (st : State) :
  GetPositions ex' st = GetPositions ex st.
Proof.
  unfold GetPositions. apply bind_same; [reflexivity|]. intros idx s.
  apply bind_same; [reflexivity|]. intros r s1.
  apply bind_same; [apply body_of_same|]. intros resp s2.
  apply bind_same; [apply code_ok_same|]. intros _ s3.
  destruct (lighterAccountResponse.Accounts resp); reflexivity.
Qed.

Lemma SetLeverage_same (symbol : string) (leverage : Z) (st : State) :
  SetLeverage symbol leverage ex' st = SetLeverage symbol leverage ex st.
Proof.
  unfold SetLeverage. apply bind_same; [apply getMarketIndex_same|].
  intros id s. destruct (int_div 10000 leverage); [|reflexivity].
  apply bind_same; [reflexivity|]. intros [h|] s1; reflexivity.
Qed.

Lemma resolve_quantity_same (symbol side : string) (quantity : float64)
    (notFound : error) (st : State) :
  resolve_quantity symbol side quantity notFound ex' st
  = resolve_quantity symbol side quantity notFound ex st.
Proof.
  unfold resolve_quantity. destruct (F64.eqb quantity F64.zero); [|reflexivity].
  apply bind_same; [apply GetPositions_same|]. intros positions s.
  match goal with
  | |- context [F64.eqb ?q F64.zero] => destruct (F64.eqb q F64.zero)
  end; reflexivity.
Qed.

(** Whatever the signer answers to a cancellation, the attempt leaves the
    same state and goes on. *)
Lemma attempt_cancel_same (symbol : string) (st : State) :
  exists err err',
    attempt (CancelAllOrders symbol) ex' st
      = (fst (attempt (CancelAllOrders symbol) ex st), Ok err) /\
    attempt (CancelAllOrders symbol) ex st
      = (fst (attempt (CancelAllOrders symbol) ex st), Ok err').
Proof.
  unfold attempt, CancelAllOrders.
  rewrite !bind_unfold. cbn [now]. rewrite !bind_unfold.
  cbn [ask asked ex' with_cancel_answers tx_cancelAllOrders time_now].
  destruct (answers (S (asked st)) _); destruct (tx_cancelAllOrders ex _ _);
    do 2 eexists; split; reflexivity.
Qed.

Lemma cancel_then_same {B} (symbol : string) (k : M B) (st : State) :
  (forall s, k ex' s = k ex s) ->
  (_ ← attempt (CancelAllOrders symbol); k) ex' st
  = (_ ← attempt (CancelAllOrders symbol); k) ex st.
Proof.
  intros Hk. rewrite !bind_unfold.
  destruct (attempt_cancel_same symbol st) as (err & err' & -> & ->).
  apply Hk.
Qed.

(** X27: the answers of the signer to the cancellations are best-effort
    only: with any other answers to the cancellation requests, [OpenLong],
    [OpenShort], [CloseLong] and [CloseShort] reach the same state, make the
    same calls and return the same result. *)
Theorem cancel_answers_do_not_matter (symbol : string) (quantity : float64)
    (leverage : Z) (st : State) :
  OpenLong symbol quantity leverage (with_cancel_answers answers ex) st
    = OpenLong symbol quantity leverage ex st /\
  OpenShort symbol quantity leverage (with_cancel_answers answers ex) st
    = OpenShort symbol quantity leverage ex st /\
  CloseLong symbol quantity (with_cancel_answers answers ex) st
    = CloseLong symbol quantity ex st /\
  CloseShort symbol quantity (with_cancel_answers answers ex) st
    = CloseShort symbol quantity ex st.
Proof.
  fold ex'.
  assert (Hsubmit : forall req (failure : error) (k : string -> M OrderResult.t) s,
            (forall hash s', k hash ex' s' = k hash ex s') ->
            (r ← ask (CreateOrderTx req) (fun ex n => tx_createOrder ex n req);
             match r with
             | None => fail failure
             | Some hash => k hash
             end) ex' s
            = (r ← ask (CreateOrderTx req) (fun ex n => tx_createOrder ex n req);
               match r with
               | None => fail failure
               | Some hash => k hash
               end) ex s).
  { intros req failure k s Hk. apply bind_same; [reflexivity|].
    intros [hash|] s'; [apply Hk | reflexivity]. }
  split; [|split; [|split]].
  - unfold OpenLong. apply cancel_then_same. intros s.
    apply bind_same; [apply SetLeverage_same|]. intros _ s1.
    apply bind_same; [apply getMarketIndex_same|]. intros id s2.
    apply bind_same; [apply GetMarketPrice_same|]. intros p s3.
    apply bind_same; [reflexivity|]. intros cache s4.
    apply bind_same; [reflexivity|]. intros t s5.
    apply Hsubmit. reflexivity.
  - unfold OpenShort. apply cancel_then_same. intros s.
    apply bind_same; [apply SetLeverage_same|]. intros _ s1.
    apply bind_same; [apply getMarketIndex_same|]. intros id s2.
    apply bind_same; [apply GetMarketPrice_same|]. intros p s3.
    apply bind_same; [reflexivity|]. intros cache s4.
    apply bind_same; [reflexivity|]. intros t s5.
    apply Hsubmit. reflexivity.
  - unfold CloseLong.
    apply bind_same; [apply resolve_quantity_same|]. intros q s.
    apply bind_same; [apply getMarketIndex_same|]. intros id s2.
    apply bind_same; [apply GetMarketPrice_same|]. intros p s3.
    apply bind_same; [reflexivity|]. intros cache s4.
    apply bind_same; [reflexivity|]. intros t s5.
    apply Hsubmit. intros hash s6. apply cancel_then_same. reflexivity.
  - unfold CloseShort.
    apply bind_same; [apply resolve_quantity_same|]. intros q s.
    apply bind_same; [apply getMarketIndex_same|]. intros id s2.
    apply bind_same; [apply GetMarketPrice_same|]. intros p s3.
    apply bind_same; [reflexivity|]. intros cache s4.
    apply bind_same; [reflexivity|]. intros t s5.
    apply Hsubmit. intros hash s6. apply cancel_then_same. reflexivity.
Qed.

End CancelAnswers.

(** ** The leverage request *)

(** X28: a successful [SetLeverage] with a leverage of at least 1 ends with
    one leverage update for the cached market of the symbol, in cross margin
    mode, whose margin fraction [imf] is 10000 divided by the leverage with
    the remainder dropped: [imf * leverage <= 10000 < (imf + 1) * leverage].
    It is therefore 0 for every leverage above 10000. *)
Theorem SetLeverage_request (symbol : string) (leverage : Z) (ex : Exchange)
    (st st' : State) :
  SetLeverage symbol leverage ex st = (st', Ok tt) ->
  1 <= leverage ->
  exists pre lev marketInfo,
    trace st' = trace st ++ pre ++ [UpdateLeverageTx lev] /\
    (pre = [] \/ pre = [GetOrderBooks]) /\
    marketInfoCache st' !! convertSymbolToLighterCoin symbol = Some marketInfo /\
    UpdateLeverageTxReq.MarketIndex lev = lighterOrderBook.MarketID marketInfo /\
    UpdateLeverageTxReq.MarginMode lev = CrossMargin /\
    let imf := UpdateLeverageTxReq.InitialMarginFraction lev in
    imf * leverage <= 10000 < (imf + 1) * leverage /\
    0 <= imf <= 10000 /\
    (10000 < leverage -> imf = 0).
Proof.
  intros H Hl.
  apply SetLeverage_run in H
    as (pre & Hpre & _ & lev & mi & S & Hmi & Hidx & Himf & Hmode).
  exists pre, lev, mi. split; [exact (steps_trace _ _ _ S)|].
  split; [exact Hpre|]. split; [exact Hmi|]. split; [exact Hidx|].
  split; [exact Hmode|]. cbn zeta. rewrite Himf, imf_of_leverage by exact Hl.
  pose proof (Z.mul_div_le 10000 leverage ltac:(lia)).
  pose proof (Z.mul_succ_div_gt 10000 leverage ltac:(lia)).
  assert (0 <= 10000 / leverage) by (apply Z.div_pos; lia).
  split; [lia|]. split.
  - split; [lia|]. apply Z.div_le_upper_bound; lia.
  - intros Hbig. apply Z.div_small. lia.
Qed.

Lemma SetLeverage_request_witness :
  exists pre lev,
    trace (fst (SetLeverage "ETHUSDT" 3
                  (sample_exchange [ETH] [] true true true) (state_with ∅)))
      = pre ++ [UpdateLeverageTx lev] /\
    UpdateLeverageTxReq.InitialMarginFraction lev = 3333.
Proof.
  pose (ex := sample_exchange [ETH] [] true true true).
  assert (Hrun : SetLeverage "ETHUSDT" 3 ex (state_with ∅)
                 = (fst (SetLeverage "ETHUSDT" 3 ex (state_with ∅)), Ok tt))
    by (vm_compute; reflexivity).
  assert (Hl : 1 <= 3) by lia.
  destruct (SetLeverage_request "ETHUSDT" 3 ex (state_with ∅) _ Hrun Hl)
    as (pre & lev & mi & Ht & _ & _ & _ & _ & Hb & _).
  exists pre, lev. split; [exact Ht|]. cbn zeta in Hb. lia.
Defined.
